(** * Deposit settlement engine of django-polaris: a shallow embedding

    The development follows
    [polaris/management/commands/poll_pending_deposits.py] and
    [polaris/management/commands/check_trustlines.py].

    Python objects that are mutated in place (the [Transaction] model
    instance) are threaded explicitly; the database, the Horizon server, the
    registered integrations and the log are an explicit state; Python
    exceptions are a result constructor that keeps the state reached when the
    exception was raised. *)

From Stdlib Require Import ZArith NArith List Ascii String Strings.Byte Bool Lia DecimalString.
From stdpp Require Import base option list gmap strings.

Local Open Scope string_scope.
Local Open Scope Z_scope.
Local Open Scope list_scope.

(** ** [decimal.Decimal], finite values, default context *)

Module PyDecimal.

(** A finite decimal: [coef * 10 ^ exp].  Signed zeros, NaN and the
    infinities are not represented: a [DecimalField] cannot hold them. *)
Record t : Type := mk { coef : Z; exp : Z }.

(** [decimal.getcontext()] of a fresh interpreter. *)
Definition prec : Z := 28.
Definition Emax : Z := 999999.
Definition Emin : Z := -999999.
Definition Etiny : Z := Emin - prec + 1.

(** The digits of [|n|], as Python's [Decimal._int]. *)
Definition digit_string (n : Z) : string :=
  NilZero.string_of_uint (N.to_uint (Z.abs_N n)).

Definition ndigits (n : Z) : Z := Z.of_nat (String.length (digit_string n)).

(** [ROUND_HALF_EVEN] of [a / d], for [0 < d]. *)
Definition div_half_even (a d : Z) : Z :=
  let q := a / d in
  let r := a mod d in
  match 2 * r ?= d with
  | Lt => q
  | Gt => q + 1
  | Eq => if Z.even q then q else q + 1
  end.

(** [Decimal._fix]: round the coefficient to the context precision. *)
Definition fix_prec (d : t) : t :=
  let n := ndigits (coef d) in
  if n <=? prec then d
  else
    let k := n - prec in
    let c := div_half_even (coef d) (10 ^ k) in
    if ndigits c <=? prec then mk c (exp d + k)
    else mk (c / 10) (exp d + k + 1).

Definition zero : t := mk 0 0.

Definition of_Z (n : Z) : t := mk n 0.

(** [a - b]: exact at the smaller exponent, then rounded to the context. *)
Definition sub (a b : t) : t :=
  let e := Z.min (exp a) (exp b) in
  fix_prec (mk (coef a * 10 ^ (exp a - e) - coef b * 10 ^ (exp b - e)) e).

Inductive quantize_result : Type :=
| Quantized (d : t)
| InvalidOperation (why : string).

(** [round(d, n)] is [d.quantize(Decimal((0, (1,), -n)))] under the
    context's rounding, [ROUND_HALF_EVEN]. *)
Definition round (d : t) (n : Z) : quantize_result :=
  let e := - n in
  if negb ((Etiny <=? e) && (e <=? Emax)) then
    InvalidOperation "target exponent out of bounds in quantize"
  else
    let c := if e <=? exp d
             then coef d * 10 ^ (exp d - e)
             else div_half_even (coef d) (10 ^ (e - exp d)) in
    if Emax <? e + ndigits c - 1 then
      InvalidOperation "exponent of quantize result too large for current context"
    else if prec <? ndigits c then
      InvalidOperation "quantize result has too many digits for current context"
    else Quantized (mk c e).

Definition string_of_Z (n : Z) : string :=
  NilZero.string_of_int (Z.to_int n).

Fixpoint zeros (n : nat) : string :=
  match n with
  | O => ""
  | S k => String "0" (zeros k)
  end.

(** [Decimal.__str__] (scientific notation, capitals). *)
Definition str (d : t) : string :=
  let sign := if coef d <? 0 then "-" else "" in
  let int_ := digit_string (coef d) in
  let len := Z.of_nat (String.length int_) in
  let leftdigits := exp d + len in
  let dotplace :=
    if (exp d <=? 0) && (-6 <? leftdigits) then leftdigits else 1 in
  let intpart :=
    if dotplace <=? 0 then "0"
    else if len <=? dotplace then int_ +:+ zeros (Z.to_nat (dotplace - len))
    else String.substring 0 (Z.to_nat dotplace) int_ in
  let fracpart :=
    if dotplace <=? 0 then "." +:+ zeros (Z.to_nat (- dotplace)) +:+ int_
    else if len <=? dotplace then ""
    else "." +:+ String.substring (Z.to_nat dotplace)
                   (Z.to_nat (len - dotplace)) int_ in
  let e := leftdigits - dotplace in
  let exp_ :=
    if e =? 0 then ""
    else "E" +:+ (if 0 <=? e then "+" else "") +:+ string_of_Z e in
  sign +:+ intpart +:+ fracpart +:+ exp_.

End PyDecimal.

Abbreviation Decimal := PyDecimal.t.

Arguments PyDecimal.sub : simpl never.
Arguments PyDecimal.round : simpl never.
Arguments PyDecimal.str : simpl never.

(** ** Byte strings: [bytes.hex], [base64] and the XDR of a balance id *)

Module Codec.

Definition byte_of_N (n : N) : byte :=
  match Byte.of_N (n mod 256)%N with
  | Some b => b
  | None => Byte.x00
  end.

Definition hex_alphabet : string := "0123456789abcdef".

Definition hex_digit (n : N) : ascii :=
  match String.get (N.to_nat n) hex_alphabet with
  | Some c => c
  | None => "0"%char
  end.

(** [bytes.hex()]: two lowercase digits per byte. *)
Fixpoint hex (bs : list byte) : string :=
  match bs with
  | [] => ""
  | b :: rest =>
      let n := Byte.to_N b in
      String (hex_digit (N.shiftr n 4)) (String (hex_digit (N.land n 15)) (hex rest))
  end.

Fixpoint index_of (c : ascii) (s : string) : option N :=
  match s with
  | EmptyString => None
  | String d rest =>
      if Ascii.eqb c d then Some 0%N else N.succ <$> index_of c rest
  end.

Definition hex_value (c : ascii) : option N := index_of c hex_alphabet.

(** [bytes.fromhex] on a string without white space. *)
Fixpoint fromhex (s : string) : option (list byte) :=
  match s with
  | EmptyString => Some []
  | String _ EmptyString => None
  | String h (String l rest) =>
      match hex_value h, hex_value l, fromhex rest with
      | Some hi, Some lo, Some bs => Some (byte_of_N (hi * 16 + lo) :: bs)
      | _, _, _ => None
      end
  end.

Definition table_b2a_base64 : string :=
  "ABCDEFGHIJKLMNOPQRSTUVWXYZabcdefghijklmnopqrstuvwxyz0123456789+/".

Definition BASE64_PAD : ascii := "="%char.

Definition b2a (n : N) : ascii :=
  match String.get (N.to_nat n) table_b2a_base64 with
  | Some c => c
  | None => BASE64_PAD
  end.

Definition table_a2b_base64 (c : ascii) : option N :=
  index_of c table_b2a_base64.

(** The four sextets of three bytes [x], [y], [z]. *)
Definition sextet1 (x : N) : N := N.shiftr x 2.
Definition sextet2 (x y : N) : N := N.lor (N.shiftl (N.land x 3) 4) (N.shiftr y 4).
Definition sextet3 (y z : N) : N := N.lor (N.shiftl (N.land y 15) 2) (N.shiftr z 6).
Definition sextet4 (z : N) : N := N.land z 63.

(** [base64.b64encode]: RFC 4648, three bytes to four characters; the last
    group is filled with zero bits and padded. *)
Fixpoint b64encode (bs : list byte) : string :=
match bs with
| [] => ""
| [a] =>
    let x := Byte.to_N a in
    String (b2a (sextet1 x))
      (String (b2a (sextet2 x 0))
         (String BASE64_PAD (String BASE64_PAD "")))
| [a; b] =>
    let x := Byte.to_N a in
    let y := Byte.to_N b in
    String (b2a (sextet1 x))
      (String (b2a (sextet2 x y))
         (String (b2a (sextet3 y 0))
            (String BASE64_PAD "")))
| a :: b :: c :: rest =>
    let x := Byte.to_N a in
    let y := Byte.to_N b in
    let z := Byte.to_N c in
    String (b2a (sextet1 x))
      (String (b2a (sextet2 x y))
         (String (b2a (sextet3 y z))
            (String (b2a (sextet4 z)) (b64encode rest))))
end.

(** [binascii.a2b_base64], not strict: the loop over the input characters
    with its state [quad_pos], [leftchar], [pads].  Characters outside the
    alphabet are skipped; a complete pad sequence ends the parse; [None] is
    [binascii.Error]. *)
Fixpoint a2b_base64 (s : string) (quad_pos : nat) (leftchar : N) (pads : nat)
  : option (list byte) :=
  match s with
  | EmptyString => if Nat.eqb quad_pos 0 then Some [] else None
  | String this_ch rest =>
      if Ascii.eqb this_ch BASE64_PAD then
        if Nat.leb 2 quad_pos then
          if Nat.leb 4 (quad_pos + S pads) then Some []
          else a2b_base64 rest quad_pos leftchar (S pads)
        else a2b_base64 rest quad_pos leftchar pads
      else
        match table_a2b_base64 this_ch with
        | None => a2b_base64 rest quad_pos leftchar pads
        | Some v =>
            match quad_pos with
            | O => a2b_base64 rest 1 v 0
            | 1%nat =>
                cons (byte_of_N (N.lor (N.shiftl leftchar 2) (N.shiftr v 4)))
                  <$> a2b_base64 rest 2 (N.land v 15) 0
            | 2%nat =>
                cons (byte_of_N (N.lor (N.shiftl leftchar 4) (N.shiftr v 2)))
                  <$> a2b_base64 rest 3 (N.land v 3) 0
            | _ =>
                cons (byte_of_N (N.lor (N.shiftl leftchar 6) v))
                  <$> a2b_base64 rest 0 0%N 0
            end
        end
  end.

Definition b64decode (s : string) : option (list byte) := a2b_base64 s 0 0%N 0.

(** Every byte value, in order. *)
Definition all_bytes : list byte :=
  map byte_of_N (map N.of_nat (List.seq 0 256)).

End Codec.

Arguments Codec.b64decode : simpl never.


(** ** [polaris.models] *)

Inductive Kind : Type := deposit | withdrawal | send.

(** [Transaction.STATUS] *)
Inductive Status : Type :=
| completed
| pending_external
| pending_anchor
| pending_stellar
| pending_trust
| pending_user
| pending_user_transfer_start
| incomplete
| no_market
| too_small
| too_large
| error.

Definition Status_str (s : Status) : string :=
  match s with
  | completed => "completed"
  | pending_external => "pending_external"
  | pending_anchor => "pending_anchor"
  | pending_stellar => "pending_stellar"
  | pending_trust => "pending_trust"
  | pending_user => "pending_user"
  | pending_user_transfer_start => "pending_user_transfer_start"
  | incomplete => "incomplete"
  | no_market => "no_market"
  | too_small => "too_small"
  | too_large => "too_large"
  | error => "error"
  end.

Definition Status_eqb (a b : Status) : bool :=
  match a, b with
  | completed, completed
  | pending_external, pending_external
  | pending_anchor, pending_anchor
  | pending_stellar, pending_stellar
  | pending_trust, pending_trust
  | pending_user, pending_user
  | pending_user_transfer_start, pending_user_transfer_start
  | incomplete, incomplete
  | no_market, no_market
  | too_small, too_small
  | too_large, too_large
  | error, error => true
  | _, _ => false
  end.

Definition Kind_eqb (a b : Kind) : bool :=
  match a, b with
  | deposit, deposit | withdrawal, withdrawal | send, send => true
  | _, _ => false
  end.

(** A signer of the distribution account, as Horizon lists it. *)
Record Signer : Type := { key : string; weight : Z }.

Record Thresholds : Type := {
  low_threshold : Z;
  med_threshold : Z;
  high_threshold : Z
}.

(** The anchored asset; this module only reads it. *)
Record Asset : Type := {
  code : string;
  issuer : string;
  significant_decimals : Z;
  distribution_seed : string;
  distribution_account : string;
  distribution_account_master_signer : option Signer;
  distribution_account_thresholds : Thresholds
}.

(** The deposit record.  [None] is Python's [None] (SQL [NULL]). *)
Record Transaction : Type := {
  id : string;
  kind : Kind;
  status : Status;
  status_eta : option Z;
  status_message : option string;
  amount_in : option Decimal;
  amount_fee : option Decimal;
  amount_out : option Decimal;
  stellar_account : string;
  memo : option string;
  memo_type : string;
  envelope_xdr : option string;
  paging_token : option string;
  stellar_transaction_id : option string;
  claimable_balance_supported : bool;
  claimable_balance_id : option string;
  pending_signatures : bool;
  channel_seed : option string;
  channel_account : option string;
  completed_at : option Z;
  asset : Asset
}.

Definition set_status (v : Status) (t : Transaction) : Transaction :=
  {| id := id t; kind := kind t; status := v; status_eta := status_eta t; status_message
     := status_message t; amount_in := amount_in t; amount_fee := amount_fee t;
     amount_out := amount_out t; stellar_account := stellar_account t; memo := memo t;
     memo_type := memo_type t; envelope_xdr := envelope_xdr t; paging_token :=
     paging_token t; stellar_transaction_id := stellar_transaction_id t;
     claimable_balance_supported := claimable_balance_supported t; claimable_balance_id
     := claimable_balance_id t; pending_signatures := pending_signatures t; channel_seed
     := channel_seed t; channel_account := channel_account t; completed_at :=
     completed_at t; asset := asset t |}.

Definition set_status_eta (v : option Z) (t : Transaction) : Transaction :=
  {| id := id t; kind := kind t; status := status t; status_eta := v; status_message :=
     status_message t; amount_in := amount_in t; amount_fee := amount_fee t; amount_out
     := amount_out t; stellar_account := stellar_account t; memo := memo t; memo_type :=
     memo_type t; envelope_xdr := envelope_xdr t; paging_token := paging_token t;
     stellar_transaction_id := stellar_transaction_id t; claimable_balance_supported :=
     claimable_balance_supported t; claimable_balance_id := claimable_balance_id t;
     pending_signatures := pending_signatures t; channel_seed := channel_seed t;
     channel_account := channel_account t; completed_at := completed_at t; asset :=
     asset t |}.

Definition set_status_message (v : option string) (t : Transaction) : Transaction :=
  {| id := id t; kind := kind t; status := status t; status_eta := status_eta t;
     status_message := v; amount_in := amount_in t; amount_fee := amount_fee t;
     amount_out := amount_out t; stellar_account := stellar_account t; memo := memo t;
     memo_type := memo_type t; envelope_xdr := envelope_xdr t; paging_token :=
     paging_token t; stellar_transaction_id := stellar_transaction_id t;
     claimable_balance_supported := claimable_balance_supported t; claimable_balance_id
     := claimable_balance_id t; pending_signatures := pending_signatures t; channel_seed
     := channel_seed t; channel_account := channel_account t; completed_at :=
     completed_at t; asset := asset t |}.

Definition set_amount_fee (v : option Decimal) (t : Transaction) : Transaction :=
  {| id := id t; kind := kind t; status := status t; status_eta := status_eta t;
     status_message := status_message t; amount_in := amount_in t; amount_fee := v;
     amount_out := amount_out t; stellar_account := stellar_account t; memo := memo t;
     memo_type := memo_type t; envelope_xdr := envelope_xdr t; paging_token :=
     paging_token t; stellar_transaction_id := stellar_transaction_id t;
     claimable_balance_supported := claimable_balance_supported t; claimable_balance_id
     := claimable_balance_id t; pending_signatures := pending_signatures t; channel_seed
     := channel_seed t; channel_account := channel_account t; completed_at :=
     completed_at t; asset := asset t |}.

Definition set_amount_out (v : option Decimal) (t : Transaction) : Transaction :=
  {| id := id t; kind := kind t; status := status t; status_eta := status_eta t;
     status_message := status_message t; amount_in := amount_in t; amount_fee :=
     amount_fee t; amount_out := v; stellar_account := stellar_account t; memo := memo
     t; memo_type := memo_type t; envelope_xdr := envelope_xdr t; paging_token :=
     paging_token t; stellar_transaction_id := stellar_transaction_id t;
     claimable_balance_supported := claimable_balance_supported t; claimable_balance_id
     := claimable_balance_id t; pending_signatures := pending_signatures t; channel_seed
     := channel_seed t; channel_account := channel_account t; completed_at :=
     completed_at t; asset := asset t |}.

Definition set_envelope_xdr (v : option string) (t : Transaction) : Transaction :=
  {| id := id t; kind := kind t; status := status t; status_eta := status_eta t;
     status_message := status_message t; amount_in := amount_in t; amount_fee :=
     amount_fee t; amount_out := amount_out t; stellar_account := stellar_account t;
     memo := memo t; memo_type := memo_type t; envelope_xdr := v; paging_token :=
     paging_token t; stellar_transaction_id := stellar_transaction_id t;
     claimable_balance_supported := claimable_balance_supported t; claimable_balance_id
     := claimable_balance_id t; pending_signatures := pending_signatures t; channel_seed
     := channel_seed t; channel_account := channel_account t; completed_at :=
     completed_at t; asset := asset t |}.

Definition set_paging_token (v : option string) (t : Transaction) : Transaction :=
  {| id := id t; kind := kind t; status := status t; status_eta := status_eta t;
     status_message := status_message t; amount_in := amount_in t; amount_fee :=
     amount_fee t; amount_out := amount_out t; stellar_account := stellar_account t;
     memo := memo t; memo_type := memo_type t; envelope_xdr := envelope_xdr t;
     paging_token := v; stellar_transaction_id := stellar_transaction_id t;
     claimable_balance_supported := claimable_balance_supported t; claimable_balance_id
     := claimable_balance_id t; pending_signatures := pending_signatures t; channel_seed
     := channel_seed t; channel_account := channel_account t; completed_at :=
     completed_at t; asset := asset t |}.

Definition set_stellar_transaction_id (v : option string) (t : Transaction) : Transaction :=
  {| id := id t; kind := kind t; status := status t; status_eta := status_eta t;
     status_message := status_message t; amount_in := amount_in t; amount_fee :=
     amount_fee t; amount_out := amount_out t; stellar_account := stellar_account t;
     memo := memo t; memo_type := memo_type t; envelope_xdr := envelope_xdr t;
     paging_token := paging_token t; stellar_transaction_id := v;
     claimable_balance_supported := claimable_balance_supported t; claimable_balance_id
     := claimable_balance_id t; pending_signatures := pending_signatures t; channel_seed
     := channel_seed t; channel_account := channel_account t; completed_at :=
     completed_at t; asset := asset t |}.

Definition set_claimable_balance_id (v : option string) (t : Transaction) : Transaction :=
  {| id := id t; kind := kind t; status := status t; status_eta := status_eta t;
     status_message := status_message t; amount_in := amount_in t; amount_fee :=
     amount_fee t; amount_out := amount_out t; stellar_account := stellar_account t;
     memo := memo t; memo_type := memo_type t; envelope_xdr := envelope_xdr t;
     paging_token := paging_token t; stellar_transaction_id := stellar_transaction_id t;
     claimable_balance_supported := claimable_balance_supported t; claimable_balance_id
     := v; pending_signatures := pending_signatures t; channel_seed := channel_seed t;
     channel_account := channel_account t; completed_at := completed_at t; asset :=
     asset t |}.

Definition set_pending_signatures (v : bool) (t : Transaction) : Transaction :=
  {| id := id t; kind := kind t; status := status t; status_eta := status_eta t;
     status_message := status_message t; amount_in := amount_in t; amount_fee :=
     amount_fee t; amount_out := amount_out t; stellar_account := stellar_account t;
     memo := memo t; memo_type := memo_type t; envelope_xdr := envelope_xdr t;
     paging_token := paging_token t; stellar_transaction_id := stellar_transaction_id t;
     claimable_balance_supported := claimable_balance_supported t; claimable_balance_id
     := claimable_balance_id t; pending_signatures := v; channel_seed := channel_seed t;
     channel_account := channel_account t; completed_at := completed_at t; asset :=
     asset t |}.

Definition set_channel_seed (v : option string) (t : Transaction) : Transaction :=
  {| id := id t; kind := kind t; status := status t; status_eta := status_eta t;
     status_message := status_message t; amount_in := amount_in t; amount_fee :=
     amount_fee t; amount_out := amount_out t; stellar_account := stellar_account t;
     memo := memo t; memo_type := memo_type t; envelope_xdr := envelope_xdr t;
     paging_token := paging_token t; stellar_transaction_id := stellar_transaction_id t;
     claimable_balance_supported := claimable_balance_supported t; claimable_balance_id
     := claimable_balance_id t; pending_signatures := pending_signatures t; channel_seed
     := v; channel_account := channel_account t; completed_at := completed_at t; asset
     := asset t |}.

Definition set_channel_account (v : option string) (t : Transaction) : Transaction :=
  {| id := id t; kind := kind t; status := status t; status_eta := status_eta t;
     status_message := status_message t; amount_in := amount_in t; amount_fee :=
     amount_fee t; amount_out := amount_out t; stellar_account := stellar_account t;
     memo := memo t; memo_type := memo_type t; envelope_xdr := envelope_xdr t;
     paging_token := paging_token t; stellar_transaction_id := stellar_transaction_id t;
     claimable_balance_supported := claimable_balance_supported t; claimable_balance_id
     := claimable_balance_id t; pending_signatures := pending_signatures t; channel_seed
     := channel_seed t; channel_account := v; completed_at := completed_at t; asset :=
     asset t |}.

Definition set_completed_at (v : option Z) (t : Transaction) : Transaction :=
  {| id := id t; kind := kind t; status := status t; status_eta := status_eta t;
     status_message := status_message t; amount_in := amount_in t; amount_fee :=
     amount_fee t; amount_out := amount_out t; stellar_account := stellar_account t;
     memo := memo t; memo_type := memo_type t; envelope_xdr := envelope_xdr t;
     paging_token := paging_token t; stellar_transaction_id := stellar_transaction_id t;
     claimable_balance_supported := claimable_balance_supported t; claimable_balance_id
     := claimable_balance_id t; pending_signatures := pending_signatures t; channel_seed
     := channel_seed t; channel_account := channel_account t; completed_at := v; asset
     := asset t |}.


(** ** [stellar_sdk] *)

Record Keypair : Type := { public_key : string; secret : option string }.

Definition Keypair_from_public_key (pk : string) : Keypair :=
  {| public_key := pk; secret := None |}.

Record Account : Type := { account_id : string; sequence : Z }.

Record Claimant : Type := { destination : string }.

Record StellarAsset : Type := { sdk_code : string; sdk_issuer : string }.

Inductive Memo : Type :=
| NoneMemo
| TextMemo (text : string)
| IdMemo (memo_id : Z)
| HashMemo (memo_hash : string).

(** The operations this module appends; [source] is the operation source. *)
Inductive Operation : Type :=
| CreateAccount (destination : string) (starting_balance : string)
    (source : option string)
| Payment (destination : string) (asset_code asset_issuer : string)
    (amount : string) (source : option string)
| CreateClaimableBalance (claimants : list Claimant) (asset : StellarAsset)
    (amount : string) (source : option string).

Record TransactionBuilder : Type := {
  source_account : Account;
  network_passphrase : string;
  base_fee : Z;
  operations : list Operation;
  builder_memo : Memo
}.

Record TransactionEnvelope : Type := {
  tx_source : string;
  tx_sequence : Z;
  tx_fee : Z;
  tx_operations : list Operation;
  tx_memo : Memo;
  tx_network_passphrase : string;
  signatures : list Keypair
}.

Definition new_builder (src : Account) (passphrase : string) (fee : Z)
  : TransactionBuilder :=
  {| source_account := src; network_passphrase := passphrase; base_fee := fee;
     operations := []; builder_memo := NoneMemo |}.

Definition append_op (op : Operation) (b : TransactionBuilder) : TransactionBuilder :=
  {| source_account := source_account b;
     network_passphrase := network_passphrase b;
     base_fee := base_fee b;
     operations := operations b ++ [op];
     builder_memo := builder_memo b |}.

Definition add_memo (m : Memo) (b : TransactionBuilder) : TransactionBuilder :=
  {| source_account := source_account b;
     network_passphrase := network_passphrase b;
     base_fee := base_fee b;
     operations := operations b;
     builder_memo := m |}.

(** [TransactionBuilder.build]: the next sequence number of the source
    account, the base fee once per operation, no signature yet. *)
Definition build (b : TransactionBuilder) : TransactionEnvelope :=
  {| tx_source := account_id (source_account b);
     tx_sequence := sequence (source_account b) + 1;
     tx_fee := base_fee b * Z.of_nat (length (operations b));
     tx_operations := operations b;
     tx_memo := builder_memo b;
     tx_network_passphrase := network_passphrase b;
     signatures := [] |}.

(** [TransactionEnvelope.sign] *)
Definition sign (kp : Keypair) (e : TransactionEnvelope) : TransactionEnvelope :=
  {| tx_source := tx_source e;
     tx_sequence := tx_sequence e;
     tx_fee := tx_fee e;
     tx_operations := tx_operations e;
     tx_memo := tx_memo e;
     tx_network_passphrase := tx_network_passphrase e;
     signatures := signatures e ++ [kp] |}.

(** One line of ["balances"] in Horizon's account resource (a dict). *)
Record Balance : Type := {
  asset_type : option string;
  asset_code : option string;
  asset_issuer : option string
}.

(** Horizon's account resource, the fields this module reads. *)
Record AccountResponse : Type := {
  account_resource_id : string;
  account_resource_sequence : Z;
  balances : list Balance
}.

Definition load_account (json_resp : AccountResponse) : Account :=
  {| account_id := account_resource_id json_resp;
     sequence := account_resource_sequence json_resp |}.

(** Horizon's answer to a submitted transaction (a dict). *)
Module Response.
Record t : Type := {
  successful : bool;
  result_xdr : string;
  envelope_xdr : string;
  paging_token : string;
  id : string
}.
End Response.

(** [ClaimableBalanceID]: the only arm, [v0], is a hash. *)
Record ClaimableBalanceID : Type := { v0 : list byte }.

(** XDR of the union: the discriminant [CLAIMABLE_BALANCE_ID_TYPE_V0 = 0] as
    a big-endian 32-bit integer, then the opaque hash. *)
Definition ClaimableBalanceID_pack (b : ClaimableBalanceID) : list byte :=
  [Byte.x00; Byte.x00; Byte.x00; Byte.x00] ++ v0 b.

(** [to_xdr()] of an XDR object: the packed bytes in base64. *)
Definition ClaimableBalanceID_to_xdr (b : ClaimableBalanceID) : string :=
  Codec.b64encode (ClaimableBalanceID_pack b).

Record CreateClaimableBalanceResult : Type := { balanceID : ClaimableBalanceID }.

(** [OperationResult.tr]: the union carries the attribute of its arm only. *)
Inductive OperationResultTr : Type :=
| createAccountResult (result_code : Z)
| paymentResult (result_code : Z)
| createClaimableBalanceResult (r : CreateClaimableBalanceResult)
| otherOperationResult (operation_type : Z) (result_code : Z).

Record OperationResult : Type := { tr : OperationResultTr }.

(** [TransactionResult], with [.result.results] flattened. *)
Record TransactionResult : Type := {
  feeCharged : Z;
  results : list OperationResult
}.

(** ** Exceptions *)

(** [stellar_sdk.exceptions.BaseRequestError]: what a call to Horizon
    raises.  [BaseHorizonError] has the three subclasses built from an HTTP
    answer; [ConnectionError] is a [BaseRequestError] but no
    [BaseHorizonError]. *)
Inductive BaseRequestError : Type :=
| ConnectionError (msg : string)
| NotFoundError (message : string)
| BadRequestError (message : string)
| BadResponseError (message : string).

Inductive exn : Type :=
| ValueError (msg : string)
| TypeError (msg : string)
| KeyError (msg : string)
| RuntimeError (msg : string)
| CommandError (msg : string)
| DecimalInvalidOperation (msg : string)
| BinasciiError
| XdrError (msg : string)
| DoesNotExist
| RequestError (e : BaseRequestError)
| OtherException (class_name : string) (msg : string).

Definition is_BaseHorizonError (e : exn) : bool :=
  match e with
  | RequestError (NotFoundError _)
  | RequestError (BadRequestError _)
  | RequestError (BadResponseError _) => true
  | _ => false
  end.

Definition is_BaseRequestError (e : exn) : bool :=
  match e with
  | RequestError _ => true
  | _ => false
  end.

(** The subclasses of [RuntimeError] in the standard library. *)
Definition RuntimeError_subclasses : list string :=
  ["NotImplementedError"; "RecursionError"].

(** [except RuntimeError as e]: the class and its subclasses are caught;
    the clause reads [str(e)]. *)
Definition caught_as_RuntimeError (e : exn) : option string :=
  match e with
  | RuntimeError msg => Some msg
  | OtherException class_name msg =>
      if existsb (String.eqb class_name) RuntimeError_subclasses
      then Some msg
      else None
  | _ => None
  end.

Definition is_RuntimeError (e : exn) : bool :=
  match caught_as_RuntimeError e with
  | Some _ => true
  | None => false
  end.

(** [e.__class__.__name__] *)
Definition class_name_of (e : exn) : string :=
  match e with
  | ValueError _ => "ValueError"
  | TypeError _ => "TypeError"
  | KeyError _ => "KeyError"
  | RuntimeError _ => "RuntimeError"
  | CommandError _ => "CommandError"
  | DecimalInvalidOperation _ => "InvalidOperation"
  | BinasciiError => "Error"
  | XdrError _ => "XdrError"
  | DoesNotExist => "DoesNotExist"
  | RequestError (NotFoundError _) => "NotFoundError"
  | RequestError (BadRequestError _) => "BadRequestError"
  | RequestError (BadResponseError _) => "BadResponseError"
  | RequestError (ConnectionError _) => "ConnectionError"
  | OtherException c _ => c
  end.

(** [e.message] of a Horizon error, [str(e)] of the others. *)
Definition message_of (e : exn) : string :=
  match e with
  | ValueError m | TypeError m | KeyError m | RuntimeError m | CommandError m
  | DecimalInvalidOperation m | XdrError m | OtherException _ m => m
  | RequestError (ConnectionError m) | RequestError (NotFoundError m)
  | RequestError (BadRequestError m) | RequestError (BadResponseError m) => m
  | BinasciiError => "Incorrect padding"
  | DoesNotExist => "Transaction matching query does not exist."
  end.

(** What a call gives: a value, or an exception of class [E]. *)
Inductive outcome (E A : Type) : Type :=
| Ok (a : A)
| Raise (e : E).
Arguments Ok {E A} a.
Arguments Raise {E A} e.

Abbreviation result := (outcome exn).

Definition lift_request_error {A} (r : outcome BaseRequestError A) : result A :=
  match r with
  | Ok a => Ok a
  | Raise e => Raise (RequestError e)
  end.

(** What [poll_pending_deposits] may hand back. *)
Inductive PyValue : Type :=
| PyList (l : list Transaction)
| PyTuple (l : list Transaction)
| PyNone.

(** ** What a run does to the outside *)

Inductive LogLevel : Type := DEBUG | INFO | ERROR | EXCEPTION.

(** The log of a run: what it wrote, and each call to a collaborator with
    what the collaborator answered. *)
Inductive Event : Type :=
| EvSave (t : Transaction)                (* [transaction.save()] *)
| EvCallback (t : Transaction)            (* [maybe_make_callback(transaction)] *)
| EvLog (level : LogLevel) (msg : string)
| EvFetchAccount (account : string)       (* [accounts().account_id(..).call()] *)
    (answer : outcome BaseRequestError AccountResponse)
| EvFetchBaseFee (answer : outcome BaseRequestError Z)
| EvSubmit (envelope : TransactionEnvelope)
    (answer : outcome BaseRequestError Response.t)
| EvPoll (candidates : list Transaction) (answer : result PyValue)
| EvCreateChannelAccount (t : Transaction) (answer : result string)
| EvAfterDeposit (t : Transaction) (answer : result unit).

(** [polaris.settings] *)
Record Settings : Type := {
  STELLAR_NETWORK_PASSPHRASE : string;
  MAX_TRANSACTION_FEE_STROOPS : option Z;
  ACCOUNT_STARTING_BALANCE : string;
  OPERATION_DEPOSIT : string
}.

(** The argument of a fee function (a dict). *)
Record FeeParams : Type := {
  fee_amount : Decimal;
  fee_operation : string;
  fee_asset_code : string
}.

(** [polaris.integrations.registered_fee_func]: either the very function
    [calculate_fee], or one the anchor registered. *)
Inductive FeeFunc : Type :=
| the_calculate_fee
| custom_fee_func (f : FeeParams -> Decimal).

(** The collaborators of this module: the Horizon server, the SDK's codecs,
    the anchor's integrations.  [World] is whatever state they have; every
    call may change it. *)
Class Collaborators (World : Type) : Type := {
  settings : Settings;
  (* settings.HORIZON_SERVER *)
  horizon_account_call :
    string -> World -> outcome BaseRequestError AccountResponse * World;
  horizon_fetch_base_fee : World -> outcome BaseRequestError Z * World;
  horizon_submit_transaction :
    TransactionEnvelope -> World -> outcome BaseRequestError Response.t * World;
  (* stellar_sdk; [None] is a blob that does not decode *)
  public_key_of_secret : string -> string;
  TransactionEnvelope_to_xdr : TransactionEnvelope -> string;
  TransactionEnvelope_from_xdr : string -> string -> option TransactionEnvelope;
  TransactionResult_from_xdr : string -> option TransactionResult;
  (* polaris.utils *)
  make_memo : string -> string -> Memo;
  (* polaris.integrations *)
  registered_fee_func : FeeFunc;
  calculate_fee : FeeParams -> Decimal;
  rri_poll_pending_deposits :
    list Transaction -> gmap string Transaction -> World ->
    result PyValue * gmap string Transaction * World;
  rdi_create_channel_account : Transaction -> World -> result string * World;
  rdi_after_deposit : Transaction -> World -> result unit * World;
  (* datetime.datetime.now(datetime.timezone.utc) *)
  utc_now : World -> Z
}.

(** ** The state of a run and its monad *)

(** The state a run works on. *)
Record State (World : Type) : Type := {
  db : gmap string Transaction;     (* the rows of [Transaction.objects] *)
  world : World;                    (* the collaborators' own state *)
  TERMINATE : bool                  (* the module's flag *)
}.
Arguments db {World} s.
Arguments world {World} s.
Arguments TERMINATE {World} s.

(** What a run leaves: its result, the local object, the state, and its log
    (oldest event first). *)
Record Run (World L A : Type) : Type := {
  res : outcome exn A;
  obj : L;
  st : State World;
  trace : list Event
}.
Arguments res {World L A} r.
Arguments obj {World L A} r.
Arguments st {World L A} r.
Arguments trace {World L A} r.

(** A computation with a local object of type [L] (the model instance bound
    to [transaction]).  An exception keeps what was done to the local object
    and to the state before it was raised. *)
Definition M (World L A : Type) : Type := L -> State World -> Run World L A.

Section Engine.

Context {World : Type} `{C : Collaborators World}.

Local Abbreviation M := (M World).

Definition ret {L A} (a : A) : M L A :=
  fun l s => {| res := Ok a; obj := l; st := s; trace := [] |}.

Definition raise {L A} (e : exn) : M L A :=
  fun l s => {| res := Raise e; obj := l; st := s; trace := [] |}.

Definition bind {L A B} (m : M L A) (k : A -> M L B) : M L B :=
  fun l s =>
    let r := m l s in
    match res r with
    | Ok a =>
        let r' := k a (obj r) (st r) in
        {| res := res r'; obj := obj r'; st := st r';
           trace := trace r ++ trace r' |}
    | Raise e =>
        {| res := Raise e; obj := obj r; st := st r; trace := trace r |}
    end.

(** [try: m except ...]: [handler e] is the body of the first clause that
    matches [e], or [None]; what a clause raises is not caught again. *)
Definition try_except {L A} (m : M L A) (handler : exn -> option (M L A))
  : M L A :=
  fun l s =>
    let r := m l s in
    match res r with
    | Ok a => r
    | Raise e =>
        match handler e with
        | Some h =>
            let r' := h (obj r) (st r) in
            {| res := res r'; obj := obj r'; st := st r';
               trace := trace r ++ trace r' |}
        | None => r
        end
    end.

Definition get_local {L} : M L L :=
  fun l s => {| res := Ok l; obj := l; st := s; trace := [] |}.

Definition modify_local {L} (f : L -> L) : M L unit :=
  fun l s => {| res := Ok tt; obj := f l; st := s; trace := [] |}.

Definition get_state {L} : M L (State World) :=
  fun l s => {| res := Ok s; obj := l; st := s; trace := [] |}.

(** Run [m] on the object [l']; its own local object is untouched. *)
Definition with_local {L L' A} (l' : L') (m : M L' A) : M L (A * L') :=
  fun l s =>
    let r := m l' s in
    {| res := match res r with
              | Ok a => Ok (a, obj r)
              | Raise e => Raise e
              end;
       obj := l; st := st r; trace := trace r |}.

Definition emit {L} (e : Event) : M L unit :=
  fun l s => {| res := Ok tt; obj := l; st := s; trace := [e] |}.

(** A call to a collaborator, logged by [ev] with its answer. *)
Definition call_logged {L E A} (f : World -> outcome E A * World)
    (ev : outcome E A -> Event) (lift : outcome E A -> result A) : M L A :=
  fun l s =>
    {| res := lift (fst (f (world s)));
       obj := l;
       st := {| db := db s; world := snd (f (world s));
                TERMINATE := TERMINATE s |};
       trace := [ev (fst (f (world s)))] |}.

(** [settings.HORIZON_SERVER] *)
Definition HORIZON_SERVER_account {L} (account : string) : M L AccountResponse :=
  call_logged (horizon_account_call account) (EvFetchAccount account)
    lift_request_error.

Definition HORIZON_SERVER_fetch_base_fee {L} : M L Z :=
  call_logged horizon_fetch_base_fee EvFetchBaseFee lift_request_error.

Definition HORIZON_SERVER_submit_transaction {L}
    (envelope : TransactionEnvelope) : M L Response.t :=
  call_logged (horizon_submit_transaction envelope) (EvSubmit envelope)
    lift_request_error.

Definition decoded {L A} (o : option A) : M L A :=
  match o with
  | Some a => ret a
  | None => raise (XdrError "not a valid XDR blob")
  end.

Definition of_result {L A} (r : result A) : M L A :=
  fun l s => {| res := r; obj := l; st := s; trace := [] |}.

End Engine.


Declare Scope py_scope.
Delimit Scope py_scope with py.
Notation "x <- m ;; k" := (bind m (fun x => k))
  (at level 100, m at next level, right associativity) : py_scope.
Notation "m ;; k" := (bind m (fun _ => k))
  (at level 100, right associativity) : py_scope.
Local Open Scope py_scope.


(** ** [polaris.utils] and the model instance *)

Section Operations.

Context {World : Type} `{C : Collaborators World}.

Local Abbreviation M := (M World).

(** Python truthiness of an optional string: [None] and [""] are false. *)
Definition truthy (o : option string) : bool :=
  match o with
  | Some s => negb (s =? "")%string
  | None => false
  end.

Definition logger {L} (level : LogLevel) (msg : string) : M L unit :=
  emit (EvLog level msg).

(** [transaction.save()]: the row of this id becomes the object. *)
Definition save : M Transaction unit :=
  fun t s =>
    {| res := Ok tt; obj := t;
       st := {| db := <[id t := t]> (db s); world := world s;
                TERMINATE := TERMINATE s |};
       trace := [EvSave t] |}.

(** [transaction.refresh_from_db()] *)
Definition refresh_from_db : M Transaction unit :=
  fun t s =>
    match db s !! id t with
    | Some row => {| res := Ok tt; obj := row; st := s; trace := [] |}
    | None => {| res := Raise DoesNotExist; obj := t; st := s; trace := [] |}
    end.

(** Modelled from the spec: [polaris.utils.maybe_make_callback] is not
    among the sources.  It is the notification sink, [notify(deposit)]:
    fire-and-forget, its failures never affect the state machine. *)
Definition maybe_make_callback : M Transaction unit :=
  fun t s => emit (EvCallback t) t s.

Definition Keypair_from_secret (seed : string) : Keypair :=
  {| public_key := public_key_of_secret seed; secret := Some seed |}.

(** Modelled from the spec: [polaris.utils.get_account_obj] is not among
    the sources.  It is the ledger adapter's [get_account(address) ->
    snapshot | not-found]; its callers catch [RuntimeError] for the account
    that does not exist and [BaseHorizonError] for the other failures. *)
Definition get_account_obj {L} (kp : Keypair) : M L (Account * AccountResponse) :=
  try_except
    (json_resp <- HORIZON_SERVER_account (public_key kp) ;;
     ret (load_account json_resp, json_resp))
    (fun e =>
       match e with
       | RequestError (NotFoundError _) =>
           Some (raise (RuntimeError
                          ("account " +:+ public_key kp +:+ " does not exist")))
       | _ => None
       end).

Definition is_native (balance : Balance) : bool :=
  match asset_type balance with
  | Some ty => (ty =? "native")%string
  | None => false
  end.

Definition balance_is_for (a : Asset) (balance : Balance) : bool :=
  negb (is_native balance)
  && match asset_code balance, asset_issuer balance with
     | Some c, Some i => (c =? code a)%string && (i =? issuer a)%string
     | _, _ => false
     end.

(** Modelled from the spec: [polaris.utils.is_pending_trust] is not among
    the sources.  The destination accepts the asset when the asset is
    among the account's balance lines, within the non-native ones; it is
    pending trust otherwise. *)
Definition is_pending_trust (transaction : Transaction)
    (json_resp : AccountResponse) : bool :=
  negb (existsb (balance_is_for (asset transaction)) (balances json_resp)).

(** ** [MultiSigTransactions] *)

Definition requires_multisig (transaction : Transaction) : bool :=
  let master_signer :=
    match distribution_account_master_signer (asset transaction) with
    | Some signer => Some signer
    | None => None
    end in
  let thresholds := distribution_account_thresholds (asset transaction) in
  match master_signer with
  | None => true
  | Some signer => weight signer <? med_threshold thresholds
  end.

(** Modelled from the spec: the integration [create_channel_account] is
    the anchor's.  It provisions a funded account and persists its address
    and secret on the deposit. *)
Definition create_channel_account : M Transaction unit :=
  t <- get_local ;;
  seed <- call_logged (rdi_create_channel_account t) (EvCreateChannelAccount t)
            (fun r => r) ;;
  modify_local (set_channel_seed (Some seed)) ;;
  modify_local (set_channel_account (Some (public_key_of_secret seed))) ;;
  save.

Definition get_channel_keypair : M Transaction Keypair :=
  t <- get_local ;;
  (if negb (truthy (channel_account t)) then create_channel_account else ret tt) ;;
  t <- get_local ;;
  match channel_seed t with
  | Some seed => ret (Keypair_from_secret seed)
  | None => raise (TypeError "secret should be a str")
  end.

(** ** [PendingDeposits] *)

(** [round(Decimal(amount_in) - Decimal(amount_fee), significant_decimals)] *)
Definition net_amount (transaction : Transaction) : result Decimal :=
  match amount_in transaction with
  | None => Raise (TypeError "conversion from NoneType to Decimal is not supported")
  | Some a =>
      match amount_fee transaction with
      | None =>
          Raise (TypeError "conversion from NoneType to Decimal is not supported")
      | Some f =>
          match PyDecimal.round (PyDecimal.sub a f)
                  (significant_decimals (asset transaction)) with
          | PyDecimal.Quantized d => Ok d
          | PyDecimal.InvalidOperation why => Raise (DecimalInvalidOperation why)
          end
      end
  end.

(** [settings.MAX_TRANSACTION_FEE_STROOPS or HORIZON_SERVER.fetch_base_fee()] *)
Definition choose_base_fee {L} : M L Z :=
  match MAX_TRANSACTION_FEE_STROOPS settings with
  | Some fee =>
      if fee =? 0
      then HORIZON_SERVER_fetch_base_fee
      else ret fee
  | None => HORIZON_SERVER_fetch_base_fee
  end.

Definition create_deposit_envelope (source_account : Account)
  : M Transaction TransactionEnvelope :=
  transaction <- get_local ;;
  payment_amount <- of_result (net_amount transaction) ;;
  fee <- choose_base_fee ;;
  let builder :=
    new_builder source_account (STELLAR_NETWORK_PASSPHRASE settings) fee in
  r <- get_account_obj (Keypair_from_public_key (stellar_account transaction)) ;;
  let json_resp := snd r in
  builder <-
    (if claimable_balance_supported transaction
        && is_pending_trust transaction json_resp
     then
       logger DEBUG ("Crafting claimable balance operation for Transaction "
                     +:+ id transaction) ;;
       let claimant := {| destination := stellar_account transaction |} in
       let asset_ := {| sdk_code := code (asset transaction);
                        sdk_issuer := issuer (asset transaction) |} in
       ret (append_op
              (CreateClaimableBalance [claimant] asset_
                 (PyDecimal.str payment_amount)
                 (Some (distribution_account (asset transaction))))
              builder)
     else
       ret (append_op
              (Payment (stellar_account transaction)
                 (code (asset transaction)) (issuer (asset transaction))
                 (PyDecimal.str payment_amount)
                 (Some (distribution_account (asset transaction))))
              builder)) ;;
  let builder :=
    if truthy (memo transaction)
    then add_memo (make_memo (default "" (memo transaction))
                     (memo_type transaction)) builder
    else builder in
  ret (build builder).

Fixpoint get_balance_id_loop (op_results : list OperationResult)
    (balance_id_hex : option string) : result (option string) :=
  match op_results with
  | [] => Ok balance_id_hex
  | op_result :: rest =>
      match tr op_result with
      | createClaimableBalanceResult r =>
          match Codec.b64decode (ClaimableBalanceID_to_xdr (balanceID r)) with
          | Some raw => get_balance_id_loop rest (Some (Codec.hex raw))
          | None => Raise BinasciiError
          end
      | _ => get_balance_id_loop rest balance_id_hex
      end
  end.

Definition get_balance_id (response : Response.t) : result (option string) :=
  match TransactionResult_from_xdr (Response.result_xdr response) with
  | Some transaction_result => get_balance_id_loop (results transaction_result) None
  | None => Raise (XdrError "not a valid XDR blob")
  end.

Definition _handle_error (message : string) : M Transaction unit :=
  modify_local (set_status_message (Some message)) ;;
  modify_local (set_status error) ;;
  save ;;
  logger ERROR message ;;
  maybe_make_callback.

Definition valid_statuses : list Status :=
  [pending_user_transfer_start; pending_external; pending_anchor; pending_trust].

Definition submit : M Transaction bool :=
  transaction <- get_local ;;
  if negb (existsb (Status_eqb (status transaction)) valid_statuses) then
    raise (ValueError
             ("Unexpected transaction status: "
              +:+ Status_str (status transaction) +:+ ", expecting "
              +:+ String.concat " or " (map Status_str valid_statuses) +:+ "."))
  else
    modify_local (set_status pending_anchor) ;;
    modify_local (set_status_eta (Some 5)) ;;
    save ;;
    logger INFO ("Initiating Stellar deposit for " +:+ id transaction) ;;
    maybe_make_callback ;;
    envelope <-
      (if truthy (envelope_xdr transaction) then
         decoded (TransactionEnvelope_from_xdr
                    (default "" (envelope_xdr transaction))
                    (STELLAR_NETWORK_PASSPHRASE settings))
       else
         r <- get_account_obj
                (Keypair_from_public_key
                   (distribution_account (asset transaction))) ;;
         envelope <- create_deposit_envelope (fst r) ;;
         ret (sign (Keypair_from_secret
                      (distribution_seed (asset transaction))) envelope)) ;;
    modify_local (set_status pending_stellar) ;;
    save ;;
    logger INFO ("Transaction " +:+ id transaction +:+ " now pending_stellar") ;;
    maybe_make_callback ;;
    r <- try_except
           (response <- HORIZON_SERVER_submit_transaction envelope ;;
            ret (Some response))
           (fun e =>
              if is_BaseHorizonError e
              then Some (_handle_error (class_name_of e +:+ ": " +:+ message_of e) ;;
                         ret None)
              else None) ;;
    match r with
    | None => ret false
    | Some response =>
        if negb (Response.successful response) then
          _handle_error
            ("Stellar transaction failed when submitted to horizon: "
             +:+ Response.result_xdr response) ;;
          ret false
        else
          (if claimable_balance_supported transaction then
             balance_id <- of_result (get_balance_id response) ;;
             modify_local (set_claimable_balance_id balance_id)
           else ret tt) ;;
          modify_local (set_envelope_xdr (Some (Response.envelope_xdr response))) ;;
          modify_local (set_paging_token (Some (Response.paging_token response))) ;;
          modify_local (set_stellar_transaction_id (Some (Response.id response))) ;;
          modify_local (set_status completed) ;;
          s <- get_state ;;
          modify_local (set_completed_at (Some (utc_now (world s)))) ;;
          modify_local (set_status_eta (Some 0)) ;;
          t <- get_local ;;
          out <- of_result (net_amount t) ;;
          modify_local (set_amount_out (Some out)) ;;
          save ;;
          logger INFO ("Transaction " +:+ id transaction +:+ " completed.") ;;
          maybe_make_callback ;;
          ret true
    end.


Definition save_as_pending_signatures : M Transaction unit :=
  channel_kp <- get_channel_keypair ;;
  r <- try_except
         (r <- get_account_obj channel_kp ;; ret (Some (fst r)))
         (fun e =>
            (* [get_account_obj] raises [RuntimeError] itself, no subclass *)
            match e with
            | RuntimeError msg =>
                Some (modify_local (set_status error) ;;
                      modify_local (set_status_message (Some msg)) ;;
                      save ;;
                      logger ERROR msg ;;
                      ret None)
            | _ => None
            end) ;;
  match r with
  | None => ret tt
  | Some channel_account_ =>
      (* Create the initial envelope XDR with the channel signature *)
      envelope <- create_deposit_envelope channel_account_ ;;
      let envelope := sign channel_kp envelope in
      modify_local (set_envelope_xdr (Some (TransactionEnvelope_to_xdr envelope))) ;;
      modify_local (set_pending_signatures true) ;;
      modify_local (set_status pending_anchor) ;;
      save
  end ;;
  maybe_make_callback.

(** The body of the loop of [get_ready_deposits] for one record. *)
Definition check_ready_transaction : M Transaction unit :=
  transaction <- get_local ;;
  if negb (Kind_eqb (kind transaction) deposit) then
    raise (ValueError
             "A non-deposit Transaction was returned from poll_pending_deposits()")
  else
    match amount_in transaction with
    | None =>
        raise (ValueError
                 ("poll_pending_deposits() did not assign a value to the "
                  +:+ "amount_in field of a Transaction object returned"))
    | Some amount =>
        match amount_fee transaction with
        | None =>
            match registered_fee_func with
            | the_calculate_fee =>
                modify_local
                  (set_amount_fee
                     (Some (calculate_fee
                              {| fee_amount := amount;
                                 fee_operation := OPERATION_DEPOSIT settings;
                                 fee_asset_code := code (asset transaction) |})))
            | custom_fee_func _ =>
                modify_local (set_amount_fee (Some (PyDecimal.of_Z 0)))
            end ;;
            save
        | Some _ => ret tt
        end
    end.

Fixpoint check_ready_transactions (ready_transactions : list Transaction)
  : M unit (list Transaction) :=
  match ready_transactions with
  | [] => ret []
  | transaction :: rest =>
      r <- with_local transaction check_ready_transaction ;;
      rest' <- check_ready_transactions rest ;;
      ret (snd r :: rest')
  end.

(** The rows of the table, as a query sees them. *)
Definition objects (s : State World) : list Transaction :=
  (map_to_list (db s)).*2.

Definition is_candidate (t : Transaction) : bool :=
  existsb (Status_eqb (status t)) [pending_user_transfer_start; pending_external]
  && Kind_eqb (kind t) deposit.

(** The adapter may have saved rows of its own. *)
Definition poll_pending_deposits (pending_deposits : list Transaction)
  : M unit PyValue :=
  fun l s =>
    let answer := rri_poll_pending_deposits pending_deposits (db s) (world s) in
    {| res := fst (fst answer); obj := l;
       st := {| db := snd (fst answer); world := snd answer;
                TERMINATE := TERMINATE s |};
       trace := [EvPoll pending_deposits (fst (fst answer))] |}.

Definition get_ready_deposits : M unit PyValue :=
  s <- get_state ;;
  let pending_deposits := filter (fun t => is_candidate t = true) (objects s) in
  ready_transactions <- poll_pending_deposits pending_deposits ;;
  match ready_transactions with
  | PyList l => l' <- check_ready_transactions l ;; ret (PyList l')
  | PyTuple l => l' <- check_ready_transactions l ;; ret (PyTuple l')
  | PyNone => raise (TypeError "'NoneType' object is not iterable")
  end.

Definition create_account_envelope (source_account : Account)
    (source_account_kp : Keypair) (fee : Z) (transaction : Transaction)
  : TransactionEnvelope :=
  sign source_account_kp
    (build
       (append_op
          (CreateAccount (stellar_account transaction)
             (ACCOUNT_STARTING_BALANCE settings) None)
          (new_builder source_account (STELLAR_NETWORK_PASSPHRASE settings) fee))).

Definition get_or_create_destination_account : M Transaction (Account * bool) :=
  try_except
    (transaction <- get_local ;;
     r <- get_account_obj (Keypair_from_public_key (stellar_account transaction)) ;;
     ret (fst r, is_pending_trust transaction (snd r)))
    (fun e =>
       (* [get_account_obj] raises [RuntimeError] itself, no subclass *)
       match e with
       | RuntimeError _ =>
           Some
             (transaction <- get_local ;;
              source_account_kp <-
                (if requires_multisig transaction
                 then get_channel_keypair
                 else ret (Keypair_from_secret
                             (distribution_seed (asset transaction)))) ;;
              r <- get_account_obj source_account_kp ;;
              let source_account := fst r in
              fee <- choose_base_fee ;;
              transaction <- get_local ;;
              let transaction_envelope :=
                create_account_envelope source_account source_account_kp fee
                  transaction in
              try_except
                (HORIZON_SERVER_submit_transaction transaction_envelope ;;
                 ret tt)
                (fun submit_exc =>
                   if is_BaseHorizonError submit_exc
                   then Some (raise (RuntimeError
                                ("Horizon error when submitting create account to horizon: "
                                 +:+ message_of submit_exc)))
                   else None) ;;
              r <- get_account_obj
                     (Keypair_from_public_key (stellar_account transaction)) ;;
              ret (fst r, true))
       | _ =>
           if is_BaseHorizonError e
           then Some (raise (RuntimeError
                               ("Horizon error when loading stellar account: "
                                +:+ message_of e)))
           else None
       end).

(** ** [Command] of [poll_pending_deposits] *)

(** [try: rdi.after_deposit(transaction) except Exception: log] *)
Definition after_deposit (log_msg : string) : M Transaction unit :=
  try_except
    (t <- get_local ;;
     call_logged (rdi_after_deposit t) (EvAfterDeposit t) (fun r => r))
    (fun _ => Some (logger EXCEPTION log_msg)).

Definition execute_deposit : M Transaction unit :=
  r <- try_except
         (r <- get_or_create_destination_account ;; ret (Some (snd r)))
         (fun e =>
            match caught_as_RuntimeError e with
            | Some msg =>
                Some (modify_local (set_status error) ;;
                      modify_local (set_status_message (Some msg)) ;;
                      save ;;
                      logger ERROR msg ;;
                      maybe_make_callback ;;
                      ret None)
            | None => None
            end) ;;
  match r with
  | None => ret tt
  | Some pending_trust_ =>
      transaction <- get_local ;;
      if pending_trust_ && negb (claimable_balance_supported transaction) then
        logger INFO ("destination account is pending_trust for transaction "
                     +:+ id transaction) ;;
        modify_local (set_status pending_trust) ;;
        save ;;
        maybe_make_callback
      else if requires_multisig transaction then
        save_as_pending_signatures
      else
        ok <- submit ;;
        if ok then
          refresh_from_db ;;
          after_deposit "after_deposit() threw an unexpected exception"
        else ret tt
  end.

Fixpoint execute_ready (ready_transactions : list Transaction) : M unit unit :=
  match ready_transactions with
  | [] => ret tt
  | transaction :: rest =>
      s <- get_state ;;
      if TERMINATE s then ret tt
      else
        with_local transaction execute_deposit ;;
        execute_ready rest
  end.

Definition is_cosigned (t : Transaction) : bool :=
  Kind_eqb (kind t) deposit
  && Status_eqb (status t) pending_anchor
  && negb (pending_signatures t)
  && match envelope_xdr t with Some _ => true | None => false end.

Definition submit_cosigned : M Transaction unit :=
  ok <- submit ;;
  if ok then
    refresh_from_db ;;
    after_deposit "after_deposit() threw an unexpected exception"
  else ret tt.

Fixpoint execute_multisig (multisig_transactions : list Transaction) : M unit unit :=
  match multisig_transactions with
  | [] => ret tt
  | transaction :: rest =>
      with_local transaction submit_cosigned ;;
      execute_multisig rest
  end.

Definition execute_deposits : M unit unit :=
  r <- try_except
         (v <- get_ready_deposits ;; ret (Some v))
         (fun _ =>
            Some (logger EXCEPTION
                    "poll_pending_deposits() threw an unexpected exception" ;;
                  ret None)) ;;
  match r with
  | None => ret tt
  | Some (PyList ready_transactions) =>
      execute_ready ready_transactions ;;
      s <- get_state ;;
      let multisig_transactions :=
        filter (fun t => is_cosigned t = true) (objects s) in
      execute_multisig multisig_transactions
  | Some _ =>
      raise (CommandError
               "poll_pending_deposits() did not return a list of transaction objects.")
  end.

(** ** [Command] of [check_trustlines] *)

(** The loop over [account["balances"]] for one deposit. *)
Fixpoint check_balances (account : AccountResponse) (bs : list Balance)
  : M Transaction unit :=
  match bs with
  | [] => ret tt
  | balance :: rest =>
      if is_native balance then check_balances account rest
      else
        transaction <- get_local ;;
        match asset_code balance with
        | None => raise (KeyError "asset_code")
        | Some balance_code =>
            if negb (balance_code =? code (asset transaction))%string
            then check_balances account rest
            else
              match asset_issuer balance with
              | None => raise (KeyError "asset_issuer")
              | Some balance_issuer =>
                  if negb (balance_issuer =? issuer (asset transaction))%string
                  then check_balances account rest
                  else
                    logger INFO
                      ("Account " +:+ account_resource_id account
                       +:+ " has established a trustline for "
                       +:+ balance_code +:+ ":" +:+ balance_issuer) ;;
                    if requires_multisig transaction then
                      save_as_pending_signatures ;;
                      check_balances account rest
                    else
                      ok <- submit ;;
                      (if ok then
                         refresh_from_db ;;
                         after_deposit
                           ("An unexpected error was raised from "
                            +:+ "after_deposit() in check_trustlines")
                       else ret tt) ;;
                      check_balances account rest
              end
        end
  end.

Fixpoint check_trustlines_loop (transactions : list Transaction)
    (accounts : gmap string AccountResponse) : M unit unit :=
  match transactions with
  | [] => ret tt
  | transaction :: rest =>
      s <- get_state ;;
      if TERMINATE s then ret tt
      else
        match accounts !! stellar_account transaction with
        | Some account =>
            with_local transaction (check_balances account (balances account)) ;;
            check_trustlines_loop rest accounts
        | None =>
            r <- try_except
                   (account <- HORIZON_SERVER_account
                                 (stellar_account transaction) ;;
                    ret (Some account))
                   (fun e =>
                      if is_BaseRequestError e
                      then Some (logger EXCEPTION
                                   ("Failed to load account "
                                    +:+ stellar_account transaction) ;;
                                 ret None)
                      else None) ;;
            match r with
            | None => check_trustlines_loop rest accounts
            | Some account =>
                with_local transaction
                  (check_balances account (balances account)) ;;
                check_trustlines_loop rest
                  (<[stellar_account transaction := account]> accounts)
            end
        end
  end.

Definition is_pending_trust_deposit (t : Transaction) : bool :=
  Kind_eqb (kind t) deposit && Status_eqb (status t) pending_trust.

Definition check_trustlines : M unit unit :=
  s <- get_state ;;
  let transactions :=
    filter (fun t => is_pending_trust_deposit t = true) (objects s) in
  check_trustlines_loop transactions ∅.
End Operations.


(** ** A small ledger to run the engine on *)

Module Sim.

(** What the simulated Horizon does with a submitted transaction. *)
Inductive SubmitMode : Type :=
| Accept
| Reject
| Fail (e : BaseRequestError).

Record World : Type := {
  ledger : list AccountResponse;      (* the accounts that exist *)
  unreachable : list string;          (* accounts whose fetch fails *)
  submit_mode : SubmitMode;
  adapter : result PyValue;           (* what the polling adapter returns *)
  clock : Z
}.

Definition find_account (a : string) (w : World) : option AccountResponse :=
  List.find (fun r => (account_resource_id r =? a)%string) (ledger w).

Definition account_call (a : string) (w : World)
  : outcome BaseRequestError AccountResponse * World :=
  if existsb (String.eqb a) (unreachable w)
  then (Raise (ConnectionError "connection refused"), w)
  else
    match find_account a w with
    | Some r => (Ok r, w)
    | None => (Raise (NotFoundError "Resource Missing"), w)
    end.

Definition created_accounts (ops : list Operation) : list AccountResponse :=
  omap (fun op =>
          match op with
          | CreateAccount dest _ _ =>
              Some {| account_resource_id := dest;
                      account_resource_sequence := 0;
                      balances := [{| asset_type := Some "native";
                                      asset_code := None;
                                      asset_issuer := None |}] |}
          | _ => None
          end) ops.

Definition result_blob (ops : list Operation) : string :=
  if existsb (fun op => match op with
                        | CreateClaimableBalance _ _ _ _ => true
                        | _ => false
                        end) ops
  then "claimable" else "paid".

Definition envelope_blob (e : TransactionEnvelope) : string :=
  "envelope of " +:+ tx_source e +:+ " signed "
  +:+ PyDecimal.string_of_Z (Z.of_nat (length (signatures e))) +:+ " times".

Definition submit_call (e : TransactionEnvelope) (w : World)
  : outcome BaseRequestError Response.t * World :=
  match submit_mode w with
  | Accept =>
      (Ok {| Response.successful := true;
             Response.result_xdr := result_blob (tx_operations e);
             Response.envelope_xdr := envelope_blob e;
             Response.paging_token := "4242";
             Response.id := "a1b2c3" |},
       {| ledger := ledger w ++ created_accounts (tx_operations e);
          unreachable := unreachable w;
          submit_mode := submit_mode w;
          adapter := adapter w;
          clock := clock w + 5 |})
  | Reject =>
      (Ok {| Response.successful := false;
             Response.result_xdr := "AAAAAAAAAGT////7AAAAAA==";
             Response.envelope_xdr := envelope_blob e;
             Response.paging_token := "";
             Response.id := "a1b2c3" |}, w)
  | Fail err => (Raise err, w)
  end.

Definition cosigned_envelope : TransactionEnvelope :=
  {| tx_source := "GCHANNEL";
     tx_sequence := 8;
     tx_fee := 100;
     tx_operations :=
       [Payment "GDEST" "USD" "GISSUER" "99.00" (Some "GDIST")];
     tx_memo := NoneMemo;
     tx_network_passphrase := "Test SDF Network ; September 2015";
     signatures :=
       [{| public_key := "GCHANNEL"; secret := Some "SCHANNEL" |};
        {| public_key := "GSIGNER2"; secret := Some "SSIGNER2" |}] |}.

Definition a_balance_id : ClaimableBalanceID :=
  {| v0 := [Byte.x70; Byte.xd8; Byte.x96; Byte.x59] |}.

Definition decode_result (blob : string) : option TransactionResult :=
  if (blob =? "claimable")%string then
    Some {| feeCharged := 100;
            results :=
              [{| tr := createClaimableBalanceResult
                          {| balanceID := a_balance_id |} |}] |}
  else if (blob =? "paid")%string then
    Some {| feeCharged := 100; results := [{| tr := paymentResult 0 |}] |}
  else None.

#[global] Instance collaborators : Collaborators World := {|
  settings :=
    {| STELLAR_NETWORK_PASSPHRASE := "Test SDF Network ; September 2015";
       MAX_TRANSACTION_FEE_STROOPS := Some 100;
       ACCOUNT_STARTING_BALANCE := "2.01";
       OPERATION_DEPOSIT := "deposit" |};
  horizon_account_call := account_call;
  horizon_fetch_base_fee := fun w => (Ok 100, w);
  horizon_submit_transaction := submit_call;
  public_key_of_secret := fun seed => "G" +:+ String.substring 1 (String.length seed) seed;
  TransactionEnvelope_to_xdr := envelope_blob;
  TransactionEnvelope_from_xdr :=
    fun blob _ => if (blob =? "cosigned")%string then Some cosigned_envelope else None;
  TransactionResult_from_xdr := decode_result;
  make_memo := fun m _ => TextMemo m;
  registered_fee_func := the_calculate_fee;
  calculate_fee := fun _ => PyDecimal.of_Z 1;
  rri_poll_pending_deposits := fun _ rows w => (adapter w, rows, w);
  rdi_create_channel_account := fun _ w => (Ok "SCHANNEL", w);
  rdi_after_deposit := fun _ w => (Ok tt, w);
  utc_now := clock
|}.

Definition usd (master : option Signer) : Asset :=
  {| code := "USD";
     issuer := "GISSUER";
     significant_decimals := 2;
     distribution_seed := "SDIST";
     distribution_account := "GDIST";
     distribution_account_master_signer := master;
     distribution_account_thresholds :=
       {| low_threshold := 0; med_threshold := 10; high_threshold := 20 |} |}.

(** An asset whose master key alone authorizes payments. *)
Definition usd_single : Asset := usd (Some {| key := "GDIST"; weight := 10 |}).

(** An asset whose master key (weight 5) is below the medium threshold. *)
Definition usd_multisig : Asset := usd (Some {| key := "GDIST"; weight := 5 |}).

(** A deposit of 100 with a fee of 1, as the intake flow and the adapter
    leave it. *)
Definition deposit_to (ident dest : string) (a : Asset) (st : Status)
  : Transaction :=
  {| id := ident; kind := deposit; status := st; status_eta := None;
     status_message := None;
     amount_in := Some (PyDecimal.of_Z 100);
     amount_fee := Some (PyDecimal.of_Z 1);
     amount_out := None; stellar_account := dest; memo := None;
     memo_type := "text"; envelope_xdr := None; paging_token := None;
     stellar_transaction_id := None; claimable_balance_supported := false;
     claimable_balance_id := None; pending_signatures := false;
     channel_seed := None; channel_account := None; completed_at := None;
     asset := a |}.

Definition deposit_of (a : Asset) (st : Status) : Transaction :=
  deposit_to "tx-1" "GDEST" a st.

Definition line (c i : string) : Balance :=
  {| asset_type := Some "credit_alphanum4"; asset_code := Some c;
     asset_issuer := Some i |}.

Definition account_of (a : string) (lines : list Balance) : AccountResponse :=
  {| account_resource_id := a; account_resource_sequence := 7;
     balances := {| asset_type := Some "native"; asset_code := None;
                    asset_issuer := None |} :: lines |}.

Definition world_of (accounts : list AccountResponse) (mode : SubmitMode) : World :=
  {| ledger := accounts; unreachable := []; submit_mode := mode;
     adapter := Ok (PyList []); clock := 1000 |}.

Definition state_of (rows : list Transaction) (w : World) : State World :=
  {| db := list_to_map (map (fun t => (id t, t)) rows); world := w;
     TERMINATE := false |}.

(** The distribution account and a destination that trusts USD. *)
Definition funded : list AccountResponse :=
  [account_of "GDIST" []; account_of "GCHANNEL" [];
   account_of "GDEST" [line "USD" "GISSUER"]].

End Sim.


(** ** Vocabulary of the properties *)

(** The objects a run saved, oldest first. *)
Fixpoint saves (evs : list Event) : list Transaction :=
  match evs with
  | [] => []
  | EvSave t :: rest => t :: saves rest
  | _ :: rest => saves rest
  end.

(** The envelopes a run submitted, with Horizon's answers. *)
Fixpoint submissions (evs : list Event)
  : list (TransactionEnvelope * outcome BaseRequestError Response.t) :=
  match evs with
  | [] => []
  | EvSubmit e a :: rest => (e, a) :: submissions rest
  | _ :: rest => submissions rest
  end.

(** The calls a run made to Horizon. *)
Definition is_ledger_call (e : Event) : bool :=
  match e with
  | EvFetchAccount _ _ | EvFetchBaseFee _ | EvSubmit _ _ => true
  | _ => false
  end.

(** Reading the ledger and logging: nothing is written anywhere. *)
Definition is_read_event (e : Event) : bool :=
  match e with
  | EvFetchAccount _ _ | EvFetchBaseFee _ | EvLog _ _ => true
  | _ => false
  end.

Section Logic.

Context {World : Type} `{C : Collaborators World}.

(** [wp m Q l s]: the run of [m] from [l] and [s] ends in [Q]. *)
Definition wp {L A} (m : M World L A)
    (Q : result A -> L -> State World -> list Event -> Prop)
    (l : L) (s : State World) : Prop :=
  Q (res (m l s)) (obj (m l s)) (st (m l s)) (trace (m l s)).

(** A block that only reads: the object, the rows and the flag are as
    before, the log has read events only, and the result is in [R]. *)
Definition reads_only {L A} (m : M World L A) (R : result A -> Prop) : Prop :=
  forall l s,
    R (res (m l s)) /\ obj (m l s) = l /\ db (st (m l s)) = db s
    /\ TERMINATE (st (m l s)) = TERMINATE s
    /\ forallb is_read_event (trace (m l s)) = true.

End Logic.


(** What [get_account_obj] raises: the account does not exist, or Horizon
    failed otherwise. *)
Definition account_failure (e : exn) : bool :=
  match e with
  | RuntimeError _ => true
  | RequestError (NotFoundError _) => false
  | RequestError _ => true
  | _ => false
  end.

(** What building a deposit envelope raises. *)
Definition envelope_failure (e : exn) : bool :=
  match e with
  | TypeError _ | DecimalInvalidOperation _ | RuntimeError _ | RequestError _ => true
  | _ => false
  end.

(** The ledger submission step failed: the call raised a
    [BaseHorizonError], or the answer says [successful = false]. *)
Definition submission_failed (answer : outcome BaseRequestError Response.t) : bool :=
  match answer with
  | Raise e => is_BaseHorizonError (RequestError e)
  | Ok response => negb (Response.successful response)
  end.

(** A settled deposit: [amount_out] is the net amount [d]. *)
Definition settled {World : Type} `{C : Collaborators World}
    (d : Decimal) (t : Transaction) : Prop :=
  amount_out t = Some d /\ net_amount t = Ok d.

(** What this module does to one deposit object: the bodies of its loops
    and the methods they call. *)
Inductive CoreOperation : Type :=
| op_check_ready_transaction
| op_get_or_create_destination_account
| op_execute_deposit
| op_submit_cosigned
| op_check_balances (account : AccountResponse)
| op_submit
| op_save_as_pending_signatures
| op_handle_error (message : string).

Definition run_operation {World : Type} `{C : Collaborators World}
    (op : CoreOperation) : M World Transaction unit :=
  match op with
  | op_check_ready_transaction => check_ready_transaction
  | op_get_or_create_destination_account =>
      get_or_create_destination_account ;; ret tt
  | op_execute_deposit => execute_deposit
  | op_submit_cosigned => submit_cosigned
  | op_check_balances account => check_balances account (balances account)
  | op_submit => submit ;; ret tt
  | op_save_as_pending_signatures => save_as_pending_signatures
  | op_handle_error message => _handle_error message
  end.

(** The object is still settled at [d], and so is every row the run saved. *)
Definition keeps_settled {World : Type} `{C : Collaborators World} {A}
    (d : Decimal) (_ : result A) (l : Transaction) (_ : State World)
    (evs : list Event) : Prop :=
  settled d l /\ Forall (fun row => amount_out row = Some d) (saves evs).

Definition is_create_claimable_balance (op : Operation) : bool :=
  match op with
  | CreateClaimableBalance _ _ _ _ => true
  | _ => false
  end.

(** The operation of a deposit envelope, for a deposit [t] whose net amount
    is [d] and whose destination has the snapshot [json]. *)
Definition deposit_operation {World : Type} `{C : Collaborators World}
    (t : Transaction) (d : Decimal) (json : AccountResponse) : Operation :=
  if claimable_balance_supported t && is_pending_trust t json
  then CreateClaimableBalance
         [{| destination := stellar_account t |}]
         {| sdk_code := code (asset t); sdk_issuer := issuer (asset t) |}
         (PyDecimal.str d)
         (Some (distribution_account (asset t)))
  else Payment (stellar_account t) (code (asset t)) (issuer (asset t))
         (PyDecimal.str d)
         (Some (distribution_account (asset t))).

(** ** Balance identifiers *)

Definition is_balance_creation (r : OperationResult) : bool :=
  match tr r with
  | createClaimableBalanceResult _ => true
  | _ => false
  end.

(** The balance id of the last balance-creation result, [acc] if none. *)
Fixpoint last_balance_id (op_results : list OperationResult)
    (acc : option ClaimableBalanceID) : option ClaimableBalanceID :=
  match op_results with
  | [] => acc
  | r :: rest =>
      match tr r with
      | createClaimableBalanceResult c => last_balance_id rest (Some (balanceID c))
      | _ => last_balance_id rest acc
      end
  end.

(** The hex form of a balance id, as the ledger's API takes it. *)
Definition balance_id_hex (b : ClaimableBalanceID) : string :=
  Codec.hex (ClaimableBalanceID_pack b).

(** Reading a balance id back from its hex form: the bytes, then the XDR
    union with its discriminant [0]. *)
Definition balance_id_of_hex (h : string) : option ClaimableBalanceID :=
  match Codec.fromhex h with
  | Some (x0 :: x1 :: x2 :: x3 :: hash) =>
      if forallb (Byte.eqb Byte.x00) [x0; x1; x2; x3]
      then Some {| v0 := hash |}
      else None
  | _ => None
  end.

(** The facts about two bytes that decoding base64 rests on. *)
Definition b64_pair_ok (a b : byte) : bool :=
  let x := Byte.to_N a in
  let y := Byte.to_N b in
  (Codec.sextet1 x <? 64)%N
  && (Codec.sextet2 x y <? 64)%N
  && (Codec.sextet3 x y <? 64)%N
  && (Codec.sextet4 x <? 64)%N
  && Byte.eqb (Codec.byte_of_N (N.lor (N.shiftl (Codec.sextet1 x) 2)
                                  (N.shiftr (Codec.sextet2 x y) 4))) a
  && (N.land (Codec.sextet2 x y) 15 =? N.shiftr y 4)%N
  && Byte.eqb (Codec.byte_of_N (N.lor (N.shiftl (N.shiftr x 4) 4)
                                  (N.shiftr (Codec.sextet3 x y) 2))) a
  && (N.land (Codec.sextet3 x y) 3 =? N.shiftr y 6)%N
  && Byte.eqb (Codec.byte_of_N (N.lor (N.shiftl (N.shiftr x 6) 6)
                                  (Codec.sextet4 x))) a.

(** A sextet is printed as a character of the alphabet, read back as is. *)
Definition b64_char_ok (n : N) : bool :=
  negb (Ascii.eqb (Codec.b2a n) Codec.BASE64_PAD)
  && match Codec.table_a2b_base64 (Codec.b2a n) with
     | Some m => (m =? n)%N
     | None => false
     end.

(** A byte is printed as two hex digits, read back as is. *)
Definition hex_byte_ok (b : byte) : bool :=
  let n := Byte.to_N b in
  match Codec.hex_value (Codec.hex_digit (N.shiftr n 4)),
        Codec.hex_value (Codec.hex_digit (N.land n 15)) with
  | Some hi, Some lo => Byte.eqb (Codec.byte_of_N (hi * 16 + lo)) b
  | _, _ => false
  end.

(** The key that funds and signs the creation of a missing destination
    account: the channel account's for an asset that requires multisig
    ([t'] is the deposit once it has a channel account), the distribution
    account's otherwise. *)
Definition funding_keypair {World : Type} `{C : Collaborators World}
    (t t' : Transaction) : option Keypair :=
  if requires_multisig t
  then Keypair_from_secret <$> channel_seed t'
  else Some (Keypair_from_secret (distribution_seed (asset t))).

(** A record the polling adapter may not return: no deposit, or no
    [amount_in]. *)
Definition violates_contract (t : Transaction) : bool :=
  negb (Kind_eqb (kind t) deposit)
  || match amount_in t with Some _ => false | None => true end.

(** The fee [get_ready_deposits] gives a record whose fee is unset. *)
Definition default_fee {World : Type} `{C : Collaborators World}
    (t : Transaction) (amount : Decimal) : Decimal :=
  match registered_fee_func with
  | the_calculate_fee =>
      calculate_fee {| fee_amount := amount;
                       fee_operation := OPERATION_DEPOSIT settings;
                       fee_asset_code := code (asset t) |}
  | custom_fee_func _ => PyDecimal.of_Z 0
  end.

(** What the spec says of the validation error: it is not swallowed, it
    leaves the driver. *)
Definition validation_error_propagates {World : Type} `{C : Collaborators World}
    (s : State World) : Prop :=
  forall e,
    res (get_ready_deposits tt s) = Raise e ->
    res (execute_deposits tt s) = Raise e.

(** A state whose polling adapter hands back a withdrawal. *)
Definition sim_bad_adapter : State Sim.World :=
  Sim.state_of []
    {| Sim.ledger := Sim.funded; Sim.unreachable := [];
       Sim.submit_mode := Sim.Accept;
       Sim.adapter :=
         Ok (PyList
               [{| id := "tx-9"; kind := withdrawal;
                   status := pending_user_transfer_start; status_eta := None;
                   status_message := None;
                   amount_in := Some (PyDecimal.of_Z 100);
                   amount_fee := None; amount_out := None;
                   stellar_account := "GDEST"; memo := None;
                   memo_type := "text"; envelope_xdr := None;
                   paging_token := None; stellar_transaction_id := None;
                   claimable_balance_supported := false;
                   claimable_balance_id := None; pending_signatures := false;
                   channel_seed := None; channel_account := None;
                   completed_at := None; asset := Sim.usd_single |}]);
       Sim.clock := 1000 |}.

(** ** The history of a deposit *)

(** The state in which a multisig deposit waits for its co-signers. *)
Definition awaits_cosignature (t : Transaction) : Prop :=
  pending_signatures t = true /\ envelope_xdr t <> None.

(** What the rest of the system (the polling adapter, the anchor, the
    co-signer) may do to the record of a deposit: anything, except change
    its asset, give it an envelope when it has none, or move it to
    [pending_stellar]. *)
Definition external_update (row row' : Transaction) : Prop :=
  asset row' = asset row
  /\ (envelope_xdr row = None -> envelope_xdr row' = None)
  /\ (status row' = pending_stellar -> status row = pending_stellar).

(** What a step of this module on a multisig deposit [t] may write: the
    asset of [t], no new [pending_stellar], and the envelope of [t] unless
    the deposit awaits its co-signers. *)
Definition multisig_safe (t t' : Transaction) : Prop :=
  asset t' = asset t
  /\ (status t' = pending_stellar -> status t = pending_stellar)
  /\ (envelope_xdr t' = envelope_xdr t \/ awaits_cosignature t').

Section History.

Context {World : Type} `{C : Collaborators World}.

(** The successive records of one deposit, oldest first: as the intake flow
    creates it, then each record written from outside and each row saved by
    a step of the driver or of the trustline poller.  A step of this module
    runs on an object [t] read from the current row, or handed back for it
    by the polling adapter. *)
Inductive history : list Transaction -> Prop :=
| history_intake (t0 : Transaction) :
    envelope_xdr t0 = None -> status t0 <> pending_stellar ->
    history [t0]
| history_external (h : list Transaction) (row row' : Transaction) :
    history h -> last h = Some row -> external_update row row' ->
    history (h ++ [row'])
| history_ready (h : list Transaction) (row t : Transaction) (s : State World) :
    (* the loop of [get_ready_deposits] *)
    history h -> last h = Some row -> external_update row t ->
    history (h ++ saves (trace (check_ready_transaction t s)))
| history_driver (h : list Transaction) (row t : Transaction) (s : State World) :
    (* the loop over the ready deposits *)
    history h -> last h = Some row -> external_update row t ->
    history (h ++ saves (trace (execute_deposit t s)))
| history_rescan (h : list Transaction) (row t : Transaction) (s : State World) :
    (* the loop over the co-signed deposits *)
    history h -> last h = Some row -> external_update row t ->
    is_cosigned t = true ->
    history (h ++ saves (trace (submit_cosigned t s)))
| history_poller (h : list Transaction) (row t : Transaction)
    (account : AccountResponse) (s : State World) :
    (* the loop of [check_trustlines] *)
    history h -> last h = Some row -> external_update row t ->
    is_pending_trust_deposit t = true ->
    history (h ++ saves (trace (check_balances account (balances account) t s))).

(** The object is still safe for [t], and so is every row the run saved. *)
Definition keeps_multisig_safe {A} (t : Transaction)
    (_ : result A) (l : Transaction) (_ : State World) (evs : list Event) : Prop :=
  multisig_safe t l /\ Forall (multisig_safe t) (saves evs).

(** What the history of a multisig deposit keeps true. *)
Definition cosigned_before_stellar (a : Asset) (h : list Transaction) : Prop :=
  Forall (fun t => asset t = a) h
  /\ (forall h1 t h2,
        h = h1 ++ t :: h2 -> status t = pending_stellar ->
        Exists awaits_cosignature h1)
  /\ (forall row,
        last h = Some row -> envelope_xdr row <> None ->
        Exists awaits_cosignature h).

End History.

(** What a row appended to the history [h] must satisfy. *)
Definition extends_history (a : Asset) (h : list Transaction) (t' : Transaction) : Prop :=
  asset t' = a
  /\ (status t' = pending_stellar -> Exists awaits_cosignature h)
  /\ (envelope_xdr t' <> None ->
      awaits_cosignature t' \/ Exists awaits_cosignature h).

(** A multisig deposit on the simulated ledger: the driver leaves it waiting
    for its co-signers, they store the co-signed envelope, and the rescan
    submits it. *)
Definition sim_multisig_deposit : Transaction :=
  Sim.deposit_of Sim.usd_multisig pending_user_transfer_start.

Definition sim_state (row : Transaction) : State Sim.World :=
  Sim.state_of [row] (Sim.world_of Sim.funded Sim.Accept).

Definition sim_waiting : list Transaction :=
  [sim_multisig_deposit]
  ++ saves (trace (execute_deposit sim_multisig_deposit
                     (sim_state sim_multisig_deposit))).

Definition sim_waiting_row : Transaction :=
  default sim_multisig_deposit (last sim_waiting).

Definition sim_cosigned_row : Transaction :=
  set_pending_signatures false
    (set_envelope_xdr (Some "cosigned") sim_waiting_row).

Definition sim_multisig_history : list Transaction :=
  (sim_waiting ++ [sim_cosigned_row])
  ++ saves (trace (submit_cosigned sim_cosigned_row (sim_state sim_cosigned_row))).

(** ** Vocabulary of the further properties *)

(** What a run did that the ledger or another process can see: a row saved
    with its status, or a transaction submitted to Horizon. *)
Inductive Mark : Type :=
| Saved (st : Status)
| Submitted.

(** The marks of a log, oldest first. *)
Fixpoint marks (evs : list Event) : list Mark :=
  match evs with
  | [] => []
  | EvSave t :: rest => Saved (status t) :: marks rest
  | EvSubmit _ _ :: rest => Submitted :: marks rest
  | _ :: rest => marks rest
  end.

(** The two complete courses of [submit]. *)
Definition submit_course (final : Status) : list Mark :=
  [Saved pending_anchor; Saved pending_stellar; Submitted; Saved final].

(** The base fee of a transaction: the configured maximum if there is one
    (and it is not zero), and then Horizon is not asked; what Horizon
    answers otherwise. *)
Definition chosen_fee {World : Type} `{C : Collaborators World}
    (fee : Z) (evs : list Event) : Prop :=
  match MAX_TRANSACTION_FEE_STROOPS settings with
  | Some f =>
      if f =? 0 then In (EvFetchBaseFee (Ok fee)) evs
      else fee = f /\ forall answer, ~ In (EvFetchBaseFee answer) evs
  | None => In (EvFetchBaseFee (Ok fee)) evs
  end.

(** The memo of a deposit, as the envelope carries it. *)
Definition deposit_memo {World : Type} `{C : Collaborators World}
    (t : Transaction) : Memo :=
  match memo t with
  | Some m => if (m =? "")%string then NoneMemo else make_memo m (memo_type t)
  | None => NoneMemo
  end.

(** The envelope of a deposit [t] of net amount [d], from the account
    [source], at the base fee [fee], for a destination whose snapshot is
    [json]: not signed yet. *)
Definition deposit_envelope {World : Type} `{C : Collaborators World}
    (source : Account) (t : Transaction) (d : Decimal) (fee : Z)
    (json : AccountResponse) : TransactionEnvelope :=
  {| tx_source := account_id source;
     tx_sequence := sequence source + 1;
     tx_fee := fee;
     tx_operations := [deposit_operation t d json];
     tx_memo := deposit_memo t;
     tx_network_passphrase := STELLAR_NETWORK_PASSPHRASE settings;
     signatures := [] |}.

(** What identifies a deposit and what it asks for: the fields this module
    reads and never writes. *)
Definition same_deposit (t l : Transaction) : Prop :=
  id l = id t /\ kind l = kind t /\ asset l = asset t
  /\ amount_in l = amount_in t /\ stellar_account l = stellar_account t
  /\ memo l = memo t /\ memo_type l = memo_type t
  /\ claimable_balance_supported l = claimable_balance_supported t
  /\ (amount_fee t <> None -> amount_fee l = amount_fee t).

(** The object satisfies [I], and so does every row the run saved. *)
Definition keeps {World : Type} {A} (I : Transaction -> Prop)
    (_ : result A) (l : Transaction) (_ : State World) (evs : list Event) : Prop :=
  I l /\ Forall I (saves evs).

(** The calls a run made to the integration [create_channel_account]. *)
Fixpoint channel_creations (evs : list Event) : list Transaction :=
  match evs with
  | [] => []
  | EvCreateChannelAccount t _ :: rest => t :: channel_creations rest
  | _ :: rest => channel_creations rest
  end.

(** A deposit that does not wait for co-signers: as [t] in the fields of
    the co-signature flow. *)
Definition single_signature (t l : Transaction) : Prop :=
  same_deposit t l
  /\ pending_signatures l = pending_signatures t
  /\ channel_seed l = channel_seed t
  /\ channel_account l = channel_account t.

(** The deposit stays out of the co-signature flow, in the object and in
    the rows saved, and no channel account is asked for. *)
Definition keeps_single {World : Type} {A} (t : Transaction)
    (r : result A) (l : Transaction) (s : State World) (evs : list Event) : Prop :=
  keeps (single_signature t) r l s evs /\ channel_creations evs = [].

(** The envelope creates an account and does nothing else. *)
Definition is_account_creation (envelope : TransactionEnvelope) : bool :=
  match tx_operations envelope with
  | [CreateAccount _ _ _] => true
  | _ => false
  end.

(** Whatever the run submitted created an account. *)
Definition creates_accounts_only (evs : list Event) : Prop :=
  Forall (fun p => is_account_creation p.1 = true) (submissions evs).

(** The balance line is well formed and is not the deposit's asset. *)
Definition other_line (t : Transaction) (balance : Balance) : bool :=
  is_native balance
  || match asset_code balance with
     | None => false
     | Some c =>
         negb (c =? code (asset t))%string
         || match asset_issuer balance with
            | None => false
            | Some i => negb (i =? issuer (asset t))%string
            end
     end.

(** A record as [get_ready_deposits] hands it on: with the default fee if
    it came without one. *)
Definition with_fee {World : Type} `{C : Collaborators World}
    (t : Transaction) : Transaction :=
  match amount_fee t, amount_in t with
  | None, Some amount => set_amount_fee (Some (default_fee t amount)) t
  | _, _ => t
  end.

(** [transaction.amount_fee is None] *)
Definition lacks_fee (t : Transaction) : bool :=
  match amount_fee t with
  | None => true
  | Some _ => false
  end.

(** A deposit and a ledger where everything is in place. *)
Definition sim_deposit : Transaction :=
  Sim.deposit_of Sim.usd_single pending_user_transfer_start.

(** A simulated world with a given ledger, Horizon behaviour and polling
    adapter. *)
Definition sim_world (accounts : list AccountResponse) (mode : Sim.SubmitMode)
    (adapter : result PyValue) : Sim.World :=
  {| Sim.ledger := accounts; Sim.unreachable := []; Sim.submit_mode := mode;
     Sim.adapter := adapter; Sim.clock := 1000 |}.

(** The rows, the termination flag and the world of a simulated run. *)
Definition sim_with (rows : list Transaction) (terminate : bool) (w : Sim.World)
  : State Sim.World :=
  {| db := list_to_map (map (fun t => (id t, t)) rows); world := w;
     TERMINATE := terminate |}.

(** A deposit the adapter hands back without a fee. *)
Definition sim_without_fee : Transaction :=
  set_amount_fee None sim_deposit.

(** A destination that exists and holds another asset only. *)
Definition sim_no_trustline : list AccountResponse :=
  [Sim.account_of "GDIST" []; Sim.account_of "GDEST" [Sim.line "EUR" "GISSUER"]].

(** A destination with a share of a liquidity pool: a balance line without
    [asset_code]. *)
Definition sim_pool_share : list AccountResponse :=
  [Sim.account_of "GDIST" [];
   Sim.account_of "GDEST"
     [{| asset_type := Some "liquidity_pool_shares"; asset_code := None;
         asset_issuer := None |};
      Sim.line "USD" "GISSUER"]].

(** A deposit that waits for its trustline. *)
Definition sim_pending_trust : Transaction :=
  Sim.deposit_of Sim.usd_single pending_trust.

(** A deposit whose stored envelope is not an envelope. *)
Definition sim_garbled : Transaction :=
  set_envelope_xdr (Some "garbled") (Sim.deposit_of Sim.usd_multisig pending_anchor).

(** ** [Command]: the scheduler of the two commands *)

(** What a command does, in order: an event of a pass or a log line, or one
    second of sleep. *)
Inductive Step : Type :=
| Ran (e : Event)
| Slept.

(** The seconds a command slept. *)
Fixpoint seconds_slept (steps : list Step) : nat :=
  match steps with
  | [] => O
  | Slept :: rest => S (seconds_slept rest)
  | Ran _ :: rest => seconds_slept rest
  end.

(** What the run of a command leaves; [None] is a loop that has not ended
    within the passes allowed. *)
Definition CommandRun (World : Type) : Type :=
  option (result unit * State World * list Step).

Section Scheduler.

Context {World : Type} `{C : Collaborators World}.

(** [time.sleep(1)]: the collaborators' state one second later, and whether
    SIGINT or SIGTERM was delivered during that second (its handler has run
    when [time.sleep] returns). *)
Variable time_sleep : World -> World * bool.

(** What differs between the two commands. *)
Record CommandModule : Type := {
  module_name : string;
  DEFAULT_INTERVAL : Z;
  run_pass : M World unit unit     (* [execute_deposits], [check_trustlines] *)
}.

(** The handler of SIGINT and SIGTERM. *)
Definition exit_gracefully (m : CommandModule) (s : State World)
  : State World * list Step :=
  ({| db := db s; world := world s; TERMINATE := true |},
   [Ran (EvLog INFO ("Exiting " +:+ module_name m +:+ "..."))]).

(** [for _ in range(seconds): if module.TERMINATE: break; time.sleep(1)] *)
Fixpoint sleep_loop (m : CommandModule) (n : nat) (s : State World)
  : State World * list Step :=
  match n with
  | O => (s, [])
  | S n' =>
      if TERMINATE s then (s, [])
      else
        let tick := time_sleep (world s) in
        let s1 := {| db := db s; world := fst tick; TERMINATE := TERMINATE s |} in
        let signalled := if snd tick then exit_gracefully m s1 else (s1, []) in
        let rest := sleep_loop m n' (fst signalled) in
        (fst rest, snd signalled ++ Slept :: snd rest)
  end.

(** [range(seconds)] is empty for a negative [seconds]. *)
Definition sleep (m : CommandModule) (seconds : Z) (s : State World)
  : State World * list Step :=
  sleep_loop m (Z.to_nat seconds) s.

(** [options.get("interval") or DEFAULT_INTERVAL] *)
Definition interval_of (m : CommandModule) (interval : option Z) : Z :=
  match interval with
  | Some i => if i =? 0 then DEFAULT_INTERVAL m else i
  | None => DEFAULT_INTERVAL m
  end.

(** [while True: if module.TERMINATE: break; pass(); sleep(interval)], for
    at most [passes] iterations. *)
Fixpoint handle_loop (passes : nat) (m : CommandModule) (interval : option Z)
    (s : State World) : CommandRun World :=
  match passes with
  | O => None
  | S passes' =>
      if TERMINATE s then Some (Ok tt, s, [])
      else
        let r := run_pass m tt s in
        match res r with
        | Raise e => Some (Raise e, st r, map Ran (trace r))
        | Ok _ =>
            let slept := sleep m (interval_of m interval) (st r) in
            match handle_loop passes' m interval (fst slept) with
            | Some (r', s', steps) =>
                Some (r', s', map Ran (trace r) ++ snd slept ++ steps)
            | None => None
            end
        end
  end.

(** [Command.handle]: one pass, or the loop when [--loop] is given. *)
Definition handle (passes : nat) (m : CommandModule) (loop : bool)
    (interval : option Z) (s : State World) : CommandRun World :=
  if loop then handle_loop passes m interval s
  else
    let r := run_pass m tt s in
    Some (res r, st r, map Ran (trace r)).

Definition poll_pending_deposits_command : CommandModule :=
  {| module_name := "poll_pending_deposits"; DEFAULT_INTERVAL := 10;
     run_pass := execute_deposits |}.

Definition check_trustlines_command : CommandModule :=
  {| module_name := "check_trustlines"; DEFAULT_INTERVAL := 60;
     run_pass := check_trustlines |}.

End Scheduler.

(** ** A submission that fails *)

(** The ledger submission step failed, as the spec has it: the call raised
    an adapter error, whatever its class, or the answer says
    [successful = false]. *)
Definition submission_step_failed
    (answer : outcome BaseRequestError Response.t) : bool :=
  match answer with
  | Raise _ => true
  | Ok response => negb (Response.successful response)
  end.

(** What the spec says of such a failure: the deposit is in [error] with a
    non-empty message, [submit] returns [False], and [amount_out] and
    [completed_at] are as they were. *)
Definition records_submission_failure {World : Type} `{C : Collaborators World}
    (t : Transaction) (s : State World) : Prop :=
  forall envelope answer,
    In (envelope, answer) (submissions (trace (submit t s))) ->
    submission_step_failed answer = true ->
    res (submit t s) = Ok false
    /\ status (obj (submit t s)) = error
    /\ (exists m, status_message (obj (submit t s)) = Some m /\ m <> "")
    /\ amount_out (obj (submit t s)) = amount_out t
    /\ completed_at (obj (submit t s)) = completed_at t.

(** A state in which Horizon cannot be reached when the deposit is
    submitted. *)
Definition sim_unreachable_horizon : State Sim.World :=
  sim_with [sim_deposit] false
    (sim_world Sim.funded (Sim.Fail (ConnectionError "timed out"))
       (Ok (PyList []))).

(** END OF DEFINITIONS *)
(** * Properties *)

(** ** The rules of [wp] *)

Section Rules.

Context {World : Type} `{C : Collaborators World}.

Lemma wp_ret {L A} (a : A) Q (l : L) (s : State World) : Q (Ok a) l s [] -> wp (ret a) Q l s.
Proof. exact (fun H => H). Qed.

Lemma wp_raise {L A} e (Q : result A -> L -> State World -> _ -> Prop) l s :
  Q (Raise e) l s [] -> wp (raise e) Q l s.
Proof. exact (fun H => H). Qed.

Lemma wp_bind {L A B} (m : M World L A) (k : A -> M World L B) Q l s :
  wp m (fun r l' s' evs =>
          match r with
          | Ok a => wp (k a) (fun r' l'' s'' evs' => Q r' l'' s'' (evs ++ evs')) l' s'
          | Raise e => Q (Raise e) l' s' evs
          end) l s ->
  wp (bind m k) Q l s.
Proof.
  unfold wp, bind. destruct (res (m l s)); simpl; auto.
Qed.

Lemma wp_try_except {L A} (m : M World L A) handler Q l s :
  wp m (fun r l' s' evs =>
          match r with
          | Ok a => Q (Ok a) l' s' evs
          | Raise e =>
              match handler e with
              | Some h => wp h (fun r' l'' s'' evs' => Q r' l'' s'' (evs ++ evs')) l' s'
              | None => Q (Raise e) l' s' evs
              end
          end) l s ->
  wp (try_except m handler) Q l s.
Proof.
  unfold wp, try_except. destruct (res (m l s)) eqn:E; simpl.
  - rewrite E. auto.
  - destruct (handler e); simpl; auto. rewrite E. auto.
Qed.

Lemma wp_with_local {L L' A} (l' : L') (m : M World L' A) Q (l : L) s :
  wp m (fun r l'' s' evs =>
          match r with
          | Ok a => Q (Ok (a, l'')) l s' evs
          | Raise e => Q (Raise e) l s' evs
          end) l' s ->
  wp (with_local l' m) Q l s.
Proof.
  unfold wp, with_local. simpl. destruct (res (m l' s)); auto.
Qed.

Lemma wp_get_local {L} Q (l : L) (s : State World) : Q (Ok l) l s [] -> wp get_local Q l s.
Proof. exact (fun H => H). Qed.

Lemma wp_get_state {L} Q (l : L) (s : State World) : Q (Ok s) l s [] -> wp get_state Q l s.
Proof. exact (fun H => H). Qed.

Lemma wp_modify_local {L} (f : L -> L) Q l (s : State World) :
  Q (Ok tt) (f l) s [] -> wp (modify_local f) Q l s.
Proof. exact (fun H => H). Qed.

Lemma wp_of_result {L A} (r : result A) Q (l : L) (s : State World) :
  Q r l s [] -> wp (of_result r) Q l s.
Proof. exact (fun H => H). Qed.

Lemma wp_decoded {L A} (o : option A) Q (l : L) (s : State World) :
  match o with
  | Some a => Q (Ok a) l s []
  | None => Q (Raise (XdrError "not a valid XDR blob")) l s []
  end ->
  wp (decoded o) Q l s.
Proof. unfold wp, decoded. destruct o; exact (fun H => H). Qed.

Lemma wp_emit {L} e Q (l : L) (s : State World) : Q (Ok tt) l s [e] -> wp (emit e) Q l s.
Proof. exact (fun H => H). Qed.

Lemma wp_save Q l (s : State World) :
  Q (Ok tt) l {| db := <[id l := l]> (db s); world := world s;
                 TERMINATE := TERMINATE s |} [EvSave l] ->
  wp save Q l s.
Proof. exact (fun H => H). Qed.

Lemma wp_maybe_make_callback Q l (s : State World) :
  Q (Ok tt) l s [EvCallback l] -> wp maybe_make_callback Q l s.
Proof. exact (fun H => H). Qed.

Lemma wp_refresh_from_db Q l (s : State World) :
  match db s !! id l with
  | Some row => Q (Ok tt) row s []
  | None => Q (Raise DoesNotExist) l s []
  end ->
  wp refresh_from_db Q l s.
Proof.
  unfold wp, refresh_from_db. destruct (db s !! id l); exact (fun H => H).
Qed.

Lemma wp_call_logged {L E A} (f : World -> outcome E A * World) ev lift
    Q (l : L) s :
  (forall r w,
     Q (lift r) l {| db := db s; world := w; TERMINATE := TERMINATE s |} [ev r]) ->
  wp (call_logged f ev lift) Q l s.
Proof. intros H. apply H. Qed.

Lemma wp_call_answer {L E A} (f : World -> outcome E A * World) ev lift
    Q (l : L) s r w :
  f (world s) = (r, w) ->
  Q (lift r) l {| db := db s; world := w; TERMINATE := TERMINATE s |} [ev r] ->
  wp (call_logged f ev lift) Q l s.
Proof.
intros Hf H. unfold wp, call_logged. cbn [res obj st trace]. rewrite Hf. exact H.
Qed.

Lemma wp_mono {L A} (m : M World L A) (Q Q' : _ -> _ -> _ -> _ -> Prop) l s :
  wp m Q l s -> (forall r l' s' evs, Q r l' s' evs -> Q' r l' s' evs) ->
  wp m Q' l s.
Proof. unfold wp. auto. Qed.

Lemma wp_reads {L A} (m : M World L A) R Q l s :
  reads_only m R ->
  (forall r w evs,
     R r -> forallb is_read_event evs = true ->
     Q r l {| db := db s; world := w; TERMINATE := TERMINATE s |} evs) ->
  wp m Q l s.
Proof.
  intros Hm H. destruct (Hm l s) as (HR & Hl & Hdb & HT & Hev).
  unfold wp. rewrite Hl.
  destruct (st (m l s)) as [d w T]. simpl in Hdb, HT. subst d T.
  apply H; assumption.
Qed.

Lemma reads_only_wp {L A} (m : M World L A) R :
  (forall l s,
     wp m (fun r l' s' evs =>
             R r /\ l' = l /\ db s' = db s /\ TERMINATE s' = TERMINATE s
             /\ forallb is_read_event evs = true) l s) ->
  reads_only m R.
Proof. intros H l s. apply H. Qed.

End Rules.

Ltac wp_red :=
  cbv beta iota;
  cbn [db world TERMINATE res obj st trace fst snd app lift_request_error negb].

Ltac wp_prim :=
  lazymatch goal with
  | |- wp (bind _ _) _ _ _ => apply wp_bind
  | |- wp (try_except _ _) _ _ _ => apply wp_try_except
  | |- wp (with_local _ _) _ _ _ => apply wp_with_local
  | |- wp (call_logged _ _ _) _ _ _ =>
      apply wp_call_logged;
      let r := fresh "r" in let w := fresh "w" in intros r w; destruct r; wp_red
  | |- wp (HORIZON_SERVER_account _) _ _ _ => unfold HORIZON_SERVER_account
  | |- wp HORIZON_SERVER_fetch_base_fee _ _ _ => unfold HORIZON_SERVER_fetch_base_fee
  | |- wp (HORIZON_SERVER_submit_transaction _) _ _ _ =>
      unfold HORIZON_SERVER_submit_transaction
  | |- wp (ret _) _ _ _ => apply wp_ret; wp_red
  | |- wp (raise _) _ _ _ => apply wp_raise; wp_red
  | |- wp get_local _ _ _ => apply wp_get_local; wp_red
  | |- wp get_state _ _ _ => apply wp_get_state; wp_red
  | |- wp (modify_local _) _ _ _ => apply wp_modify_local; wp_red
  | |- wp (emit _) _ _ _ => apply wp_emit; wp_red
  | |- wp (logger _ _) _ _ _ => apply wp_emit; wp_red
  | |- wp save _ _ _ => apply wp_save; wp_red
  | |- wp maybe_make_callback _ _ _ => apply wp_maybe_make_callback; wp_red
  | |- wp refresh_from_db _ ?l ?s =>
      apply wp_refresh_from_db;
      let E := fresh "E" in destruct (db s !! id l) eqn:E; wp_red
  | |- wp (of_result ?r) _ _ _ =>
      apply wp_of_result; let E := fresh "E" in destruct r eqn:E; wp_red
  | |- wp (decoded ?o) _ _ _ =>
      apply wp_decoded; let E := fresh "E" in destruct o eqn:E; wp_red
  | |- wp (if ?b then _ else _) _ _ _ =>
      let E := fresh "E" in destruct b eqn:E
  | |- wp (match ?x with _ => _ end) _ _ _ =>
      let E := fresh "E" in destruct x eqn:E
  | |- match (if ?b then _ else _) with _ => _ end =>
      let E := fresh "E" in destruct b eqn:E; wp_red
  | |- match (match ?x with _ => _ end) with _ => _ end =>
      let E := fresh "E" in destruct x eqn:E; wp_red
  | |- match ?x with _ => _ end =>
      let E := fresh "E" in destruct x eqn:E; wp_red
  end.

Ltac wp_go := repeat wp_prim.

(** Read a field through the setters that were applied. *)
Ltac tx_simpl :=
  cbn [id kind status status_eta status_message amount_in amount_fee amount_out
       stellar_account memo memo_type envelope_xdr paging_token
       stellar_transaction_id claimable_balance_supported claimable_balance_id
       pending_signatures channel_seed channel_account completed_at asset
       set_status set_status_eta set_status_message set_amount_fee set_amount_out
       set_envelope_xdr set_paging_token set_stellar_transaction_id
       set_claimable_balance_id set_pending_signatures set_channel_seed
       set_channel_account set_completed_at].

Ltac tx_simpl_in H :=
  cbn [id kind status status_eta status_message amount_in amount_fee amount_out
       stellar_account memo memo_type envelope_xdr paging_token
       stellar_transaction_id claimable_balance_supported claimable_balance_id
       pending_signatures channel_seed channel_account completed_at asset
       set_status set_status_eta set_status_message set_amount_fee set_amount_out
       set_envelope_xdr set_paging_token set_stellar_transaction_id
       set_claimable_balance_id set_pending_signatures set_channel_seed
       set_channel_account set_completed_at] in H.

(** Step over a block known to read only. *)
Ltac wp_read H :=
  eapply wp_reads; [ apply H | ];
  let r := fresh "r" in let w := fresh "w" in
  let evs := fresh "evs" in let HR := fresh "HR" in let Hev := fresh "Hev" in
  intros r w evs HR Hev; destruct r; wp_red.

(** Step over a block with a proved postcondition. *)
Ltac wp_use H :=
  eapply wp_mono; [ eapply H; eauto | ];
  cbv beta;
  let r := fresh "r" in let l := fresh "l" in let s := fresh "s" in
  let evs := fresh "evs" in let Hpost := fresh "Hpost" in
  intros r l s evs Hpost; destruct r; wp_red.

(** Step over the block at the head of the goal, proving on the way that
    it reads only and ends in [R]. *)
Ltac wp_block R :=
  lazymatch goal with
  | |- wp ?m _ _ _ =>
      eapply (wp_reads m R);
      [ apply reads_only_wp; clear;
        let l0 := fresh "l" in let s0 := fresh "s" in intros l0 s0
      | let r := fresh "r" in let w := fresh "w" in
        let evs := fresh "evs" in let HR := fresh "HR" in let Hev := fresh "Hev" in
        intros r w evs HR Hev; destruct r; wp_red ]
  end.

Ltac read_events :=
  rewrite ?forallb_app; cbn [forallb is_read_event andb];
  repeat match goal with
    | H : forallb is_read_event _ = true |- _ => rewrite H; clear H
    end;
  cbn [andb]; try reflexivity.

(** ** Blocks that only read *)

Section Blocks.

Context {World : Type} `{C : Collaborators World}.

Lemma get_account_obj_reads {L} kp :
  reads_only (L := L) (get_account_obj kp)
    (fun r => match r with
              | Ok p => p.1 = load_account p.2
              | Raise e => account_failure e = true
              end).
Proof.
  intros l s.
  unfold get_account_obj, try_except, bind, HORIZON_SERVER_account, call_logged.
  cbn [res obj st trace].
  destruct (horizon_account_call (public_key kp) (world s)) as [[a|e] w]; cbn.
  - auto.
  - destruct e; cbn; auto.
Qed.

Lemma choose_base_fee_reads {L} :
  reads_only (L := L) choose_base_fee
    (fun r => match r with
              | Ok _ => True
              | Raise e => is_BaseRequestError e = true
              end).
Proof.
  intros l s. unfold choose_base_fee, HORIZON_SERVER_fetch_base_fee, call_logged.
  destruct (MAX_TRANSACTION_FEE_STROOPS settings) as [fee|].
  - destruct (fee =? 0); cbn; [|auto].
    destruct (horizon_fetch_base_fee (world s)) as [[a|e] w]; cbn; auto.
  - cbn. destruct (horizon_fetch_base_fee (world s)) as [[a|e] w]; cbn; auto.
Qed.

Lemma net_amount_failure t e :
  net_amount t = Raise e -> envelope_failure e = true.
Proof.
  unfold net_amount.
  destruct (amount_in t), (amount_fee t); try (intros [= <-]; reflexivity).
  destruct (PyDecimal.round _ _); intros [= <-]; reflexivity.
Qed.

Lemma create_deposit_envelope_reads source_account :
  reads_only (create_deposit_envelope source_account)
    (fun r => match r with
              | Ok _ => True
              | Raise e => envelope_failure e = true
              end).
Proof.
  apply reads_only_wp. intros l s. unfold create_deposit_envelope.
  wp_prim. wp_prim. wp_prim.
  wp_prim; [|repeat split; eauto using net_amount_failure].
  wp_prim. wp_read (choose_base_fee_reads (L:=Transaction));
    [|repeat split; try read_events; destruct e; try discriminate; reflexivity].
  wp_prim.
  wp_read (get_account_obj_reads (L:=Transaction));
    [|repeat split; try read_events; destruct e; try discriminate; reflexivity].
  wp_go; repeat split; read_events.
Qed.

End Blocks.

Ltac wp_reads_intro :=
  let r := fresh "r" in let w := fresh "w" in
  let evs := fresh "evs" in let HR := fresh "HR" in let Hev := fresh "Hev" in
  intros r w evs HR Hev; destruct r; wp_red.

(** One step, also over the blocks known to read only. *)
Ltac wp_step :=
  first
    [ wp_prim
    | lazymatch goal with
      | |- wp (get_account_obj _) _ _ _ =>
          eapply wp_reads; [ apply get_account_obj_reads | wp_reads_intro ]
      | |- wp choose_base_fee _ _ _ =>
          eapply wp_reads; [ apply choose_base_fee_reads | wp_reads_intro ]
      | |- wp (create_deposit_envelope _) _ _ _ =>
          eapply wp_reads; [ apply create_deposit_envelope_reads | wp_reads_intro ]
      end ].

Ltac wp_run := repeat wp_step.

(** ** [submit]: the status guard *)

Section SubmitGuard.

Context {World : Type} `{C : Collaborators World}.

Lemma existsb_Status_eqb st l :
  existsb (Status_eqb st) l = true <-> In st l.
Proof.
  rewrite existsb_exists. split.
  - intros (x & Hx & E). destruct st, x; try discriminate; exact Hx.
  - intros H. exists st. split; [exact H|]. destruct st; reflexivity.
Qed.

Lemma get_balance_id_loop_failure ops acc e :
  get_balance_id_loop ops acc = Raise e -> e = BinasciiError.
Proof.
  revert acc.
  induction ops as [|op ops IH]; intros acc; cbn [get_balance_id_loop];
    [discriminate|].
  destruct (tr op) as [| |r|]; eauto.
  destruct (Codec.b64decode (ClaimableBalanceID_to_xdr (balanceID r))); eauto.
  intros [= <-]. reflexivity.
Qed.

Lemma get_balance_id_failure response e :
  get_balance_id response = Raise e ->
  e = BinasciiError \/ exists m, e = XdrError m.
Proof.
  unfold get_balance_id.
  destruct (TransactionResult_from_xdr (Response.result_xdr response)).
  - intros H. left. eapply get_balance_id_loop_failure, H.
  - intros [= <-]. right. eauto.
Qed.

Lemma submit_valid_status_no_ValueError t (s : State World) :
  In (status t) valid_statuses ->
  forall msg, res (submit t s) <> Raise (ValueError msg).
Proof.
  intros Hin. apply existsb_Status_eqb in Hin.
  change (wp submit (fun r _ _ _ => forall msg, r <> Raise (ValueError msg)) t s).
  unfold submit. wp_prim. wp_prim. rewrite Hin. cbn [negb].
  do 11 wp_prim.
  wp_block (fun r : result TransactionEnvelope =>
              match r with
              | Ok _ => True
              | Raise e => forall msg, e <> ValueError msg
              end).
  { wp_prim.
    - wp_prim; repeat split; try read_events. discriminate.
    - wp_prim. wp_read (get_account_obj_reads (L:=Transaction));
        [|repeat split; try read_events; intros msg ->; discriminate].
      wp_prim. wp_read create_deposit_envelope_reads;
        [|repeat split; try read_events; intros msg ->; discriminate].
      wp_prim. repeat split; read_events. }
  2: { intros msg H. injection H as H. exact (HR msg H). }
  unfold _handle_error.
  wp_go; intros msg H; try discriminate H; injection H as H; subst;
    try discriminate;
    repeat match goal with
      | H : get_balance_id _ = Raise _ |- _ =>
          apply get_balance_id_failure in H; destruct H as [H|[? H]]; discriminate H
      | H : net_amount _ = Raise _ |- _ =>
          apply net_amount_failure in H; discriminate H
      end.
Qed.

(** C7: [submit] fails with the invalid-state error ([ValueError]) if and
    only if the status of the deposit is none of
    [pending_user_transfer_start], [pending_external], [pending_anchor],
    [pending_trust]; when it does, the deposit object and the state (so the
    rows of the table) are as before and nothing was logged: no status
    transition, no save, no notification. *)
Theorem submit_invalid_state (t : Transaction) (s : State World) :
  ((exists msg, res (submit t s) = Raise (ValueError msg))
   <-> ~ In (status t) valid_statuses)
  /\ (~ In (status t) valid_statuses ->
      obj (submit t s) = t /\ st (submit t s) = s /\ trace (submit t s) = []).
Proof.
  assert (Hbad : ~ In (status t) valid_statuses ->
               exists msg,
                 res (submit t s) = Raise (ValueError msg)
                 /\ obj (submit t s) = t /\ st (submit t s) = s
                 /\ trace (submit t s) = []).
{ intros Hnot.
  destruct (existsb (Status_eqb (status t)) valid_statuses) eqn:E.
  - apply existsb_Status_eqb in E. contradiction.
  - eexists.
    enough (H : wp submit
                  (fun r l' s' evs =>
                     r = Raise (ValueError _) /\ l' = t /\ s' = s /\ evs = [])
                  t s) by exact H.
    unfold submit. wp_prim. wp_prim. rewrite E. cbn [negb]. wp_prim.
    repeat split. }
split; [split|].
- intros [msg Hmsg] Hin.
  exact (submit_valid_status_no_ValueError t s Hin msg Hmsg).
- intros Hnot. destruct (Hbad Hnot) as (msg & H & _). eauto.
- intros Hnot. destruct (Hbad Hnot) as (msg & _ & H). exact H.
Qed.

End SubmitGuard.

Lemma submit_invalid_state_witness :
  let t := Sim.deposit_of Sim.usd_single completed in
  let s := Sim.state_of [t] (Sim.world_of Sim.funded Sim.Accept) in
  obj (submit t s) = t /\ st (submit t s) = s /\ trace (submit t s) = [].
Proof.
  intros t s. apply (proj2 (submit_invalid_state t s)).
  cbn. intuition discriminate.
Defined.

(** ** Logs *)

Lemma saves_app evs1 evs2 : saves (evs1 ++ evs2) = saves evs1 ++ saves evs2.
Proof.
induction evs1 as [|e evs1 IH]; [reflexivity|].
destruct e; cbn [app saves]; rewrite IH; reflexivity.
Qed.

Lemma submissions_app evs1 evs2 :
  submissions (evs1 ++ evs2) = submissions evs1 ++ submissions evs2.
Proof.
induction evs1 as [|e evs1 IH]; [reflexivity|].
destruct e; cbn [app submissions]; rewrite IH; reflexivity.
Qed.

Lemma saves_reads evs : forallb is_read_event evs = true -> saves evs = [].
Proof.
induction evs as [|e evs IH]; [reflexivity|].
destruct e; cbn; try discriminate; exact IH.
Qed.

Lemma submissions_reads evs :
  forallb is_read_event evs = true -> submissions evs = [].
Proof.
induction evs as [|e evs IH]; [reflexivity|].
destruct e; cbn; try discriminate; exact IH.
Qed.

Lemma ledger_calls_reads_no_submit evs :
  forallb is_read_event evs = true ->
  forall e a, ~ In (EvSubmit e a) evs.
Proof.
intros H e a Hin. rewrite forallb_forall in H. apply H in Hin. discriminate.
Qed.

Lemma append_nonempty_r (a b : string) : b <> "" -> a +:+ b <> "".
Proof. destruct a; cbn; [auto | discriminate]. Qed.

(** Normalize the saves and the submissions of an explicit log. *)
Ltac norm_log :=
  repeat first
    [ progress cbn [saves submissions app]
    | rewrite saves_app
    | rewrite submissions_app
    | match goal with
      | H : forallb is_read_event ?evs = true |- _ =>
          first [ rewrite (saves_reads evs H) | rewrite (submissions_reads evs H) ]
      end ].

(** ** [submit]: the ledger refuses *)

Section SubmitFailure.

Context {World : Type} `{C : Collaborators World}.

(** C2, as the code has it: if the ledger submission step of [submit]
    fails with an error that Horizon answered (the call raises a
    [BaseHorizonError], or the answer reports [successful = false]), then
    the status of the deposit becomes [error] with a non-empty status
    message, [submit] returns [False], [amount_out] and [completed_at] are
    as they were before the call, in the object and in every row saved, and
    the row of the deposit is the object. *)
Theorem submit_ledger_failure (t : Transaction) (s : State World)
    (envelope : TransactionEnvelope)
    (answer : outcome BaseRequestError Response.t) :
  In (envelope, answer) (submissions (trace (submit t s))) ->
  submission_failed answer = true ->
  res (submit t s) = Ok false
  /\ status (obj (submit t s)) = error
  /\ (exists m, status_message (obj (submit t s)) = Some m /\ m <> "")
  /\ amount_out (obj (submit t s)) = amount_out t
  /\ completed_at (obj (submit t s)) = completed_at t
  /\ Forall (fun row => amount_out row = amount_out t
                        /\ completed_at row = completed_at t)
       (saves (trace (submit t s)))
  /\ db (st (submit t s)) !! id t = Some (obj (submit t s)).
Proof.
revert envelope answer.
change (wp submit
          (fun r l' s' evs =>
             forall envelope answer,
               In (envelope, answer) (submissions evs) ->
               submission_failed answer = true ->
               r = Ok false /\ status l' = error
               /\ (exists m, status_message l' = Some m /\ m <> "")
               /\ amount_out l' = amount_out t
               /\ completed_at l' = completed_at t
               /\ Forall (fun row => amount_out row = amount_out t
                                     /\ completed_at row = completed_at t)
                    (saves evs)
               /\ db s' !! id t = Some l') t s).
unfold submit. wp_prim. wp_prim. wp_prim; [wp_prim; intros ? ? []|].
do 11 wp_prim.
wp_block (fun _ : result TransactionEnvelope => True).
{ wp_prim.
  - wp_prim; repeat split; read_events.
  - wp_prim. wp_read (get_account_obj_reads (L:=Transaction));
      [|repeat split; read_events].
    wp_prim. wp_read create_deposit_envelope_reads;
      [|repeat split; read_events].
    wp_prim. repeat split; read_events. }
2: { intros envelope answer Hin. revert Hin. norm_log. intros []. }
unfold _handle_error.
wp_go; intros envelope answer Hin Hfail; revert Hin; norm_log;
  (intros [[= <- <-]|[]]); cbn [submission_failed] in Hfail; try congruence.
all: split; [reflexivity|]; split; [reflexivity|].
all: split;
  [eexists; split; [reflexivity|];
   first [ discriminate | apply append_nonempty_r; discriminate ]|].
all: split; [reflexivity|]; split; [reflexivity|].
all: split; [repeat constructor | apply lookup_insert_eq].
Qed.

End SubmitFailure.

Lemma submit_ledger_failure_witness :
  let t := Sim.deposit_of Sim.usd_single pending_user_transfer_start in
  let s := Sim.state_of [t] (Sim.world_of Sim.funded Sim.Reject) in
  res (submit t s) = Ok false
  /\ status (obj (submit t s)) = error
  /\ (exists m, status_message (obj (submit t s)) = Some m /\ m <> "")
  /\ amount_out (obj (submit t s)) = amount_out t
  /\ completed_at (obj (submit t s)) = completed_at t
  /\ Forall (fun row => amount_out row = amount_out t
                        /\ completed_at row = completed_at t)
       (saves (trace (submit t s)))
  /\ db (st (submit t s)) !! id t = Some (obj (submit t s)).
Proof.
intros t s. eapply submit_ledger_failure.
- vm_compute. left. reflexivity.
- reflexivity.
Defined.

(** C2 as the spec states it does not hold: when the submission raises a
    [ConnectionError], which is no [BaseHorizonError], [submit] does not
    catch it; the exception leaves [submit] and the status is not set to
    [error]. *)
Lemma connection_failure_is_not_recorded :
  ~ records_submission_failure sim_deposit sim_unreachable_horizon.
Proof.
intros H.
assert (Hin : exists envelope,
          In (envelope, Raise (ConnectionError "timed out"))
            (submissions (trace (submit sim_deposit sim_unreachable_horizon)))).
{ eexists. vm_compute. left. reflexivity. }
destruct Hin as [envelope Hin].
destruct (H envelope _ Hin eq_refl) as [Hres _].
vm_compute in Hres. discriminate Hres.
Qed.

(** ** The amount of a settled deposit *)

Section Settled.

Context {World : Type} `{C : Collaborators World}.

Lemma settled_net_amount d t out :
  settled d t -> net_amount t = Ok out -> out = d.
Proof. intros [_ H] E. congruence. Qed.

Lemma settled_amount_fee d t : settled d t -> amount_fee t <> None.
Proof.
intros [_ H] E. unfold net_amount in H. rewrite E in H.
destruct (amount_in t); discriminate.
Qed.

End Settled.

Ltac settle :=
  lazymatch goal with
  | |- keeps_settled _ _ _ _ _ =>
      split;
      [ solve [ match goal with H : settled _ _ |- _ => exact H end
              | match goal with H : keeps_settled _ _ _ _ _ |- _ => exact (proj1 H) end ]
      | norm_log;
        repeat first
          [ apply List.Forall_nil
          | apply List.Forall_cons
          | apply Forall_app; split
          | match goal with H : settled _ _ |- _ => exact (proj1 H) end
          | match goal with H : keeps_settled _ _ _ _ _ |- _ => exact (proj2 H) end
          | match goal with H : Forall _ (saves _) |- _ => exact H end ] ]
  end.

Section SettledOps.

Context {World : Type} `{C : Collaborators World}.

Lemma handle_error_settled d message l (s : State World) :
  settled d l -> wp (_handle_error message) (keeps_settled d) l s.
Proof.
intros H. unfold _handle_error. wp_go. settle.
Qed.

Lemma submit_settled d l (s : State World) :
  settled d l ->
  wp submit
    (fun r l' s' evs =>
       keeps_settled d r l' s' evs
       /\ (r = Ok true -> db s' !! id l' = Some l')) l s.
Proof.
intros H. unfold submit. wp_prim. wp_prim.
wp_prim; [wp_prim; split; [settle | discriminate]|].
do 11 wp_prim.
wp_block (fun _ : result TransactionEnvelope => True).
{ wp_prim.
  - wp_prim; repeat split; read_events.
  - wp_prim. wp_read (get_account_obj_reads (L:=Transaction));
      [|repeat split; read_events].
    wp_prim. wp_read create_deposit_envelope_reads;
      [|repeat split; read_events].
    wp_prim. repeat split; read_events. }
2: { split; [settle | discriminate]. }
unfold _handle_error.
wp_go;
  repeat match goal with
    | E : net_amount _ = Ok ?out |- _ =>
        assert (out = d) as -> by (eapply settled_net_amount; [exact H | exact E]);
        clear E
    end;
  (split; [| first [ discriminate | intros _; apply lookup_insert_eq ]]).
all: try settle.
all: split; [ split; [reflexivity | exact (proj2 H)]
            | norm_log; repeat apply List.Forall_cons; try apply List.Forall_nil;
              first [ exact (proj1 H) | reflexivity ] ].
Qed.

Lemma get_channel_keypair_settled d l (s : State World) :
  settled d l -> wp get_channel_keypair (keeps_settled d) l s.
Proof.
intros H. unfold get_channel_keypair, create_channel_account.
wp_go; settle.
Qed.

Lemma save_as_pending_signatures_settled d l (s : State World) :
  settled d l -> wp save_as_pending_signatures (keeps_settled d) l s.
Proof.
intros H. unfold save_as_pending_signatures.
wp_prim. wp_use get_channel_keypair_settled; [|settle].
destruct Hpost as [Hl Hevs].
wp_prim. wp_prim. wp_prim.
wp_read (get_account_obj_reads (L:=Transaction)).
- wp_go. wp_read create_deposit_envelope_reads; wp_go; settle.
- wp_go; settle.
Qed.

Lemma after_deposit_settled d log_msg l (s : State World) :
  settled d l ->
  wp (after_deposit log_msg) (keeps_settled d) l s.
Proof.
intros H. unfold after_deposit. wp_go; settle.
Qed.

Lemma get_or_create_destination_account_settled d l (s : State World) :
  settled d l -> wp get_or_create_destination_account (keeps_settled d) l s.
Proof.
intros H. unfold get_or_create_destination_account.
wp_prim. wp_prim. wp_prim. wp_prim.
wp_step; [wp_run; settle|].
destruct e; cbn [is_BaseHorizonError]; wp_red; try settle;
  [|destruct e; wp_red; wp_run; settle].
wp_prim. wp_prim. wp_prim.
assert (Hkp : wp (if requires_multisig l
                  then get_channel_keypair
                  else ret (Keypair_from_secret (distribution_seed (asset l))))
                (keeps_settled d) l
                {| db := db s; world := w; TERMINATE := TERMINATE s |}).
{ destruct (requires_multisig l).
  - apply get_channel_keypair_settled, H.
  - wp_prim. settle. }
wp_use Hkp; [|settle]. clear Hkp. destruct Hpost as [Hl Hevs].
wp_run; settle.
Qed.

(** After a successful [submit] the row is the object: [refresh_from_db]
    changes nothing. *)
Ltac wp_refresh Hdb :=
  apply wp_refresh_from_db; rewrite Hdb; wp_red.

Lemma submit_then_after_deposit_settled d log_msg l (s : State World) :
  settled d l ->
  wp (ok <- submit ;;
      if ok then refresh_from_db ;; after_deposit log_msg else ret tt)
    (keeps_settled d) l s.
Proof.
intros H. wp_prim. wp_use submit_settled; [|exact (proj1 Hpost)].
destruct Hpost as [[Hl Hevs] Hdb].
destruct a; [|wp_prim; settle].
specialize (Hdb eq_refl).
wp_prim. wp_refresh Hdb.
wp_use after_deposit_settled; destruct Hpost; settle.
Qed.

Lemma execute_deposit_settled d l (s : State World) :
  settled d l -> wp execute_deposit (keeps_settled d) l s.
Proof.
intros H. unfold execute_deposit.
wp_prim. wp_prim. wp_prim.
wp_use get_or_create_destination_account_settled.
- destruct Hpost as [Hl Hevs]. do 4 wp_prim.
  + wp_go; settle.
  + wp_prim.
    * wp_use save_as_pending_signatures_settled; destruct Hpost; settle.
    * wp_use submit_then_after_deposit_settled; destruct Hpost; settle.
- destruct Hpost as [Hl Hevs].
  destruct (caught_as_RuntimeError e); wp_red; [wp_go|]; settle.
Qed.

Lemma submit_cosigned_settled d l (s : State World) :
  settled d l -> wp submit_cosigned (keeps_settled d) l s.
Proof.
intros H. unfold submit_cosigned. apply submit_then_after_deposit_settled, H.
Qed.

Lemma check_balances_settled d account bs l (s : State World) :
  settled d l -> wp (check_balances account bs) (keeps_settled d) l s.
Proof.
revert l s. induction bs as [|balance bs IH]; intros l s H; cbn [check_balances].
- wp_prim. settle.
- wp_prim; [apply IH, H|].
  wp_prim. wp_prim. wp_prim; [|wp_prim; settle].
  wp_prim; [apply IH, H|].
  wp_prim; [|wp_prim; settle].
  wp_prim; [apply IH, H|].
  wp_prim. wp_prim. wp_prim.
  + wp_prim. wp_use save_as_pending_signatures_settled; [|destruct Hpost; settle].
    destruct Hpost as [Hl Hevs]. wp_use IH; destruct Hpost; settle.
  + wp_prim. wp_use submit_settled; [|destruct Hpost as [[? ?] _]; settle].
    destruct Hpost as [[Hl Hevs] Hdb]. wp_prim.
    destruct a.
    * specialize (Hdb eq_refl). wp_prim. wp_refresh Hdb.
      wp_use after_deposit_settled; [|destruct Hpost; settle].
      destruct Hpost. wp_use IH; destruct Hpost; settle.
    * wp_prim. wp_use IH; destruct Hpost; settle.
Qed.

Lemma check_ready_transaction_settled d l (s : State World) :
  settled d l -> wp check_ready_transaction (keeps_settled d) l s.
Proof.
intros H. unfold check_ready_transaction.
wp_prim. wp_prim. wp_prim; [wp_prim; settle|].
wp_prim; [|wp_prim; settle].
wp_prim; [wp_prim; settle|].
exfalso. eapply settled_amount_fee; eassumption.
Qed.

Lemma net_amount_Ok t d :
  net_amount t = Ok d <->
  exists a f,
    amount_in t = Some a /\ amount_fee t = Some f
    /\ PyDecimal.round (PyDecimal.sub a f) (significant_decimals (asset t))
       = PyDecimal.Quantized d.
Proof.
unfold net_amount. split.
- destruct (amount_in t) as [a|]; [|discriminate].
  destruct (amount_fee t) as [f|]; [|discriminate].
  destruct (PyDecimal.round _ _) eqn:E; [|discriminate].
  intros [= ->]. eauto.
- intros (a & f & -> & -> & ->). reflexivity.
Qed.

Lemma net_amount_ext t t' :
  amount_in t = amount_in t' -> amount_fee t = amount_fee t' ->
  asset t = asset t' -> net_amount t = net_amount t'.
Proof. unfold net_amount. intros -> -> ->. reflexivity. Qed.

Lemma submit_completes t (s : State World) :
  res (submit t s) = Ok true ->
  status (obj (submit t s)) = completed
  /\ (exists d, settled d (obj (submit t s)))
  /\ amount_in (obj (submit t s)) = amount_in t
  /\ amount_fee (obj (submit t s)) = amount_fee t
  /\ asset (obj (submit t s)) = asset t
  /\ db (st (submit t s)) !! id t = Some (obj (submit t s)).
Proof.
change (wp submit
          (fun r l' s' evs =>
             r = Ok true ->
             status l' = completed /\ (exists d, settled d l')
             /\ amount_in l' = amount_in t /\ amount_fee l' = amount_fee t
             /\ asset l' = asset t /\ db s' !! id t = Some l') t s).
unfold submit. wp_prim. wp_prim. wp_prim; [wp_prim; discriminate|].
do 11 wp_prim.
wp_block (fun _ : result TransactionEnvelope => True).
{ wp_prim.
  - wp_prim; repeat split; read_events.
  - wp_prim. wp_read (get_account_obj_reads (L:=Transaction));
      [|repeat split; read_events].
    wp_prim. wp_read create_deposit_envelope_reads;
      [|repeat split; read_events].
    wp_prim. repeat split; read_events. }
2: discriminate.
unfold _handle_error.
wp_go; try discriminate; intros _;
  (split; [reflexivity|]);
  (split;
   [eexists; split; [reflexivity|];
    match goal with
    | E : net_amount _ = Ok _ |- _ =>
        rewrite <- E; apply net_amount_ext; tx_simpl; reflexivity
    end|]);
  repeat (split; [reflexivity|]); apply lookup_insert_eq.
Qed.

(** C1: a deposit that [submit] completes has status [completed] and an
    [amount_out] equal to [round(amount_in - amount_fee,
    asset.significant_decimals)], computed from the amounts the deposit came
    with, and that object is the row of the deposit; and from a deposit
    whose [amount_out] is that net amount, no operation of this module
    changes [amount_out], neither in the object nor in any row it saves. *)
Theorem amount_out_fixed_at_completion :
  (forall (t : Transaction) (s : State World),
     res (submit t s) = Ok true ->
     status (obj (submit t s)) = completed
     /\ (exists a f d,
           amount_in t = Some a /\ amount_fee t = Some f
           /\ PyDecimal.round (PyDecimal.sub a f) (significant_decimals (asset t))
              = PyDecimal.Quantized d
           /\ amount_out (obj (submit t s)) = Some d
           /\ settled d (obj (submit t s)))
     /\ db (st (submit t s)) !! id t = Some (obj (submit t s)))
  /\ (forall (op : CoreOperation) (t : Transaction) (s : State World) d,
        settled d t ->
        settled d (obj (run_operation op t s))
        /\ Forall (fun row => amount_out row = Some d)
             (saves (trace (run_operation op t s)))).
Proof.
split.
- intros t s Hok.
  destruct (submit_completes t s Hok) as (Hst & [d Hd] & Hin & Hfee & Hasset & Hdb).
  split; [exact Hst|]. split; [|exact Hdb].
  destruct (proj1 (net_amount_Ok _ _) (proj2 Hd)) as (a & f & Ha & Hf & Hr).
  exists a, f, d. rewrite <- Hin, <- Hfee, <- Hasset.
  repeat split; try assumption; apply Hd.
- intros op t s d H.
  enough (Hwp : wp (run_operation op) (keeps_settled d) t s) by exact Hwp.
  destruct op; cbn [run_operation].
  + apply check_ready_transaction_settled, H.
  + wp_prim. wp_use get_or_create_destination_account_settled;
      [wp_prim|]; destruct Hpost; settle.
  + apply execute_deposit_settled, H.
  + apply submit_cosigned_settled, H.
  + apply check_balances_settled, H.
  + wp_prim. wp_use submit_settled; [wp_prim|]; destruct Hpost as [[? ?] _]; settle.
  + apply save_as_pending_signatures_settled, H.
  + apply handle_error_settled, H.
Qed.

End SettledOps.

Lemma amount_out_fixed_at_completion_witness :
  let t := Sim.deposit_of Sim.usd_single pending_user_transfer_start in
  let s := Sim.state_of [t] (Sim.world_of Sim.funded Sim.Accept) in
  let t' := obj (submit t s) in
  (status t' = completed
   /\ (exists a f d,
         amount_in t = Some a /\ amount_fee t = Some f
         /\ PyDecimal.round (PyDecimal.sub a f) (significant_decimals (asset t))
            = PyDecimal.Quantized d
         /\ amount_out t' = Some d
         /\ settled d t')
   /\ db (st (submit t s)) !! id t = Some t')
  /\ amount_out t' = Some (PyDecimal.mk 9900 (-2))
  /\ amount_out (obj (run_operation op_execute_deposit t' (st (submit t s))))
     = Some (PyDecimal.mk 9900 (-2)).
Proof.
intros t s t'.
pose proof (@amount_out_fixed_at_completion Sim.World Sim.collaborators) as [H1 H2].
split; [apply H1; vm_compute; reflexivity|].
split; [vm_compute; reflexivity|].
apply (H2 op_execute_deposit t' (st (submit t s)) (PyDecimal.mk 9900 (-2))).
split; vm_compute; reflexivity.
Defined.

(** ** The transaction builder *)

Section Builder.

Context {World : Type} `{C : Collaborators World}.

(** C3: the envelope built for a deposit has exactly one operation.  With
    [json] the snapshot of the destination fetched while building, it is a
    create-claimable-balance operation, naming the destination as sole
    claimant and sourced from the asset's distribution account, if and only
    if the deposit supports claimable balances and the destination does not
    yet accept the asset; otherwise it is a payment to the destination; in
    both cases its amount is [round(amount_in - amount_fee,
    significant_decimals)], printed. *)
Theorem create_deposit_envelope_operation (source_account : Account)
    (t : Transaction) (s : State World) (envelope : TransactionEnvelope) :
  res (create_deposit_envelope source_account t s) = Ok envelope ->
  exists d json,
    net_amount t = Ok d
    /\ In (EvFetchAccount (stellar_account t) (Ok json))
         (trace (create_deposit_envelope source_account t s))
    /\ tx_operations envelope = [deposit_operation t d json]
    /\ (existsb is_create_claimable_balance (tx_operations envelope) = true
        <-> claimable_balance_supported t = true
            /\ is_pending_trust t json = true)
    /\ (claimable_balance_supported t && is_pending_trust t json = true ->
        tx_operations envelope =
        [CreateClaimableBalance [{| destination := stellar_account t |}]
           {| sdk_code := code (asset t); sdk_issuer := issuer (asset t) |}
           (PyDecimal.str d) (Some (distribution_account (asset t)))])
    /\ (claimable_balance_supported t && is_pending_trust t json = false ->
        tx_operations envelope =
        [Payment (stellar_account t) (code (asset t)) (issuer (asset t))
           (PyDecimal.str d) (Some (distribution_account (asset t)))])
    /\ tx_source envelope = account_id source_account.
Proof.
revert envelope.
change (wp (create_deposit_envelope source_account)
          (fun r _ _ evs =>
             forall envelope, r = Ok envelope ->
             exists d json,
               net_amount t = Ok d
               /\ In (EvFetchAccount (stellar_account t) (Ok json)) evs
               /\ tx_operations envelope = [deposit_operation t d json]
               /\ (existsb is_create_claimable_balance (tx_operations envelope) = true
                   <-> claimable_balance_supported t = true
                       /\ is_pending_trust t json = true)
               /\ (claimable_balance_supported t && is_pending_trust t json = true ->
                   tx_operations envelope =
                   [CreateClaimableBalance [{| destination := stellar_account t |}]
                      {| sdk_code := code (asset t); sdk_issuer := issuer (asset t) |}
                      (PyDecimal.str d) (Some (distribution_account (asset t)))])
               /\ (claimable_balance_supported t && is_pending_trust t json = false ->
                   tx_operations envelope =
                   [Payment (stellar_account t) (code (asset t)) (issuer (asset t))
                      (PyDecimal.str d) (Some (distribution_account (asset t)))])
               /\ tx_source envelope = account_id source_account) t s).
unfold create_deposit_envelope.
wp_prim. wp_prim. wp_prim. wp_prim; [|discriminate].
wp_prim. wp_step; [|discriminate].
wp_prim. unfold get_account_obj. wp_go; try discriminate.
all: intros envelope Henv; injection Henv as <-.
all: match goal with
     | |- context [EvFetchAccount _ (Ok ?j)] => exists a, j
     end.
all: (split; [reflexivity|]).
all: (split; [apply in_or_app; right; left; reflexivity|]).
all: unfold deposit_operation;
  match goal with
  | E : (claimable_balance_supported _ && _)%bool = _ |- _ =>
      rewrite !E; (apply andb_true_iff in E || apply andb_false_iff in E);
      destruct (truthy (memo t)); cbn -[PyDecimal.str];
      repeat split; try reflexivity; try discriminate; try tauto;
      intros [? ?]; destruct E; congruence
  end.
Qed.

End Builder.

Lemma create_deposit_envelope_operation_witness :
  let t := Sim.deposit_of Sim.usd_single pending_anchor in
  let s := Sim.state_of [t] (Sim.world_of Sim.funded Sim.Accept) in
  let source := {| account_id := "GDIST"; sequence := 7 |} in
  exists envelope d json,
    res (create_deposit_envelope source t s) = Ok envelope
    /\ net_amount t = Ok d
    /\ PyDecimal.str d = "99.00"
    /\ tx_operations envelope = [deposit_operation t d json]
    /\ tx_operations envelope
       = [Payment "GDEST" "USD" "GISSUER" "99.00" (Some "GDIST")].
Proof.
intros t s source.
destruct (res (create_deposit_envelope source t s)) as [envelope|e] eqn:E;
  [|vm_compute in E; discriminate].
destruct (create_deposit_envelope_operation source t s envelope E)
  as (d & json & Hd & _ & Hop & _).
exists envelope, d, json.
vm_compute in E. injection E as <-.
vm_compute in Hd. injection Hd as <-.
do 3 (split; [reflexivity|]). split; [exact Hop | reflexivity].
Defined.

(** ** Base64 and hex *)

Lemma byte_of_N_to_N (b : byte) : Codec.byte_of_N (Byte.to_N b) = b.
Proof.
unfold Codec.byte_of_N.
rewrite N.mod_small by (pose proof (Byte.to_N_bounded b); lia).
rewrite Byte.of_to_N. reflexivity.
Qed.

Lemma in_all_bytes (b : byte) : In b Codec.all_bytes.
Proof.
unfold Codec.all_bytes. rewrite <- (byte_of_N_to_N b).
apply in_map. rewrite <- (N2Nat.id (Byte.to_N b)). apply in_map.
apply in_seq. pose proof (Byte.to_N_bounded b). lia.
Qed.

Lemma for_all_bytes (P : byte -> bool) :
  forallb P Codec.all_bytes = true -> forall b, P b = true.
Proof. intros H b. rewrite forallb_forall in H. apply H, in_all_bytes. Qed.

Lemma b64_pairs_ok (a b : byte) : b64_pair_ok a b = true.
Proof.
revert b. apply for_all_bytes. revert a. apply for_all_bytes.
vm_compute. reflexivity.
Qed.

Lemma b64_chars_ok (n : N) : (n < 64)%N -> b64_char_ok n = true.
Proof.
intros H.
assert (Hall : forallb b64_char_ok (map N.of_nat (seq 0 64)) = true)
  by (vm_compute; reflexivity).
rewrite forallb_forall in Hall. apply Hall.
rewrite <- (N2Nat.id n). apply in_map, in_seq. lia.
Qed.

Lemma hex_bytes_ok (b : byte) : hex_byte_ok b = true.
Proof. revert b. apply for_all_bytes. vm_compute. reflexivity. Qed.

Lemma b64_pair_facts (a b : byte) :
  let x := Byte.to_N a in
  let y := Byte.to_N b in
  (Codec.sextet1 x < 64)%N
  /\ (Codec.sextet2 x y < 64)%N
  /\ (Codec.sextet3 x y < 64)%N
  /\ (Codec.sextet4 x < 64)%N
  /\ Codec.byte_of_N (N.lor (N.shiftl (Codec.sextet1 x) 2)
                        (N.shiftr (Codec.sextet2 x y) 4)) = a
  /\ N.land (Codec.sextet2 x y) 15 = N.shiftr y 4
  /\ Codec.byte_of_N (N.lor (N.shiftl (N.shiftr x 4) 4)
                        (N.shiftr (Codec.sextet3 x y) 2)) = a
  /\ N.land (Codec.sextet3 x y) 3 = N.shiftr y 6
  /\ Codec.byte_of_N (N.lor (N.shiftl (N.shiftr x 6) 6) (Codec.sextet4 x)) = a.
Proof.
intros x y. pose proof (b64_pairs_ok a b) as H. unfold b64_pair_ok in H.
fold x y in H.
repeat (apply andb_prop in H; destruct H as [H ?]).
repeat match goal with
  | H : (_ <? _)%N = true |- _ => apply N.ltb_lt in H
  | H : (_ =? _)%N = true |- _ => apply N.eqb_eq in H
  | H : Byte.eqb _ _ = true |- _ => apply Byte.byte_dec_bl in H
  end.
repeat split; assumption.
Qed.

(** One character of the alphabet, read by [a2b_base64]. *)
Lemma a2b_base64_char (n : N) rest quad_pos leftchar pads :
  (n < 64)%N ->
  Codec.a2b_base64 (String (Codec.b2a n) rest) quad_pos leftchar pads =
  match quad_pos with
  | O => Codec.a2b_base64 rest 1 n 0
  | 1%nat =>
      cons (Codec.byte_of_N (N.lor (N.shiftl leftchar 2) (N.shiftr n 4)))
        <$> Codec.a2b_base64 rest 2 (N.land n 15) 0
  | 2%nat =>
      cons (Codec.byte_of_N (N.lor (N.shiftl leftchar 4) (N.shiftr n 2)))
        <$> Codec.a2b_base64 rest 3 (N.land n 3) 0
  | _ =>
      cons (Codec.byte_of_N (N.lor (N.shiftl leftchar 6) n))
        <$> Codec.a2b_base64 rest 0 0%N 0
  end.
Proof.
intros Hn. pose proof (b64_chars_ok n Hn) as H. unfold b64_char_ok in H.
apply andb_prop in H. destruct H as [Hpad Hval].
apply negb_true_iff in Hpad.
destruct (Codec.table_a2b_base64 (Codec.b2a n)) as [m|] eqn:E; [|discriminate].
apply N.eqb_eq in Hval. subst m.
cbn [Codec.a2b_base64]. rewrite Hpad, E. reflexivity.
Qed.

Lemma list_ind3 {A} (P : list A -> Prop) :
  P [] -> (forall a, P [a]) -> (forall a b, P [a; b]) ->
  (forall a b c rest, P rest -> P (a :: b :: c :: rest)) ->
  forall l, P l.
Proof.
intros H0 H1 H2 H3.
assert (H : forall l, P l /\ (forall a, P (a :: l)) /\ (forall a b, P (a :: b :: l))).
{ induction l as [|x l (IH0 & IH1 & IH2)]; repeat split; auto. }
intros l. apply H.
Qed.

(** Round trip of base64. *)
Lemma b64decode_b64encode (bs : list byte) :
  Codec.b64decode (Codec.b64encode bs) = Some bs.
Proof.
unfold Codec.b64decode.
induction bs as [|a|a b|a b c rest IH] using list_ind3.
- reflexivity.
- destruct (b64_pair_facts a Byte.x00) as (H1 & H2 & _ & _ & B1 & _).
  cbn [Codec.b64encode].
  change (Byte.to_N Byte.x00) with 0%N in *.
  rewrite a2b_base64_char by exact H1.
  rewrite a2b_base64_char by exact H2.
  cbn [Codec.a2b_base64]. cbn. rewrite B1. reflexivity.
- destruct (b64_pair_facts a b) as (H1 & H2 & _ & _ & B1 & F1 & _).
  destruct (b64_pair_facts b Byte.x00) as (_ & _ & H3 & _ & _ & _ & B2 & _).
  cbn [Codec.b64encode].
  change (Byte.to_N Byte.x00) with 0%N in *.
  rewrite a2b_base64_char by exact H1.
  rewrite a2b_base64_char by exact H2.
  rewrite a2b_base64_char by exact H3.
  rewrite F1, B1, B2. reflexivity.
- destruct (b64_pair_facts a b) as (H1 & H2 & _ & _ & B1 & F1 & _).
  destruct (b64_pair_facts b c) as (_ & _ & H3 & _ & _ & _ & B2 & F2 & _).
  destruct (b64_pair_facts c c) as (_ & _ & _ & H4 & _ & _ & _ & _ & B3).
  cbn [Codec.b64encode].
  rewrite a2b_base64_char by exact H1.
  rewrite a2b_base64_char by exact H2.
  rewrite a2b_base64_char by exact H3.
  rewrite a2b_base64_char by exact H4.
  rewrite F1, B1, F2, B2, B3, IH. reflexivity.
Qed.

(** Round trip of hex. *)
Lemma fromhex_hex (bs : list byte) : Codec.fromhex (Codec.hex bs) = Some bs.
Proof.
induction bs as [|b bs IH]; [reflexivity|].
pose proof (hex_bytes_ok b) as H. unfold hex_byte_ok in H.
cbn [Codec.hex Codec.fromhex].
destruct (Codec.hex_value (Codec.hex_digit (N.shiftr (Byte.to_N b) 4))) as [hi|];
  [|discriminate].
destruct (Codec.hex_value (Codec.hex_digit (N.land (Byte.to_N b) 15))) as [lo|];
  [|discriminate].
apply Byte.byte_dec_bl in H. rewrite IH, H. reflexivity.
Qed.

Lemma hex_nonempty (b : byte) (bs : list byte) : Codec.hex (b :: bs) <> "".
Proof. cbn [Codec.hex]. discriminate. Qed.

(** ** [get_balance_id] *)

Section BalanceId.

Context {World : Type} `{C : Collaborators World}.

Lemma get_balance_id_loop_spec ops (acc : option ClaimableBalanceID) :
  get_balance_id_loop ops (balance_id_hex <$> acc)
  = Ok (balance_id_hex <$> last_balance_id ops acc).
Proof.
revert acc.
induction ops as [|r ops IH]; intros acc;
  cbn [get_balance_id_loop last_balance_id]; [reflexivity|].
destruct (tr r) as [| |c|]; try apply IH.
unfold ClaimableBalanceID_to_xdr. rewrite b64decode_b64encode.
apply (IH (Some (balanceID c))).
Qed.

Lemma last_balance_id_Some ops acc :
  is_Some (last_balance_id ops acc)
  <-> existsb is_balance_creation ops = true \/ is_Some acc.
Proof.
revert acc. induction ops as [|r ops IH]; intros acc;
  cbn [last_balance_id existsb].
- split; [auto | intros [H|H]; [discriminate | exact H]].
- unfold is_balance_creation at 1.
  destruct (tr r); rewrite IH; cbn [orb]; try tauto.
  split; [auto | intros _; right; eauto].
Qed.

Lemma balance_id_hex_nonempty b : balance_id_hex b <> "".
Proof. apply hex_nonempty. Qed.

Lemma balance_id_of_hex_hex b : balance_id_of_hex (balance_id_hex b) = Some b.
Proof.
unfold balance_id_of_hex, balance_id_hex. rewrite fromhex_hex.
destruct b as [hash]. reflexivity.
Qed.

(** C9: for a submission response whose result blob decodes,
    [get_balance_id] returns a non-empty hex string if and only if the
    decoded result contains a create-claimable-balance operation result,
    and [None] otherwise; the string is the hex form of the balance id of
    the last such result, and reading it back gives that identifier. *)
Theorem get_balance_id_spec (response : Response.t)
    (transaction_result : TransactionResult) :
  TransactionResult_from_xdr (Response.result_xdr response)
  = Some transaction_result ->
  ((exists h, get_balance_id response = Ok (Some h) /\ h <> "")
   <-> existsb is_balance_creation (results transaction_result) = true)
  /\ (existsb is_balance_creation (results transaction_result) = false ->
      get_balance_id response = Ok None)
  /\ (forall b,
        last_balance_id (results transaction_result) None = Some b ->
        get_balance_id response = Ok (Some (balance_id_hex b))
        /\ balance_id_of_hex (balance_id_hex b) = Some b).
Proof.
intros Hdec.
assert (Hget : get_balance_id response
               = Ok (balance_id_hex
                       <$> last_balance_id (results transaction_result) None)).
{ unfold get_balance_id. rewrite Hdec.
  apply (get_balance_id_loop_spec _ None). }
pose proof (last_balance_id_Some (results transaction_result) None) as Hsome.
split; [split|split].
- intros (h & Hh & _). rewrite Hget in Hh.
  destruct (last_balance_id (results transaction_result) None) as [b|];
    [|discriminate].
  destruct (proj1 Hsome) as [H|[? H]]; eauto; discriminate.
- intros Hex. destruct (proj2 Hsome (or_introl Hex)) as [b Hb].
  exists (balance_id_hex b). rewrite Hget, Hb.
  split; [reflexivity | apply balance_id_hex_nonempty].
- intros Hnone. rewrite Hget.
  destruct (last_balance_id (results transaction_result) None) as [b|];
    [|reflexivity].
  destruct (proj1 Hsome) as [H|[? H]]; eauto; congruence.
- intros b Hb. rewrite Hget, Hb.
  split; [reflexivity | apply balance_id_of_hex_hex].
Qed.

End BalanceId.

Lemma get_balance_id_spec_witness :
  let response :=
    {| Response.successful := true; Response.result_xdr := "claimable";
       Response.envelope_xdr := ""; Response.paging_token := "4242";
       Response.id := "a1b2c3" |} in
  get_balance_id response = Ok (Some "0000000070d89659")
  /\ balance_id_of_hex "0000000070d89659" = Some Sim.a_balance_id.
Proof.
intros response.
destruct (@get_balance_id_spec Sim.World Sim.collaborators response
            {| feeCharged := 100;
               results := [{| tr := createClaimableBalanceResult
                                      {| balanceID := Sim.a_balance_id |} |}] |}
            eq_refl) as (_ & _ & H).
exact (H Sim.a_balance_id eq_refl).
Defined.

(** ** The trustline poller *)

Section Trustlines.

Context {World : Type} `{C : Collaborators World}.

(** C10: in a pass of the trustline poller, when fetching the account of a
    deposit fails with a [BaseRequestError] (a network failure), the pass
    logs the failure and goes on with the deposits that follow, from the
    same rows and with the same cache of accounts: the deposit is skipped,
    nothing is saved for it, its status is not set to [error]. *)
Theorem check_trustlines_fetch_failure (t : Transaction)
    (rest : list Transaction) (accounts : gmap string AccountResponse)
    (s : State World) (e : BaseRequestError) (w : World) :
  TERMINATE s = false ->
  accounts !! stellar_account t = None ->
  horizon_account_call (stellar_account t) (world s) = (Raise e, w) ->
  let s' := {| db := db s; world := w; TERMINATE := TERMINATE s |} in
  let later := check_trustlines_loop rest accounts tt s' in
  let pass := check_trustlines_loop (t :: rest) accounts tt s in
  res pass = res later
  /\ st pass = st later
  /\ trace pass
     = EvFetchAccount (stellar_account t) (Raise e)
       :: EvLog EXCEPTION ("Failed to load account " +:+ stellar_account t)
       :: trace later
  /\ db s' = db s
  /\ saves (firstn 2 (trace pass)) = [].
Proof.
intros HT Hacc Hcall s' later pass.
enough (Hpass :
  wp (check_trustlines_loop (t :: rest) accounts)
    (fun r _ s1 evs =>
       r = res later /\ s1 = st later
       /\ evs = EvFetchAccount (stellar_account t) (Raise e)
                :: EvLog EXCEPTION ("Failed to load account " +:+ stellar_account t)
                :: trace later) tt s).
{ destruct Hpass as (Hres & Hst & Htrace). fold pass in Hres, Hst, Htrace.
  rewrite Htrace. auto. }
cbn [check_trustlines_loop].
wp_prim. wp_prim. rewrite HT, Hacc.
wp_prim. wp_prim. wp_prim. unfold HORIZON_SERVER_account.
eapply wp_call_answer; [exact Hcall|]. wp_red.
cbn [is_BaseRequestError]. wp_prim. wp_prim. wp_prim.
unfold wp. fold s'. fold later. auto.
Qed.

End Trustlines.

Lemma check_trustlines_fetch_failure_witness :
  let t := Sim.deposit_to "tx-1" "GDEST" Sim.usd_single pending_trust in
  let t2 := Sim.deposit_to "tx-2" "GDEST2" Sim.usd_single pending_trust in
  let w :=
    {| Sim.ledger := Sim.funded
                     ++ [Sim.account_of "GDEST2" [Sim.line "USD" "GISSUER"]];
       Sim.unreachable := ["GDEST"]; Sim.submit_mode := Sim.Accept;
       Sim.adapter := Ok (PyList []); Sim.clock := 1000 |} in
  let s := Sim.state_of [t; t2] w in
  let s' := {| db := db s; world := w; TERMINATE := TERMINATE s |} in
  let later := check_trustlines_loop [t2] ∅ tt s' in
  let pass := check_trustlines_loop [t; t2] ∅ tt s in
  (res pass = res later
   /\ st pass = st later
   /\ trace pass
      = EvFetchAccount (stellar_account t)
          (Raise (ConnectionError "connection refused"))
        :: EvLog EXCEPTION ("Failed to load account " +:+ stellar_account t)
        :: trace later
   /\ db s' = db s
   /\ saves (firstn 2 (trace pass)) = [])
  /\ db (st pass) !! "tx-1" = Some t
  /\ status <$> db (st pass) !! "tx-2" = Some completed.
Proof.
intros t t2 w s s' later pass. split.
- exact (check_trustlines_fetch_failure t [t2] ∅ s
           (ConnectionError "connection refused") w eq_refl eq_refl eq_refl).
- split; vm_compute; reflexivity.
Defined.

(** ** The account resolver *)

Section Resolver.

Context {World : Type} `{C : Collaborators World}.

(** C6: when the destination account of a deposit does not exist, whatever
    the resolver submits is a transaction with the single operation
    create-account, funding the destination with
    [ACCOUNT_STARTING_BALANCE], whose source is the snapshot fetched for the
    funding key and whose only signature is by that key: the channel
    account's if the asset requires multisig, the distribution account's
    otherwise; and when the resolver returns, the creation was accepted, the
    account it returns is the snapshot fetched afresh after it, and the
    awaiting-asset-acceptance boolean is [True]. *)
Theorem resolver_creates_missing_account (t : Transaction) (s : State World)
    (m : string) (w1 : World) :
  horizon_account_call (stellar_account t) (world s)
  = (Raise (NotFoundError m), w1) ->
  let r := get_or_create_destination_account t s in
  (forall envelope answer,
     In (envelope, answer) (submissions (trace r)) ->
     exists kp source_json,
       funding_keypair t (obj r) = Some kp
       /\ In (EvFetchAccount (public_key kp) (Ok source_json)) (trace r)
       /\ tx_source envelope = account_resource_id source_json
       /\ tx_operations envelope
          = [CreateAccount (stellar_account t)
               (ACCOUNT_STARTING_BALANCE settings) None]
       /\ signatures envelope = [kp])
  /\ (forall account pending,
        res r = Ok (account, pending) ->
        pending = true
        /\ exists envelope response json pre,
             trace r = pre ++ [EvSubmit envelope (Ok response);
                               EvFetchAccount (stellar_account t) (Ok json)]
             /\ account = load_account json
             /\ submissions (trace r) = [(envelope, Ok response)]).
Proof.
intros Hcall r.
enough (Hwp :
  wp get_or_create_destination_account
    (fun r l' _ evs =>
       (forall envelope answer,
          In (envelope, answer) (submissions evs) ->
          exists kp source_json,
            funding_keypair t l' = Some kp
            /\ In (EvFetchAccount (public_key kp) (Ok source_json)) evs
            /\ tx_source envelope = account_resource_id source_json
            /\ tx_operations envelope
               = [CreateAccount (stellar_account t)
                    (ACCOUNT_STARTING_BALANCE settings) None]
            /\ signatures envelope = [kp])
       /\ (forall account pending,
             r = Ok (account, pending) ->
             pending = true
             /\ exists envelope response json pre,
                  evs = pre ++ [EvSubmit envelope (Ok response);
                                EvFetchAccount (stellar_account t) (Ok json)]
                  /\ account = load_account json
                  /\ submissions evs = [(envelope, Ok response)])) t s)
  by exact Hwp.
unfold get_or_create_destination_account.
wp_prim. wp_prim. wp_prim. wp_prim. unfold get_account_obj at 1.
wp_prim. wp_prim. unfold HORIZON_SERVER_account.
eapply wp_call_answer; [exact Hcall|]. wp_red.
wp_prim. wp_prim. wp_prim. wp_prim.
unfold get_channel_keypair, create_channel_account, get_account_obj.
all: wp_run.
all: repeat match goal with
       | E : channel_seed (set_channel_account _ _) = _ |- _ =>
           tx_simpl_in E; first [ discriminate E | injection E as E; subst ]
       end.
all: split; [| intros account pending Hres; try discriminate Hres].
all: try solve [intros envelope answer; norm_log; intros []].
all: try (intros envelope answer; norm_log; intros [[= <- <-]|[]];
          eexists _, _;
          split;
          [ unfold funding_keypair;
            match goal with
            | E : requires_multisig _ = _ |- _ => rewrite E
            end;
            first [ reflexivity
                  | match goal with
                    | E : channel_seed _ = Some _ |- _ => rewrite E; reflexivity
                    end ]
          | split; [cbn [In]; eauto 8 | repeat split; reflexivity] ]).
all: injection Hres as <- <-; split; [reflexivity|];
  rewrite !app_comm_cons; eexists _, _, _, _;
  split; [reflexivity|]; split; [reflexivity|]; norm_log; reflexivity.
Qed.

End Resolver.

Lemma resolver_creates_missing_account_witness :
  let t := Sim.deposit_of Sim.usd_multisig pending_user_transfer_start in
  let w := Sim.world_of [Sim.account_of "GDIST" []; Sim.account_of "GCHANNEL" []]
             Sim.Accept in
  let s := Sim.state_of [t] w in
  let r := get_or_create_destination_account t s in
  ((forall envelope answer,
      In (envelope, answer) (submissions (trace r)) ->
      exists kp source_json,
        funding_keypair t (obj r) = Some kp
        /\ In (EvFetchAccount (public_key kp) (Ok source_json)) (trace r)
        /\ tx_source envelope = account_resource_id source_json
        /\ tx_operations envelope
           = [CreateAccount (stellar_account t)
                (ACCOUNT_STARTING_BALANCE settings) None]
        /\ signatures envelope = [kp])
   /\ (forall account pending,
         res r = Ok (account, pending) ->
         pending = true
         /\ exists envelope response json pre,
              trace r = pre ++ [EvSubmit envelope (Ok response);
                                EvFetchAccount (stellar_account t) (Ok json)]
              /\ account = load_account json
              /\ submissions (trace r) = [(envelope, Ok response)]))
  /\ res r = Ok ({| account_id := "GDEST"; sequence := 0 |}, true)
  /\ funding_keypair t (obj r)
     = Some {| public_key := "GCHANNEL"; secret := Some "SCHANNEL" |}.
Proof.
intros t w s r. split.
- exact (resolver_creates_missing_account t s "Resource Missing" w eq_refl).
- split; vm_compute; reflexivity.
Defined.

(** ** [get_ready_deposits] and the driver *)

Section ReadyDeposits.

Context {World : Type} `{C : Collaborators World}.

Lemma check_ready_transaction_violation t (s : State World) :
  violates_contract t = true ->
  exists msg,
    check_ready_transaction t s
    = {| res := Raise (ValueError msg); obj := t; st := s; trace := [] |}.
Proof.
unfold violates_contract, check_ready_transaction, bind, get_local.
cbn [res obj st trace].
destruct (Kind_eqb (kind t) deposit); cbn [negb orb].
- destruct (amount_in t); [discriminate|]. intros _. eexists. reflexivity.
- intros _. eexists. reflexivity.
Qed.

Lemma check_ready_transaction_ok t (s : State World) :
  violates_contract t = false ->
  res (check_ready_transaction t s) = Ok tt.
Proof.
intros H.
enough (Hwp : wp check_ready_transaction (fun r _ _ _ => r = Ok tt) t s)
  by exact Hwp.
unfold violates_contract in H. apply orb_false_elim in H. destruct H as [Hk Ha].
unfold check_ready_transaction. wp_prim. wp_prim. rewrite Hk.
destruct (amount_in t); [|discriminate].
wp_go; reflexivity.
Qed.

Lemma check_ready_transactions_violation ready (s : State World) :
  existsb violates_contract ready = true ->
  exists msg, res (check_ready_transactions ready tt s) = Raise (ValueError msg).
Proof.
revert s. induction ready as [|t ready IH]; intros s; cbn [existsb];
  [discriminate|].
intros H.
enough (Hwp : wp (check_ready_transactions (t :: ready))
                (fun r _ _ _ => exists msg, r = Raise (ValueError msg)) tt s)
  by exact Hwp.
cbn [check_ready_transactions]. wp_prim. wp_prim.
destruct (violates_contract t) eqn:Ht.
- destruct (check_ready_transaction_violation t s Ht) as [msg Hrun].
  unfold wp. rewrite Hrun. cbn [res]. eauto.
- cbn [orb] in H. unfold wp at 1.
  rewrite (check_ready_transaction_ok t s Ht). wp_red.
  wp_prim. unfold wp at 1.
  destruct (IH (st (check_ready_transaction t s)) H) as [msg Hmsg].
  rewrite Hmsg. eauto.
Qed.

Lemma get_ready_deposits_violation (s : State World) ready rows w :
  rri_poll_pending_deposits
    (filter (fun t => is_candidate t = true) (objects s)) (db s) (world s)
  = (Ok (PyList ready), rows, w) ->
  existsb violates_contract ready = true ->
  exists msg, res (get_ready_deposits tt s) = Raise (ValueError msg).
Proof.
intros Hpoll Hbad.
enough (Hwp : wp get_ready_deposits
                (fun r _ _ _ => exists msg, r = Raise (ValueError msg)) tt s)
  by exact Hwp.
unfold get_ready_deposits. wp_prim. wp_prim. wp_prim.
unfold wp at 1, poll_pending_deposits. cbn [res obj st trace].
rewrite Hpoll. cbn [fst snd]. wp_prim. unfold wp at 1.
destruct (check_ready_transactions_violation ready
            {| db := rows; world := w; TERMINATE := TERMINATE s |} Hbad)
  as [msg Hmsg].
rewrite Hmsg. eauto.
Qed.

Lemma execute_deposits_catches (s : State World) e :
  res (get_ready_deposits tt s) = Raise e ->
  res (execute_deposits tt s) = Ok tt
  /\ st (execute_deposits tt s) = st (get_ready_deposits tt s)
  /\ trace (execute_deposits tt s)
     = trace (get_ready_deposits tt s)
       ++ [EvLog EXCEPTION "poll_pending_deposits() threw an unexpected exception"].
Proof.
intros H.
enough (Hwp :
  wp execute_deposits
    (fun r _ s' evs =>
       r = Ok tt /\ s' = st (get_ready_deposits tt s)
       /\ evs = trace (get_ready_deposits tt s)
                ++ [EvLog EXCEPTION
                      "poll_pending_deposits() threw an unexpected exception"])
    tt s) by exact Hwp.
unfold execute_deposits. wp_prim. wp_prim. wp_prim.
unfold wp at 1. rewrite H. wp_red.
wp_prim. wp_prim. wp_prim. wp_prim.
rewrite app_nil_r. auto.
Qed.

(** C8, as the code has it: a record returned by the polling adapter that
    is not a deposit, or lacks [amount_in], makes [get_ready_deposits] raise
    a [ValueError], the record left as it was; the driver [execute_deposits]
    catches whatever [get_ready_deposits] raises, logs it and ends the pass
    normally, having executed no deposit; a returned record with
    [amount_fee] unset gets the fee of [calculate_fee] when that very
    function is the registered one, zero when a custom fee function is,
    and is saved. *)
Theorem get_ready_deposits_validation :
  (forall (t : Transaction) (s : State World),
     violates_contract t = true ->
     exists msg,
       check_ready_transaction t s
       = {| res := Raise (ValueError msg); obj := t; st := s; trace := [] |})
  /\ (forall (s : State World) ready rows w,
        rri_poll_pending_deposits
          (filter (fun t => is_candidate t = true) (objects s)) (db s) (world s)
        = (Ok (PyList ready), rows, w) ->
        existsb violates_contract ready = true ->
        exists msg, res (get_ready_deposits tt s) = Raise (ValueError msg))
  /\ (forall (s : State World) e,
        res (get_ready_deposits tt s) = Raise e ->
        res (execute_deposits tt s) = Ok tt
        /\ st (execute_deposits tt s) = st (get_ready_deposits tt s)
        /\ trace (execute_deposits tt s)
           = trace (get_ready_deposits tt s)
             ++ [EvLog EXCEPTION
                   "poll_pending_deposits() threw an unexpected exception"])
  /\ (forall (t : Transaction) (s : State World) amount,
        kind t = deposit -> amount_in t = Some amount -> amount_fee t = None ->
        let r := check_ready_transaction t s in
        res r = Ok tt
        /\ obj r = set_amount_fee (Some (default_fee t amount)) t
        /\ trace r = [EvSave (obj r)]
        /\ db (st r) !! id t = Some (obj r)).
Proof.
split; [exact check_ready_transaction_violation|].
split; [exact get_ready_deposits_violation|].
split; [exact execute_deposits_catches|].
intros t s amount Hk Ha Hf r.
enough (Hwp :
  wp check_ready_transaction
    (fun r l' s' evs =>
       r = Ok tt /\ l' = set_amount_fee (Some (default_fee t amount)) t
       /\ evs = [EvSave l'] /\ db s' !! id t = Some l') t s) by exact Hwp.
unfold check_ready_transaction, default_fee.
wp_prim. wp_prim. rewrite Hk, Ha, Hf. cbn [Kind_eqb negb].
destruct registered_fee_func; wp_go; repeat split; apply lookup_insert_eq.
Qed.

End ReadyDeposits.

Lemma validation_error_is_caught : ~ validation_error_propagates sim_bad_adapter.
Proof.
intros H.
specialize (H (ValueError
                 "A non-deposit Transaction was returned from poll_pending_deposits()")
              eq_refl).
vm_compute in H. discriminate H.
Qed.

Lemma get_ready_deposits_validation_witness :
  res (get_ready_deposits tt sim_bad_adapter)
  = Raise (ValueError
             "A non-deposit Transaction was returned from poll_pending_deposits()")
  /\ res (execute_deposits tt sim_bad_adapter) = Ok tt
  /\ st (execute_deposits tt sim_bad_adapter)
     = st (get_ready_deposits tt sim_bad_adapter)
  /\ trace (execute_deposits tt sim_bad_adapter)
     = trace (get_ready_deposits tt sim_bad_adapter)
       ++ [EvLog EXCEPTION
             "poll_pending_deposits() threw an unexpected exception"].
Proof.
split; [reflexivity|].
exact (proj1 (proj2 (proj2 (@get_ready_deposits_validation
                              Sim.World Sim.collaborators)))
         sim_bad_adapter _ eq_refl).
Defined.

(** ** The rescan of co-signed deposits *)

Section Rescan.

Context {World : Type} `{C : Collaborators World}.

Lemma trace_bind {L A B} (m : M World L A) (k : A -> M World L B) l s :
  exists after, trace (bind m k l s) = trace (m l s) ++ after.
Proof.
unfold bind. destruct (res (m l s)); cbn [trace]; [eauto|].
exists []. rewrite app_nil_r. reflexivity.
Qed.

Lemma truthy_Some xdr : xdr <> "" -> truthy (Some xdr) = true.
Proof.
intros H. unfold truthy. destruct (String.eqb_spec xdr ""); [contradiction|].
reflexivity.
Qed.

(** With an envelope stored, the only call [submit] makes to the ledger is
    the submission of that envelope, as decoded. *)
Lemma submit_stored_envelope t (s : State World) xdr envelope :
  In (status t) valid_statuses ->
  envelope_xdr t = Some xdr -> xdr <> "" ->
  TransactionEnvelope_from_xdr xdr (STELLAR_NETWORK_PASSPHRASE settings)
  = Some envelope ->
  exists answer,
    List.filter is_ledger_call (trace (submit t s)) = [EvSubmit envelope answer].
Proof.
intros Hin Hxdr Hne Hdec. apply existsb_Status_eqb in Hin.
enough (Hwp :
  wp submit
    (fun _ _ _ evs =>
       exists answer, List.filter is_ledger_call evs = [EvSubmit envelope answer])
    t s) by exact Hwp.
unfold submit. wp_prim. wp_prim. rewrite Hin. cbn [negb].
do 11 wp_prim. rewrite Hxdr, (truthy_Some xdr Hne).
cbn [default from_option Datatypes.id].
apply wp_decoded. rewrite Hdec. wp_red.
unfold _handle_error.
wp_go; eexists; reflexivity.
Qed.

Lemma bind_Ok {L A B} (m : M World L A) (k : A -> M World L B) l s a :
  res (m l s) = Ok a ->
  bind m k l s
  = {| res := res (k a (obj (m l s)) (st (m l s)));
       obj := obj (k a (obj (m l s)) (st (m l s)));
       st := st (k a (obj (m l s)) (st (m l s)));
       trace := trace (m l s) ++ trace (k a (obj (m l s)) (st (m l s))) |}.
Proof. intros H. unfold bind. rewrite H. reflexivity. Qed.

Lemma bind_Raise {L A B} (m : M World L A) (k : A -> M World L B) l s e :
  res (m l s) = Raise e ->
  bind m k l s
  = {| res := Raise e; obj := obj (m l s); st := st (m l s);
       trace := trace (m l s) |}.
Proof. intros H. unfold bind. rewrite H. reflexivity. Qed.

Lemma execute_multisig_app pre rows (s : State World) :
  res (execute_multisig pre tt s) = Ok tt ->
  trace (execute_multisig (pre ++ rows) tt s)
  = trace (execute_multisig pre tt s)
    ++ trace (execute_multisig rows tt (st (execute_multisig pre tt s))).
Proof.
revert s. induction pre as [|t pre IH]; intros s H; [reflexivity|].
cbn [execute_multisig app] in *.
destruct (res (with_local t submit_cosigned tt s)) as [a|e] eqn:E.
- rewrite !(bind_Ok _ _ _ _ _ E) in *. cbn [res st trace] in *.
  change (obj (with_local t submit_cosigned tt s)) with tt in *.
  rewrite (IH _ H), app_assoc. reflexivity.
- rewrite (bind_Raise _ _ _ _ _ E) in H. discriminate H.
Qed.

(** C5: in a pass of the driver in which the polling adapter returned a
    list and the ready deposits were executed, a deposit [t] that the rescan
    finds (status [pending_anchor], [pending_signatures] false, an envelope
    stored) and reaches, with a non-empty envelope that decodes, is
    submitted: the run of [submit] on it is part of the log of the pass, and
    the only call that run makes to the ledger is the submission of the
    stored envelope as decoded (no account is fetched, no fee, so nothing is
    rebuilt; no signature is added). *)
Theorem cosigned_deposit_submitted_as_stored (s : State World)
    (ready : list Transaction) (s1 s2 : State World) (tr1 tr2 : list Event)
    (pre post : list Transaction) (t : Transaction) (xdr : string)
    (envelope : TransactionEnvelope) :
  get_ready_deposits tt s
  = {| res := Ok (PyList ready); obj := tt; st := s1; trace := tr1 |} ->
  execute_ready ready tt s1
  = {| res := Ok tt; obj := tt; st := s2; trace := tr2 |} ->
  filter (fun t => is_cosigned t = true) (objects s2) = pre ++ t :: post ->
  res (execute_multisig pre tt s2) = Ok tt ->
  envelope_xdr t = Some xdr -> xdr <> "" ->
  TransactionEnvelope_from_xdr xdr (STELLAR_NETWORK_PASSPHRASE settings)
  = Some envelope ->
  let run := submit t (st (execute_multisig pre tt s2)) in
  (exists before after,
     trace (execute_deposits tt s) = before ++ trace run ++ after)
  /\ (exists answer,
        List.filter is_ledger_call (trace run) = [EvSubmit envelope answer]).
Proof.
intros Hready Hexec Hrows Hpre Hxdr Hne Hdec run. split.
- assert (Hpass :
    trace (execute_deposits tt s)
    = tr1 ++ tr2
      ++ trace (execute_multisig
                  (filter (fun t => is_cosigned t = true) (objects s2)) tt s2)).
  { enough (Hwp :
      wp execute_deposits
        (fun _ _ _ evs =>
           evs = tr1 ++ tr2
                 ++ trace (execute_multisig
                             (filter (fun t => is_cosigned t = true) (objects s2))
                             tt s2)) tt s) by exact Hwp.
    unfold execute_deposits. wp_prim. wp_prim. wp_prim.
    unfold wp at 1. rewrite Hready. wp_red.
    wp_prim. wp_prim. unfold wp at 1. rewrite Hexec. wp_red.
    wp_prim. wp_prim. unfold wp. rewrite app_nil_r. reflexivity. }
  rewrite Hpass, Hrows, (execute_multisig_app pre (t :: post) s2 Hpre).
  cbn [execute_multisig].
  destruct (trace_bind (with_local t submit_cosigned)
              (fun _ => execute_multisig post) tt
              (st (execute_multisig pre tt s2))) as [after1 ->].
  unfold with_local at 1. cbn [trace]. unfold submit_cosigned at 1.
  destruct (trace_bind submit
              (fun ok => if ok
                         then refresh_from_db ;;
                              after_deposit
                                "after_deposit() threw an unexpected exception"
                         else ret tt) t
              (st (execute_multisig pre tt s2))) as [after2 ->].
  fold run.
  exists (tr1 ++ tr2 ++ trace (execute_multisig pre tt s2)), (after2 ++ after1).
  rewrite <- !app_assoc. reflexivity.
- apply (submit_stored_envelope t _ xdr envelope); try assumption.
  assert (Hin : In t (filter (fun t => is_cosigned t = true) (objects s2))).
  { rewrite Hrows. apply in_or_app. right. left. reflexivity. }
  apply list_elem_of_In, list_elem_of_filter in Hin. destruct Hin as [Hc _].
  unfold is_cosigned in Hc.
  repeat (apply andb_prop in Hc; destruct Hc as [Hc ?]).
  destruct (status t); try discriminate. cbn. auto.
Qed.

End Rescan.

Lemma cosigned_deposit_submitted_as_stored_witness :
  let t := set_envelope_xdr (Some "cosigned")
             (Sim.deposit_of Sim.usd_multisig pending_anchor) in
  let s := Sim.state_of [t] (Sim.world_of Sim.funded Sim.Accept) in
  let run := submit t (st (execute_multisig [] tt s)) in
  (exists before after,
     trace (execute_deposits tt s) = before ++ trace run ++ after)
  /\ (exists answer,
        List.filter is_ledger_call (trace run)
        = [EvSubmit Sim.cosigned_envelope answer]).
Proof.
intros t s run.
apply (@cosigned_deposit_submitted_as_stored Sim.World Sim.collaborators
         s [] s s [EvPoll [] (Ok (PyList []))] [] [] [] t "cosigned"
         Sim.cosigned_envelope).
- vm_compute. reflexivity.
- reflexivity.
- vm_compute. reflexivity.
- reflexivity.
- reflexivity.
- discriminate.
- reflexivity.
Defined.

(** ** Multisig deposits *)

Lemma requires_multisig_asset {World : Type} `{C : Collaborators World} t t' :
  asset t' = asset t -> requires_multisig t' = requires_multisig t.
Proof. unfold requires_multisig. intros ->. reflexivity. Qed.

Lemma multisig_safe_refl t : multisig_safe t t.
Proof. repeat split; auto. Qed.

(** A field update keeps the object safe when it leaves the asset, does not
    set [pending_stellar], and leaves the envelope or sets the co-signature
    state. *)
Ltac msafe_obj :=
  lazymatch goal with
  | |- multisig_safe _ _ =>
      first
        [ assumption
        | match goal with
          | H : multisig_safe _ _ |- _ =>
              let Ha := fresh in let Hs := fresh in let He := fresh in
              destruct H as (Ha & Hs & He);
              unfold multisig_safe, awaits_cosignature in *; tx_simpl;
              split; [exact Ha|];
              split; [first [exact Hs | discriminate]|];
              first [ exact He
                    | right; split; [reflexivity | discriminate]
                    | destruct He as [He|He];
                      [ left; exact He | right; exact He ] ]
          end ]
  end.

Ltac msafe :=
  lazymatch goal with
  | |- keeps_multisig_safe _ _ _ _ _ =>
      split;
      [ first [ msafe_obj
              | match goal with
                | H : keeps_multisig_safe _ _ _ _ _ |- _ => exact (proj1 H)
                end ]
      | norm_log;
        repeat first
          [ apply List.Forall_nil
          | apply List.Forall_cons
          | apply Forall_app; split
          | match goal with H : Forall _ (saves _) |- _ => exact H end
          | match goal with
            | H : keeps_multisig_safe _ _ _ _ _ |- _ => exact (proj2 H)
            end
          | msafe_obj ] ]
  end.

Section Multisig.

Context {World : Type} `{C : Collaborators World}.

Lemma get_channel_keypair_multisig_safe t l (s : State World) :
  multisig_safe t l -> wp get_channel_keypair (keeps_multisig_safe t) l s.
Proof.
intros H. unfold get_channel_keypair, create_channel_account.
wp_go; msafe.
Qed.

Lemma save_as_pending_signatures_multisig_safe t l (s : State World) :
  multisig_safe t l -> wp save_as_pending_signatures (keeps_multisig_safe t) l s.
Proof.
intros H. unfold save_as_pending_signatures.
wp_prim. wp_use get_channel_keypair_multisig_safe; [|msafe].
destruct Hpost as [Hl Hevs].
wp_run; msafe.
Qed.

Lemma get_or_create_destination_account_multisig_safe t l (s : State World) :
  multisig_safe t l ->
  wp get_or_create_destination_account (keeps_multisig_safe t) l s.
Proof.
intros H. unfold get_or_create_destination_account.
wp_prim. wp_prim. wp_prim. wp_prim.
wp_step; [wp_run; msafe|].
destruct e; cbn [is_BaseHorizonError]; wp_red; try msafe;
  [|destruct e; wp_red; wp_run; msafe].
wp_prim. wp_prim. wp_prim.
assert (Hkp : wp (if requires_multisig l
                  then get_channel_keypair
                  else ret (Keypair_from_secret (distribution_seed (asset l))))
                (keeps_multisig_safe t) l
                {| db := db s; world := w; TERMINATE := TERMINATE s |}).
{ destruct (requires_multisig l).
  - apply get_channel_keypair_multisig_safe, H.
  - wp_prim. msafe. }
wp_use Hkp; [|msafe]. clear Hkp. destruct Hpost as [Hl Hevs].
wp_run; msafe.
Qed.

Lemma execute_deposit_multisig_safe t l (s : State World) :
  requires_multisig t = true -> multisig_safe t l ->
  wp execute_deposit (keeps_multisig_safe t) l s.
Proof.
intros Hm H. unfold execute_deposit.
wp_prim. wp_prim. wp_prim.
wp_use get_or_create_destination_account_multisig_safe.
- destruct Hpost as [Hl Hevs]. do 4 wp_prim.
  + wp_go; msafe.
  + rewrite (requires_multisig_asset t l0 (proj1 Hl)), Hm.
    wp_use save_as_pending_signatures_multisig_safe; destruct Hpost; msafe.
- destruct Hpost as [Hl Hevs].
  destruct (caught_as_RuntimeError e); wp_red; [wp_go|]; msafe.
Qed.

Lemma check_balances_multisig_safe t account bs l (s : State World) :
  requires_multisig t = true -> multisig_safe t l ->
  wp (check_balances account bs) (keeps_multisig_safe t) l s.
Proof.
intros Hm. revert l s.
induction bs as [|balance bs IH]; intros l s H; cbn [check_balances].
- wp_prim. msafe.
- wp_prim; [apply IH, H|].
  wp_prim. wp_prim. wp_prim; [|wp_prim; msafe].
  wp_prim; [apply IH, H|].
  wp_prim; [|wp_prim; msafe].
  wp_prim; [apply IH, H|].
  wp_prim. wp_prim.
  rewrite (requires_multisig_asset t l (proj1 H)), Hm.
  wp_prim. wp_use save_as_pending_signatures_multisig_safe;
    [|destruct Hpost; msafe].
  destruct Hpost as [Hl Hevs]. wp_use IH; destruct Hpost; msafe.
Qed.

(** Whatever [submit] saves has the asset of the deposit. *)
Lemma submit_cosigned_saves_asset t (s : State World) :
  Forall (fun row => asset row = asset t) (saves (trace (submit_cosigned t s))).
Proof.
enough (Hwp : wp submit_cosigned
                (fun _ _ _ evs => Forall (fun row => asset row = asset t) (saves evs))
                t s) by exact Hwp.
unfold submit_cosigned. wp_prim.
assert (Hsub : wp submit
                 (fun _ _ _ evs =>
                    Forall (fun row => asset row = asset t) (saves evs)) t s).
{ unfold submit. wp_prim. wp_prim. wp_prim; [wp_prim; constructor|].
  do 11 wp_prim.
  wp_block (fun _ : result TransactionEnvelope => True).
  { wp_prim.
    - wp_prim; repeat split; read_events.
    - wp_prim. wp_read (get_account_obj_reads (L:=Transaction));
        [|repeat split; read_events].
      wp_prim. wp_read create_deposit_envelope_reads;
        [|repeat split; read_events].
      wp_prim. repeat split; read_events. }
  2: { norm_log. repeat constructor. }
  unfold _handle_error.
  wp_go; norm_log; repeat constructor. }
wp_use Hsub; [|exact Hpost].
unfold after_deposit.
wp_go; norm_log; rewrite ?app_nil_r; exact Hpost.
Qed.

Lemma check_ready_transaction_multisig_safe t l (s : State World) :
  multisig_safe t l -> wp check_ready_transaction (keeps_multisig_safe t) l s.
Proof.
intros H. unfold check_ready_transaction.
wp_go; msafe.
Qed.

End Multisig.

(** ** The history of a multisig deposit *)

Lemma last_snoc_split {A} (h : list A) (row : A) :
  last h = Some row -> exists h', h = h' ++ [row].
Proof. intros H. apply last_Some in H. exact H. Qed.

Lemma Exists_app_l {A} (P : A -> Prop) (l1 l2 : list A) :
  Exists P l1 -> Exists P (l1 ++ l2).
Proof. intros H. apply Exists_app. left. exact H. Qed.

Lemma cosigned_before_stellar_snoc a h t' :
  cosigned_before_stellar a h -> extends_history a h t' ->
  cosigned_before_stellar a (h ++ [t']).
Proof.
intros (Ha & Hs & He) (Ha' & Hs' & He'). repeat split.
- apply Forall_app. split; [exact Ha | repeat constructor; exact Ha'].
- intros h1 t h2 Heq Hst.
  destruct h2 as [|x h2 _] using rev_ind.
  + apply app_inj_tail in Heq. destruct Heq as [<- <-]. apply Hs', Hst.
  + change (t :: h2 ++ [x]) with ((t :: h2) ++ [x]) in Heq.
    rewrite app_assoc in Heq. apply app_inj_tail in Heq.
    destruct Heq as [Heq _]. exact (Hs h1 t h2 Heq Hst).
- intros row Hlast Henv. rewrite last_snoc in Hlast.
  injection Hlast as <-.
  destruct (He' Henv) as [Haw | Hex].
  + apply Exists_app. right. constructor. exact Haw.
  + apply Exists_app_l, Hex.
Qed.

Lemma extends_history_mono a h x t' :
  extends_history a h t' -> extends_history a (h ++ [x]) t'.
Proof.
intros (Ha & Hs & He). repeat split.
- exact Ha.
- intros Hst. apply Exists_app_l, Hs, Hst.
- intros Henv. destruct (He Henv) as [Haw | Hex];
    [left; exact Haw | right; apply Exists_app_l, Hex].
Qed.

Lemma cosigned_before_stellar_app a h rows :
  cosigned_before_stellar a h -> Forall (extends_history a h) rows ->
  cosigned_before_stellar a (h ++ rows).
Proof.
revert h. induction rows as [|x rows IH]; intros h Hh Hrows.
- rewrite app_nil_r. exact Hh.
- apply List.Forall_cons_iff in Hrows. destruct Hrows as [Hx Hrows].
  change (x :: rows) with ([x] ++ rows). rewrite app_assoc.
  apply IH.
  + apply cosigned_before_stellar_snoc; assumption.
  + eapply List.Forall_impl; [|exact Hrows].
    intros t'. apply extends_history_mono.
Qed.

(** The current row of a history, and an object read from it. *)
Lemma current_row_facts a h row t :
  cosigned_before_stellar a h -> last h = Some row -> external_update row t ->
  asset t = a
  /\ (status t = pending_stellar -> Exists awaits_cosignature h)
  /\ (envelope_xdr t <> None -> Exists awaits_cosignature h).
Proof.
intros (Ha & Hs & He) Hlast (Hasset & Henv & Hst).
destruct (last_snoc_split h row Hlast) as [h' ->].
repeat split.
- rewrite Hasset. apply Forall_app in Ha. destruct Ha as [_ Ha].
  apply List.Forall_cons_iff in Ha. exact (proj1 Ha).
- intros H. apply Exists_app_l. exact (Hs h' row [] eq_refl (Hst H)).
- intros H. apply (He row Hlast). intros Hnone. apply H, Henv, Hnone.
Qed.

Lemma multisig_safe_extends a h row t rows :
  cosigned_before_stellar a h -> last h = Some row -> external_update row t ->
  Forall (multisig_safe t) rows -> Forall (extends_history a h) rows.
Proof.
intros Hh Hlast Hext.
destruct (current_row_facts a h row t Hh Hlast Hext) as (Ha & Hs & He).
apply List.Forall_impl. intros t' (Ha' & Hs' & He'). repeat split.
- rewrite Ha'. exact Ha.
- intros H. apply Hs, Hs', H.
- intros H. destruct He' as [Heq | Haw]; [right | left; exact Haw].
  apply He. rewrite <- Heq. exact H.
Qed.

Section HistoryInvariant.

Context {World : Type} `{C : Collaborators World}.

Lemma history_nonempty h : history h -> exists t0 h', h = t0 :: h'.
Proof.
induction 1 as [t0 | h row row' _ IH | h row t s _ IH | h row t s _ IH
               | h row t s _ IH | h row t account s _ IH];
  [exists t0, []; reflexivity | ..];
  destruct IH as (t0 & h' & ->); eexists _, _; reflexivity.
Qed.

Lemma history_cosigned_before_stellar h t0 :
  history h -> head h = Some t0 -> requires_multisig t0 = true ->
  cosigned_before_stellar (asset t0) h.
Proof.
intros Hh. revert t0.
induction Hh as [t0' Henv Hst
                | h row row' Hh IH Hlast Hext
                | h row t s Hh IH Hlast Hext
                | h row t s Hh IH Hlast Hext
                | h row t s Hh IH Hlast Hext Hco
                | h row t account s Hh IH Hlast Hext Hpt];
  intros t0 Hhead Hm.
- cbn in Hhead. injection Hhead as <-. repeat split.
  + repeat constructor.
  + intros h1 t h2 Heq Hstatus. destruct h1 as [|x h1].
    * injection Heq as <- _. contradiction.
    * injection Heq as _ Heq. destruct h1; discriminate Heq.
  + intros row Hlast Hne. cbn in Hlast. injection Hlast as <-. contradiction.
- destruct (history_nonempty h Hh) as (x & h' & ->).
  cbn in Hhead. injection Hhead as ->.
  specialize (IH t0 eq_refl Hm).
  apply cosigned_before_stellar_snoc; [exact IH|].
  destruct (current_row_facts _ _ _ _ IH Hlast Hext) as (Ha & Hs & He).
  repeat split; [exact Ha | exact Hs | intros H; right; apply He, H].
- destruct (history_nonempty h Hh) as (x & h' & ->).
  cbn in Hhead. injection Hhead as ->.
  specialize (IH t0 eq_refl Hm).
  apply cosigned_before_stellar_app; [exact IH|].
  apply (multisig_safe_extends _ _ row t); try assumption.
  exact (proj2 (check_ready_transaction_multisig_safe t t s (multisig_safe_refl t))).
- destruct (history_nonempty h Hh) as (x & h' & ->).
  cbn in Hhead. injection Hhead as ->.
  specialize (IH t0 eq_refl Hm).
  apply cosigned_before_stellar_app; [exact IH|].
  apply (multisig_safe_extends _ _ row t); try assumption.
  destruct (current_row_facts _ _ _ _ IH Hlast Hext) as (Ha & _).
  assert (Hmt : requires_multisig t = true)
    by (rewrite (requires_multisig_asset t0 t Ha); exact Hm).
  exact (proj2 (execute_deposit_multisig_safe t t s Hmt (multisig_safe_refl t))).
- destruct (history_nonempty h Hh) as (x & h' & ->).
  cbn in Hhead. injection Hhead as ->.
  specialize (IH t0 eq_refl Hm).
  apply cosigned_before_stellar_app; [exact IH|].
  destruct (current_row_facts _ _ _ _ IH Hlast Hext) as (Ha & _ & He).
  assert (Hex : Exists awaits_cosignature (t0 :: h')).
  { apply He. unfold is_cosigned in Hco.
    destruct (envelope_xdr t); [discriminate|].
    rewrite andb_false_r in Hco. discriminate Hco. }
  eapply List.Forall_impl; [|exact (submit_cosigned_saves_asset t s)].
  intros t' Ht'. repeat split.
  + rewrite Ht'. exact Ha.
  + intros _. exact Hex.
  + intros _. right. exact Hex.
- destruct (history_nonempty h Hh) as (x & h' & ->).
  cbn in Hhead. injection Hhead as ->.
  specialize (IH t0 eq_refl Hm).
  apply cosigned_before_stellar_app; [exact IH|].
  apply (multisig_safe_extends _ _ row t); try assumption.
  destruct (current_row_facts _ _ _ _ IH Hlast Hext) as (Ha & _).
  assert (Hmt : requires_multisig t = true)
    by (rewrite (requires_multisig_asset t0 t Ha); exact Hm).
  exact (proj2 (check_balances_multisig_safe t account (balances account) t s
                  Hmt (multisig_safe_refl t))).
Qed.

(** C4: a deposit whose distribution account requires multisig (no master
    signer, or a master signer whose weight is below the medium threshold)
    has no [pending_stellar] record in its history, whatever steps of the
    per-cycle driver and of the trustline poller wrote it, without an
    earlier record with [pending_signatures] set and an envelope
    persisted. *)
Theorem multisig_passes_through_cosignature h t0 :
  history h -> head h = Some t0 -> requires_multisig t0 = true ->
  forall h1 t h2,
    h = h1 ++ t :: h2 -> status t = pending_stellar ->
    Exists awaits_cosignature h1.
Proof.
intros Hh Hhead Hm h1 t h2 Heq Hst.
destruct (history_cosigned_before_stellar h t0 Hh Hhead Hm) as (_ & Hs & _).
exact (Hs h1 t h2 Heq Hst).
Qed.

End HistoryInvariant.

Lemma multisig_passes_through_cosignature_witness :
  Exists awaits_cosignature (take 5 sim_multisig_history).
Proof.
assert (Hhist : history sim_multisig_history).
{ apply (history_rescan (sim_waiting ++ [sim_cosigned_row]) sim_cosigned_row
           sim_cosigned_row (sim_state sim_cosigned_row)).
  - apply (history_external sim_waiting sim_waiting_row sim_cosigned_row).
    + apply (history_driver [sim_multisig_deposit] sim_multisig_deposit
               sim_multisig_deposit (sim_state sim_multisig_deposit)).
      * apply history_intake; [reflexivity | discriminate].
      * reflexivity.
      * repeat split; auto.
    + vm_compute. reflexivity.
    + vm_compute. repeat split; discriminate.
  - vm_compute. reflexivity.
  - vm_compute. repeat split; auto.
  - vm_compute. reflexivity. }
refine (@multisig_passes_through_cosignature Sim.World Sim.collaborators
          sim_multisig_history sim_multisig_deposit Hhist eq_refl _
          (take 5 sim_multisig_history)
          (default sim_multisig_deposit (sim_multisig_history !! 5%nat))
          (drop 6 sim_multisig_history) _ _).
- vm_compute. reflexivity.
- vm_compute. reflexivity.
- vm_compute. reflexivity.
Defined.

(** * Further properties of the code *)

Lemma marks_app evs1 evs2 : marks (evs1 ++ evs2) = marks evs1 ++ marks evs2.
Proof.
induction evs1 as [|e evs1 IH]; [reflexivity|].
destruct e; cbn [marks app]; rewrite ?IH; reflexivity.
Qed.

Lemma marks_reads evs : forallb is_read_event evs = true -> marks evs = [].
Proof.
induction evs as [|e evs IH]; [reflexivity|].
destruct e; cbn; try discriminate; exact IH.
Qed.

Ltac norm_marks :=
  repeat first
    [ progress cbn [marks app]
    | rewrite marks_app
    | match goal with
      | H : forallb is_read_event ?evs = true |- _ =>
          rewrite (marks_reads evs H)
      end ].

Section SubmitCourse.

Context {World : Type} `{C : Collaborators World}.

(** X1: the rows [submit] saves and its submission to Horizon come in one
    order: the row as [pending_anchor], the row as [pending_stellar], the
    submission, the row as [completed] or as [error]; a run stops anywhere
    along that course, returns [True] exactly when it reaches [completed] and
    [False] exactly when it reaches [error]. *)
Theorem submit_course_of_marks (t : Transaction) (s : State World) :
  let run := submit t s in
  (marks (trace run) `prefix_of` submit_course completed
   \/ marks (trace run) `prefix_of` submit_course error)
  /\ (res run = Ok true <-> marks (trace run) = submit_course completed)
  /\ (res run = Ok false <-> marks (trace run) = submit_course error).
Proof.
change (wp submit
          (fun r _ _ evs =>
             (marks evs `prefix_of` submit_course completed
              \/ marks evs `prefix_of` submit_course error)
             /\ (r = Ok true <-> marks evs = submit_course completed)
             /\ (r = Ok false <-> marks evs = submit_course error)) t s).
unfold submit. wp_prim. wp_prim.
wp_prim.
{ wp_prim. split; [left; apply prefix_nil|]. split; split; discriminate. }
do 11 wp_prim.
wp_block (fun _ : result TransactionEnvelope => True).
{ wp_prim.
  - wp_prim; repeat split; read_events.
  - wp_prim. wp_read (get_account_obj_reads (L:=Transaction));
      [|repeat split; read_events].
    wp_prim. wp_read create_deposit_envelope_reads;
      [|repeat split; read_events].
    wp_prim. repeat split; read_events. }
2: { norm_marks. split; [left; eexists; reflexivity|].
     split; split; discriminate. }
unfold _handle_error.
wp_go; norm_marks; unfold submit_course.
all: split;
  [ first [ left; eexists; reflexivity | right; eexists; reflexivity ]
  | split; split; first [ reflexivity | discriminate | intros _; reflexivity ] ].
Qed.

End SubmitCourse.

Section Envelope.

Context {World : Type} `{C : Collaborators World}.

Lemma choose_base_fee_chosen {L} (l : L) (s : State World) :
  wp choose_base_fee
    (fun r l' s' evs =>
       l' = l /\ db s' = db s /\ TERMINATE s' = TERMINATE s
       /\ forallb is_read_event evs = true
       /\ forall fee, r = Ok fee -> chosen_fee fee evs) l s.
Proof.
unfold choose_base_fee, chosen_fee.
destruct (MAX_TRANSACTION_FEE_STROOPS settings) as [f|]; [destruct (f =? 0)|].
all: wp_go; repeat split; try discriminate;
  try (intros ? [= <-]; left; reflexivity); try congruence.
intros answer [].
Qed.

Lemma chosen_fee_app fee pre evs post :
  forallb is_read_event pre = true ->
  (forall answer, ~ In (EvFetchBaseFee answer) pre) ->
  (forall answer, ~ In (EvFetchBaseFee answer) post) ->
  chosen_fee fee evs -> chosen_fee fee (pre ++ evs ++ post).
Proof.
intros _ Hpre Hpost. unfold chosen_fee.
destruct (MAX_TRANSACTION_FEE_STROOPS settings) as [f|]; [destruct (f =? 0)|].
- intros H. apply in_or_app. right. apply in_or_app. left. exact H.
- intros [-> H]. split; [reflexivity|]. intros answer Hin.
  apply in_app_or in Hin. destruct Hin as [Hin|Hin]; [exact (Hpre _ Hin)|].
  apply in_app_or in Hin. destruct Hin as [Hin|Hin];
    [exact (H _ Hin) | exact (Hpost _ Hin)].
- intros H. apply in_or_app. right. apply in_or_app. left. exact H.
Qed.

Lemma create_deposit_envelope_built source l (s : State World) :
  wp (create_deposit_envelope source)
    (fun r l' s' evs =>
       l' = l /\ db s' = db s /\ TERMINATE s' = TERMINATE s
       /\ forallb is_read_event evs = true
       /\ forall envelope, r = Ok envelope ->
          exists d fee json,
            net_amount l = Ok d /\ chosen_fee fee evs
            /\ In (EvFetchAccount (stellar_account l) (Ok json)) evs
            /\ envelope = deposit_envelope source l d fee json) l s.
Proof.
unfold create_deposit_envelope.
wp_prim. wp_prim. wp_prim.
wp_prim; [|repeat split; discriminate].
wp_prim. wp_use (choose_base_fee_chosen (L:=Transaction));
  [|destruct Hpost as (-> & Hdb & HT & Hev & _); repeat split; auto; discriminate].
destruct Hpost as (-> & Hdb & HT & Hev & Hfee). specialize (Hfee _ eq_refl).
wp_prim. unfold get_account_obj.
wp_go; rewrite ?app_nil_r; repeat split; try assumption; try discriminate;
  try read_events.
all: intros envelope [= <-]; exists a, a0.
all: match goal with
     | |- context [EvFetchAccount _ (Ok ?j)] => exists j
     end.
all: split; [reflexivity|].
all: split;
  [ apply (chosen_fee_app a0 [] evs _ eq_refl); [intros ? [] | | exact Hfee];
    intros answer Hin; cbn in Hin; intuition discriminate |].
all: split; [apply in_or_app; right; cbn; auto |].
all: unfold deposit_envelope, deposit_operation, deposit_memo, build, append_op,
       add_memo, new_builder, truthy in *;
     cbn [source_account network_passphrase base_fee operations builder_memo
          length app];
     match goal with
     | E : (claimable_balance_supported _ && _)%bool = _ |- _ => rewrite E
     end;
     destruct (memo l) as [m|]; [destruct (m =? "")%string|];
     try discriminate; cbn [negb default from_option Datatypes.id] in *;
     try discriminate;
     rewrite Z.mul_1_r; reflexivity.
Qed.

End Envelope.

Section SubmitFields.

Context {World : Type} `{C : Collaborators World}.

(** X2: the envelope built for a deposit carries the configured maximum
    fee when there is one (Horizon's base fee is fetched only when it is
    unset or zero), the memo of the deposit when it has one, the next
    sequence number of the source account and no signature; building it
    changes neither the deposit nor the rows. *)
Theorem create_deposit_envelope_fields (source : Account) (t : Transaction)
    (s : State World) (envelope : TransactionEnvelope) :
  let run := create_deposit_envelope source t s in
  res run = Ok envelope ->
  (exists fee,
     chosen_fee fee (trace run) /\ tx_fee envelope = fee)
  /\ tx_memo envelope = deposit_memo t
  /\ tx_sequence envelope = sequence source + 1
  /\ tx_network_passphrase envelope = STELLAR_NETWORK_PASSPHRASE settings
  /\ signatures envelope = []
  /\ obj run = t /\ db (st run) = db s /\ saves (trace run) = [].
Proof.
intros run Hres.
destruct (create_deposit_envelope_built source t s)
  as (Hl & Hdb & _ & Hev & Hbuilt).
destruct (Hbuilt envelope Hres) as (d & fee & json & _ & Hfee & _ & ->).
split; [exists fee; split; [exact Hfee | reflexivity]|].
repeat split; try assumption. apply saves_reads, Hev.
Qed.

Lemma deposit_envelope_ext source t t' d fee json :
  stellar_account t = stellar_account t' -> asset t = asset t' ->
  memo t = memo t' -> memo_type t = memo_type t' ->
  claimable_balance_supported t = claimable_balance_supported t' ->
  deposit_envelope source t d fee json = deposit_envelope source t' d fee json.
Proof.
unfold deposit_envelope, deposit_operation, deposit_memo, is_pending_trust.
intros -> -> -> -> ->. reflexivity.
Qed.

(** X3: for a deposit without a stored envelope, what [submit] sends to
    Horizon is the deposit envelope built from the fetched distribution
    account, signed once with the distribution key; when [submit] returns
    [True] the amount it carries is the [amount_out] recorded. *)
Theorem submit_fresh_envelope (t : Transaction) (s : State World)
    (envelope : TransactionEnvelope)
    (answer : outcome BaseRequestError Response.t) :
  truthy (envelope_xdr t) = false ->
  In (envelope, answer) (submissions (trace (submit t s))) ->
  exists distribution d fee json,
    In (EvFetchAccount (distribution_account (asset t)) (Ok distribution))
      (trace (submit t s))
    /\ net_amount t = Ok d
    /\ envelope
       = sign (Keypair_from_secret (distribution_seed (asset t)))
           (deposit_envelope (load_account distribution) t d fee json)
    /\ (res (submit t s) = Ok true ->
        amount_out (obj (submit t s)) = Some d).
Proof.
intros Hfresh. revert envelope answer.
change (wp submit
          (fun r l' _ evs =>
             forall envelope answer,
               In (envelope, answer) (submissions evs) ->
               exists distribution d fee json,
                 In (EvFetchAccount (distribution_account (asset t))
                       (Ok distribution)) evs
                 /\ net_amount t = Ok d
                 /\ envelope
                    = sign (Keypair_from_secret (distribution_seed (asset t)))
                        (deposit_envelope (load_account distribution) t d fee json)
                 /\ (r = Ok true -> amount_out l' = Some d)) t s).
unfold submit. wp_prim. wp_prim. wp_prim; [wp_prim; intros ? ? []|].
do 11 wp_prim. rewrite Hfresh.
wp_prim. unfold get_account_obj at 1.
wp_prim. wp_prim. wp_prim. wp_prim.
2: { wp_go; intros ? ? []. }
wp_prim. wp_prim.
wp_use create_deposit_envelope_built.
2: { destruct Hpost as (_ & _ & _ & Hev & _).
     intros envelope answer. norm_log. intros []. }
destruct Hpost as (-> & Hdb & HT & Hev & Hbuilt).
destruct (Hbuilt _ eq_refl) as (d & fee & json & Hd & _ & _ & ->).
clear Hbuilt.
unfold _handle_error.
wp_go; intros envelope answer; norm_log; intros [[= <- <-]|[]];
  exists a, d, fee, json.
all: split; [clear; cbn [app In]; rewrite ?in_app_iff; cbn [In]; intuition auto|].
all: split; [rewrite <- Hd; apply net_amount_ext; reflexivity|].
all: split; [f_equal; apply deposit_envelope_ext; reflexivity|].
all: try discriminate.
all: intros _; tx_simpl; f_equal.
all: match goal with
     | E : net_amount _ = Ok ?out |- _ =>
         rewrite (net_amount_ext _ (set_status_eta (Some 5)
                                      (set_status pending_anchor t))) in E;
         [congruence | tx_simpl; reflexivity ..]
     end.
Qed.

End SubmitFields.

Section SubmitRecords.

Context {World : Type} `{C : Collaborators World}.

(** X4: when [submit] returns [True] it has made exactly one submission,
    Horizon answered [successful], and the deposit carries the envelope,
    paging token and transaction id of that answer, an ETA of zero, the time
    of completion, and the balance id read from the answer when claimable
    balances are supported (its old one otherwise); that object is the last
    row saved. *)
Theorem submit_records_response (t : Transaction) (s : State World) :
  let run := submit t s in
  res run = Ok true ->
  exists envelope response,
    submissions (trace run) = [(envelope, Ok response)]
    /\ Response.successful response = true
    /\ envelope_xdr (obj run) = Some (Response.envelope_xdr response)
    /\ paging_token (obj run) = Some (Response.paging_token response)
    /\ stellar_transaction_id (obj run) = Some (Response.id response)
    /\ status_eta (obj run) = Some 0
    /\ completed_at (obj run) = Some (utc_now (world (st run)))
    /\ (if claimable_balance_supported t
        then get_balance_id response = Ok (claimable_balance_id (obj run))
        else claimable_balance_id (obj run) = claimable_balance_id t)
    /\ last (saves (trace run)) = Some (obj run).
Proof.
change (wp submit
          (fun r l' s' evs =>
             r = Ok true ->
             exists envelope response,
               submissions evs = [(envelope, Ok response)]
               /\ Response.successful response = true
               /\ envelope_xdr l' = Some (Response.envelope_xdr response)
               /\ paging_token l' = Some (Response.paging_token response)
               /\ stellar_transaction_id l' = Some (Response.id response)
               /\ status_eta l' = Some 0
               /\ completed_at l' = Some (utc_now (world s'))
               /\ (if claimable_balance_supported t
                   then get_balance_id response = Ok (claimable_balance_id l')
                   else claimable_balance_id l' = claimable_balance_id t)
               /\ last (saves evs) = Some l') t s).
unfold submit. wp_prim. wp_prim. wp_prim; [wp_prim; discriminate|].
do 11 wp_prim.
wp_block (fun _ : result TransactionEnvelope => True).
{ wp_prim.
  - wp_prim; repeat split; read_events.
  - wp_prim. wp_read (get_account_obj_reads (L:=Transaction));
      [|repeat split; read_events].
    wp_prim. wp_read create_deposit_envelope_reads;
      [|repeat split; read_events].
    wp_prim. repeat split; read_events. }
2: discriminate.
unfold _handle_error.
wp_go; try discriminate; intros _; norm_log; eexists _, _;
  (split; [reflexivity|]);
  (split; [apply negb_false_iff; eassumption|]);
  tx_simpl; repeat (split; [reflexivity|]);
  first [ split; [assumption | reflexivity] | reflexivity ].
Qed.

End SubmitRecords.

Lemma same_deposit_refl t : same_deposit t t.
Proof. repeat split; auto. Qed.

Ltac same_obj :=
  idtac;
  lazymatch goal with
  | |- same_deposit _ _ =>
      first
        [ assumption
        | match goal with
          | H : same_deposit _ _ |- _ =>
              unfold same_deposit in H |- *; tx_simpl;
              first [ exact H | intuition congruence ]
          end ]
  end.

Ltac keep obj_tac :=
  lazymatch goal with
  | |- keeps _ _ _ _ _ =>
      split;
      [ first [ obj_tac
              | match goal with
                | H : keeps _ _ _ _ _ |- _ => exact (proj1 H)
                end ]
      | norm_log;
        repeat first
          [ apply List.Forall_nil
          | apply List.Forall_cons
          | apply Forall_app; split
          | match goal with H : Forall _ (saves _) |- _ => exact H end
          | match goal with
            | H : keeps _ _ _ _ _ |- _ => exact (proj2 H)
            end
          | obj_tac ] ]
  end.

Ltac same := keep same_obj.

(** After a successful [submit] the row is the object. *)
Ltac wp_refresh_row Hdb :=
  apply wp_refresh_from_db; rewrite Hdb; wp_red.

Section SameDeposit.

Context {World : Type} `{C : Collaborators World}.

Lemma handle_error_same t message l (s : State World) :
  same_deposit t l -> wp (_handle_error message) (keeps (same_deposit t)) l s.
Proof. intros H. unfold _handle_error. wp_go. same. Qed.

Lemma submit_same t l (s : State World) :
  same_deposit t l ->
  wp submit
    (fun r l' s' evs =>
       keeps (same_deposit t) r l' s' evs
       /\ (r = Ok true -> db s' !! id l' = Some l')) l s.
Proof.
intros H. unfold submit. wp_prim. wp_prim.
wp_prim; [wp_prim; split; [same | discriminate]|].
do 11 wp_prim.
wp_block (fun _ : result TransactionEnvelope => True).
{ wp_prim.
  - wp_prim; repeat split; read_events.
  - wp_prim. wp_read (get_account_obj_reads (L:=Transaction));
      [|repeat split; read_events].
    wp_prim. wp_read create_deposit_envelope_reads;
      [|repeat split; read_events].
    wp_prim. repeat split; read_events. }
2: { split; [same | discriminate]. }
unfold _handle_error.
wp_go; (split; [same | first [ discriminate | intros _; apply lookup_insert_eq ]]).
Qed.

Lemma get_channel_keypair_same t l (s : State World) :
  same_deposit t l -> wp get_channel_keypair (keeps (same_deposit t)) l s.
Proof.
intros H. unfold get_channel_keypair, create_channel_account. wp_go; same.
Qed.

Lemma save_as_pending_signatures_same t l (s : State World) :
  same_deposit t l -> wp save_as_pending_signatures (keeps (same_deposit t)) l s.
Proof.
intros H. unfold save_as_pending_signatures.
wp_prim. wp_use get_channel_keypair_same; [|same].
destruct Hpost as [Hl Hevs].
wp_prim. wp_prim. wp_prim.
wp_read (get_account_obj_reads (L:=Transaction)).
- wp_go. wp_read create_deposit_envelope_reads; wp_go; same.
- wp_go; same.
Qed.

Lemma after_deposit_same t log_msg l (s : State World) :
  same_deposit t l -> wp (after_deposit log_msg) (keeps (same_deposit t)) l s.
Proof. intros H. unfold after_deposit. wp_go; same. Qed.

Lemma get_or_create_destination_account_same t l (s : State World) :
  same_deposit t l ->
  wp get_or_create_destination_account (keeps (same_deposit t)) l s.
Proof.
intros H. unfold get_or_create_destination_account.
wp_prim. wp_prim. wp_prim. wp_prim.
wp_step; [wp_run; same|].
destruct e; cbn [is_BaseHorizonError]; wp_red; try same;
  [|destruct e; wp_red; wp_run; same].
wp_prim. wp_prim. wp_prim.
assert (Hkp : wp (if requires_multisig l
                  then get_channel_keypair
                  else ret (Keypair_from_secret (distribution_seed (asset l))))
                (keeps (same_deposit t)) l
                {| db := db s; world := w; TERMINATE := TERMINATE s |}).
{ destruct (requires_multisig l).
  - apply get_channel_keypair_same, H.
  - wp_prim. same. }
wp_use Hkp; [|same]. clear Hkp. destruct Hpost as [Hl Hevs].
wp_run; same.
Qed.

Lemma submit_then_after_deposit_same t log_msg l (s : State World) :
  same_deposit t l ->
  wp (ok <- submit ;;
      if ok then refresh_from_db ;; after_deposit log_msg else ret tt)
    (keeps (same_deposit t)) l s.
Proof.
intros H. wp_prim. wp_use submit_same; [|exact (proj1 Hpost)].
destruct Hpost as [[Hl Hevs] Hdb].
destruct a; [|wp_prim; same].
specialize (Hdb eq_refl).
wp_prim. wp_refresh_row Hdb.
wp_use after_deposit_same; destruct Hpost; same.
Qed.

Lemma execute_deposit_same t l (s : State World) :
  same_deposit t l -> wp execute_deposit (keeps (same_deposit t)) l s.
Proof.
intros H. unfold execute_deposit.
wp_prim. wp_prim. wp_prim.
wp_use get_or_create_destination_account_same.
- destruct Hpost as [Hl Hevs]. do 4 wp_prim.
  + wp_go; same.
  + wp_prim.
    * wp_use save_as_pending_signatures_same; destruct Hpost; same.
    * wp_use submit_then_after_deposit_same; destruct Hpost; same.
- destruct Hpost as [Hl Hevs].
  destruct (caught_as_RuntimeError e); wp_red; [wp_go|]; same.
Qed.

Lemma check_balances_same t account bs l (s : State World) :
  same_deposit t l -> wp (check_balances account bs) (keeps (same_deposit t)) l s.
Proof.
revert l s. induction bs as [|balance bs IH]; intros l s H; cbn [check_balances].
- wp_prim. same.
- wp_prim; [apply IH, H|].
  wp_prim. wp_prim. wp_prim; [|wp_prim; same].
  wp_prim; [apply IH, H|].
  wp_prim; [|wp_prim; same].
  wp_prim; [apply IH, H|].
  wp_prim. wp_prim. wp_prim.
  + wp_prim. wp_use save_as_pending_signatures_same; [|destruct Hpost; same].
    destruct Hpost as [Hl Hevs]. wp_use IH; destruct Hpost; same.
  + wp_prim. wp_use submit_same; [|destruct Hpost as [[? ?] _]; same].
    destruct Hpost as [[Hl Hevs] Hdb]. wp_prim.
    destruct a.
    * specialize (Hdb eq_refl). wp_prim. wp_refresh_row Hdb.
      wp_use after_deposit_same; [|destruct Hpost; same].
      destruct Hpost. wp_use IH; destruct Hpost; same.
    * wp_prim. wp_use IH; destruct Hpost; same.
Qed.

Lemma check_ready_transaction_same t l (s : State World) :
  same_deposit t l -> wp check_ready_transaction (keeps (same_deposit t)) l s.
Proof.
intros H. unfold check_ready_transaction. wp_go; same.
Qed.

(** X5: no operation of the module changes the id, kind, asset,
    [amount_in], destination, memo, memo type or claimable-balance flag of
    a deposit, nor a fee that is set: neither in the object nor in any row
    it saves. *)
Theorem operations_keep_the_deposit (op : CoreOperation) (t : Transaction)
    (s : State World) :
  same_deposit t (obj (run_operation op t s))
  /\ Forall (same_deposit t) (saves (trace (run_operation op t s))).
Proof.
enough (Hwp : wp (run_operation op) (keeps (same_deposit t)) t s) by exact Hwp.
pose proof (same_deposit_refl t) as H.
destruct op; cbn [run_operation].
- apply check_ready_transaction_same, H.
- wp_prim. wp_use get_or_create_destination_account_same;
    [wp_prim|]; destruct Hpost; same.
- apply execute_deposit_same, H.
- apply submit_then_after_deposit_same, H.
- apply check_balances_same, H.
- wp_prim. wp_use submit_same; [wp_prim|]; destruct Hpost as [[? ?] _]; same.
- apply save_as_pending_signatures_same, H.
- apply handle_error_same, H.
Qed.

End SameDeposit.

Lemma channel_creations_app evs1 evs2 :
  channel_creations (evs1 ++ evs2)
  = channel_creations evs1 ++ channel_creations evs2.
Proof.
induction evs1 as [|e evs1 IH]; [reflexivity|].
destruct e; cbn [channel_creations app]; rewrite ?IH; reflexivity.
Qed.

Lemma channel_creations_reads evs :
  forallb is_read_event evs = true -> channel_creations evs = [].
Proof.
induction evs as [|e evs IH]; [reflexivity|].
destruct e; cbn; try discriminate; exact IH.
Qed.

Lemma single_signature_refl t : single_signature t t.
Proof. repeat split; auto. Qed.

Ltac single_obj :=
  idtac;
  lazymatch goal with
  | |- single_signature _ _ =>
      first
        [ assumption
        | match goal with
          | H : single_signature _ _ |- _ =>
              unfold single_signature, same_deposit in H |- *; tx_simpl;
              first [ exact H | intuition congruence ]
          end ]
  end.

Ltac no_channel :=
  repeat first
    [ progress cbn [channel_creations app]
    | rewrite channel_creations_app
    | match goal with
      | H : forallb is_read_event ?evs = true |- _ =>
          rewrite (channel_creations_reads evs H)
      | H : channel_creations ?evs = [] |- _ => rewrite H
      | H : keeps_single _ _ _ _ ?evs |- _ => rewrite (proj2 H)
      end ];
  reflexivity.

Ltac single :=
  lazymatch goal with
  | |- keeps_single _ _ _ _ _ =>
      split;
      [ repeat match goal with
          | H : keeps_single _ _ _ _ _ |- _ => destruct H as [H ?]
          end;
        keep single_obj
      | no_channel ]
  end.

Section SingleSignature.

Context {World : Type} `{C : Collaborators World}.

Lemma single_signature_asset t l :
  single_signature t l -> requires_multisig l = requires_multisig t.
Proof. intros H. apply requires_multisig_asset, H. Qed.

Lemma submit_single t l (s : State World) :
  single_signature t l ->
  wp submit
    (fun r l' s' evs =>
       keeps_single t r l' s' evs
       /\ (r = Ok true -> db s' !! id l' = Some l')) l s.
Proof.
intros H. unfold submit. wp_prim. wp_prim.
wp_prim; [wp_prim; split; [single | discriminate]|].
do 11 wp_prim.
wp_block (fun _ : result TransactionEnvelope => True).
{ wp_prim.
  - wp_prim; repeat split; read_events.
  - wp_prim. wp_read (get_account_obj_reads (L:=Transaction));
      [|repeat split; read_events].
    wp_prim. wp_read create_deposit_envelope_reads;
      [|repeat split; read_events].
    wp_prim. repeat split; read_events. }
2: { split; [single | discriminate]. }
unfold _handle_error.
wp_go; (split; [single | first [ discriminate | intros _; apply lookup_insert_eq ]]).
Qed.

Lemma after_deposit_single t log_msg l (s : State World) :
  single_signature t l -> wp (after_deposit log_msg) (keeps_single t) l s.
Proof. intros H. unfold after_deposit. wp_go; single. Qed.

Lemma get_or_create_destination_account_single t l (s : State World) :
  requires_multisig t = false -> single_signature t l ->
  wp get_or_create_destination_account (keeps_single t) l s.
Proof.
intros Hm H. unfold get_or_create_destination_account.
wp_prim. wp_prim. wp_prim. wp_prim.
wp_step; [wp_run; single|].
destruct e; cbn [is_BaseHorizonError]; wp_red; try single;
  [|destruct e; wp_red; wp_run; single].
wp_prim. wp_prim. wp_prim.
rewrite (single_signature_asset t l H), Hm.
wp_run; single.
Qed.

Lemma submit_then_after_deposit_single t log_msg l (s : State World) :
  single_signature t l ->
  wp (ok <- submit ;;
      if ok then refresh_from_db ;; after_deposit log_msg else ret tt)
    (keeps_single t) l s.
Proof.
intros H. wp_prim. wp_use submit_single; [|exact (proj1 Hpost)].
destruct Hpost as [[[Hl Hs] Hc] Hdb].
destruct a; [|wp_prim; single].
specialize (Hdb eq_refl).
wp_prim. wp_refresh_row Hdb.
wp_use after_deposit_single; destruct Hpost as [[? ?] ?]; single.
Qed.

Lemma execute_deposit_single t l (s : State World) :
  requires_multisig t = false -> single_signature t l ->
  wp execute_deposit (keeps_single t) l s.
Proof.
intros Hm H. unfold execute_deposit.
wp_prim. wp_prim. wp_prim.
wp_use get_or_create_destination_account_single.
- destruct Hpost as [[Hl Hs] Hc]. do 4 wp_prim.
  + wp_go; single.
  + rewrite (single_signature_asset t l0 Hl), Hm.
    wp_use submit_then_after_deposit_single; destruct Hpost as [[? ?] ?]; single.
- destruct Hpost as [[Hl Hs] Hc].
  destruct (caught_as_RuntimeError e); wp_red; [wp_go|]; single.
Qed.

Lemma check_balances_single t account bs l (s : State World) :
  requires_multisig t = false -> single_signature t l ->
  wp (check_balances account bs) (keeps_single t) l s.
Proof.
intros Hm. revert l s.
induction bs as [|balance bs IH]; intros l s H; cbn [check_balances].
- wp_prim. single.
- wp_prim; [apply IH, H|].
  wp_prim. wp_prim. wp_prim; [|wp_prim; single].
  wp_prim; [apply IH, H|].
  wp_prim; [|wp_prim; single].
  wp_prim; [apply IH, H|].
  wp_prim. wp_prim.
  rewrite (single_signature_asset t l H), Hm.
  wp_prim. wp_use submit_single; [|destruct Hpost as [[[? ?] ?] _]; single].
  destruct Hpost as [[[Hl Hs] Hc] Hdb]. wp_prim.
  destruct a.
  + specialize (Hdb eq_refl). wp_prim. wp_refresh_row Hdb.
    wp_use after_deposit_single; [|destruct Hpost as [[? ?] ?]; single].
    destruct Hpost as [[Hl' Hs'] Hc'].
    wp_use IH; destruct Hpost as [[? ?] ?]; single.
  + wp_prim. wp_use IH; destruct Hpost as [[? ?] ?]; single.
Qed.

Lemma check_ready_transaction_single t l (s : State World) :
  single_signature t l -> wp check_ready_transaction (keeps_single t) l s.
Proof.
intros H. unfold check_ready_transaction. wp_go; single.
Qed.

End SingleSignature.

Ltac no_submission :=
  norm_log;
  repeat match goal with
    | H : submissions ?evs = [] |- _ => rewrite H
    end;
  cbn [app]; rewrite ?app_nil_r; try reflexivity.

Section MultisigSubmissions.

Context {World : Type} `{C : Collaborators World}.

Lemma wp_conj {L A} (m : M World L A) (Q1 Q2 : _ -> _ -> _ -> _ -> Prop) l s :
  wp m Q1 l s -> wp m Q2 l s ->
  wp m (fun r l' s' evs => Q1 r l' s' evs /\ Q2 r l' s' evs) l s.
Proof. unfold wp. auto. Qed.

Lemma get_channel_keypair_no_submission l (s : State World) :
  wp get_channel_keypair (fun _ _ _ evs => submissions evs = []) l s.
Proof.
unfold get_channel_keypair, create_channel_account. wp_go; reflexivity.
Qed.

Lemma save_as_pending_signatures_no_submission l (s : State World) :
  wp save_as_pending_signatures (fun _ _ _ evs => submissions evs = []) l s.
Proof.
unfold save_as_pending_signatures.
wp_prim. wp_use get_channel_keypair_no_submission; [|exact Hpost].
wp_prim. wp_prim. wp_prim.
wp_read (get_account_obj_reads (L:=Transaction)).
- wp_go. wp_read create_deposit_envelope_reads; wp_go; no_submission.
- wp_go; no_submission.
Qed.

Lemma get_or_create_destination_account_creates l (s : State World) :
  wp get_or_create_destination_account
    (fun _ _ _ evs => creates_accounts_only evs) l s.
Proof.
unfold get_or_create_destination_account, creates_accounts_only.
wp_prim. wp_prim. wp_prim. wp_prim.
wp_step; [wp_run; no_submission; constructor|].
destruct e; cbn [is_BaseHorizonError]; wp_red; try (no_submission; constructor);
  [|destruct e; wp_red; wp_run; no_submission; constructor].
wp_prim. wp_prim. wp_prim.
assert (Hkp : wp (if requires_multisig l
                  then get_channel_keypair
                  else ret (Keypair_from_secret (distribution_seed (asset l))))
                (fun _ _ _ evs => submissions evs = []) l
                {| db := db s; world := w; TERMINATE := TERMINATE s |}).
{ destruct (requires_multisig l).
  - apply get_channel_keypair_no_submission.
  - wp_prim. reflexivity. }
wp_use Hkp; [|no_submission; constructor]. clear Hkp.
wp_run; no_submission; repeat constructor.
Qed.

Lemma execute_deposit_multisig_creates t (s : State World) :
  requires_multisig t = true ->
  wp execute_deposit (fun _ _ _ evs => creates_accounts_only evs) t s.
Proof.
intros Hm. unfold execute_deposit.
wp_prim. wp_prim. wp_prim.
eapply wp_mono;
  [ apply (wp_conj _ _ _ _ _
             (get_or_create_destination_account_same t t s (same_deposit_refl t))
             (get_or_create_destination_account_creates t s)) |].
cbv beta. intros r l s' evs [[Hl _] Hc]. unfold creates_accounts_only in *.
destruct r as [a|e]; wp_red.
- do 4 wp_prim.
  + wp_go. no_submission. exact Hc.
  + rewrite (requires_multisig_asset t l (proj1 (proj2 (proj2 Hl)))), Hm.
    wp_use save_as_pending_signatures_no_submission;
      no_submission; exact Hc.
- destruct (caught_as_RuntimeError e); wp_red; [|exact Hc].
  wp_go. no_submission. exact Hc.
Qed.

Lemma check_balances_multisig_no_submission t account bs l (s : State World) :
  requires_multisig t = true -> same_deposit t l ->
  wp (check_balances account bs) (fun _ _ _ evs => submissions evs = []) l s.
Proof.
intros Hm. revert l s.
induction bs as [|balance bs IH]; intros l s H; cbn [check_balances].
- wp_prim. reflexivity.
- wp_prim; [apply IH, H|].
  wp_prim. wp_prim. wp_prim; [|wp_prim; reflexivity].
  wp_prim; [apply IH, H|].
  wp_prim; [|wp_prim; reflexivity].
  wp_prim; [apply IH, H|].
  wp_prim. wp_prim.
  rewrite (requires_multisig_asset t l (proj1 (proj2 (proj2 H)))), Hm.
  wp_prim.
  eapply wp_mono;
    [ apply (wp_conj _ _ _ _ _
               (save_as_pending_signatures_same t l _ H)
               (save_as_pending_signatures_no_submission l _)) |].
  cbv beta. intros r l' s' evs [[Hl _] Hc].
  destruct r; wp_red; [|no_submission].
  wp_use IH; no_submission.
Qed.

End MultisigSubmissions.

Section Executor.

Context {World : Type} `{C : Collaborators World}.

(** X6: when the resolver reports that the destination does not yet
    accept the asset and the deposit does not support claimable balances,
    [execute_deposit] saves the deposit as [pending_trust], notifies, and
    does nothing else: no payment is submitted. *)
Theorem execute_deposit_waits_for_trustline (t : Transaction) (s : State World)
    (account : Account) :
  let found := get_or_create_destination_account t s in
  let t' := set_status pending_trust (obj found) in
  res found = Ok (account, true) ->
  claimable_balance_supported t = false ->
  res (execute_deposit t s) = Ok tt
  /\ obj (execute_deposit t s) = t'
  /\ db (st (execute_deposit t s)) = <[id t := t']> (db (st found))
  /\ trace (execute_deposit t s)
     = trace found
       ++ [EvLog INFO ("destination account is pending_trust for transaction "
                       +:+ id t);
           EvSave t'; EvCallback t'].
Proof.
intros found t' Hfound Hcb.
destruct (get_or_create_destination_account_same t t s (same_deposit_refl t))
  as [Hsame _]. fold found in Hsame.
destruct Hsame as (Hid & _ & _ & _ & _ & _ & _ & Hcbs & _).
change (wp execute_deposit
          (fun r l' s' evs =>
             r = Ok tt /\ l' = t' /\ db s' = <[id t := t']> (db (st found))
             /\ evs = trace found
                      ++ [EvLog INFO
                            ("destination account is pending_trust for transaction "
                             +:+ id t);
                          EvSave t'; EvCallback t']) t s).
unfold execute_deposit. wp_prim. wp_prim. wp_prim.
unfold wp at 1. fold found. rewrite Hfound. wp_red.
wp_prim. wp_prim. wp_prim. rewrite Hcbs, Hcb. cbn [andb negb].
wp_go. subst t'. tx_simpl. rewrite Hid, !app_nil_r. repeat split.
Qed.

(** X7: when the resolver raises a [RuntimeError] or an exception of one of
    its subclasses ([NotImplementedError] from a channel-account integration
    that is not implemented, [RecursionError]), [execute_deposit] saves the
    deposit as [error] with the message, logs it, notifies and returns
    normally; any other exception of the resolver leaves [execute_deposit]
    as it is, with nothing saved after it. *)
Theorem execute_deposit_resolver_error (t : Transaction) (s : State World)
    (e : exn) :
  let found := get_or_create_destination_account t s in
  res found = Raise e ->
  match caught_as_RuntimeError e with
  | Some msg =>
      let t' := set_status_message (Some msg) (set_status error (obj found)) in
      res (execute_deposit t s) = Ok tt
      /\ obj (execute_deposit t s) = t'
      /\ db (st (execute_deposit t s)) = <[id t := t']> (db (st found))
      /\ trace (execute_deposit t s)
         = trace found ++ [EvSave t'; EvLog ERROR msg; EvCallback t']
  | None =>
      res (execute_deposit t s) = Raise e
      /\ obj (execute_deposit t s) = obj found
      /\ st (execute_deposit t s) = st found
      /\ trace (execute_deposit t s) = trace found
  end.
Proof.
intros found Hfound.
destruct (get_or_create_destination_account_same t t s (same_deposit_refl t))
  as [Hsame _].
assert (Hf : get_or_create_destination_account t s = found) by reflexivity.
clearbody found. rewrite Hf in Hsame.
destruct Hsame as (Hid & _).
assert (Hwp : wp execute_deposit
          (fun r l' s' evs =>
             match caught_as_RuntimeError e with
             | Some msg =>
                 let t' := set_status_message (Some msg)
                             (set_status error (obj found)) in
                 r = Ok tt /\ l' = t'
                 /\ db s' = <[id t := t']> (db (st found))
                 /\ evs = trace found ++ [EvSave t'; EvLog ERROR msg; EvCallback t']
             | None =>
                 r = Raise e /\ l' = obj found /\ s' = st found
                 /\ evs = trace found
             end) t s).
{ unfold execute_deposit. wp_prim. wp_prim. wp_prim.
  unfold wp at 1. rewrite Hf, Hfound. wp_red.
  destruct (caught_as_RuntimeError e) as [msg|]; wp_red;
    [|repeat split; reflexivity].
  wp_go. tx_simpl. rewrite Hid, !app_nil_r. repeat split. }
unfold wp in Hwp. destruct (caught_as_RuntimeError e); exact Hwp.
Qed.

(** X8: when Horizon has the destination account, the resolver makes
    that one call, returns the account with whether it still lacks the
    trustline, and creates nothing. *)
Theorem resolver_finds_destination (t : Transaction) (s : State World)
    (json : AccountResponse) (w : World) :
  horizon_account_call (stellar_account t) (world s) = (Ok json, w) ->
  let found := get_or_create_destination_account t s in
  res found = Ok (load_account json, is_pending_trust t json)
  /\ obj found = t
  /\ st found = {| db := db s; world := w; TERMINATE := TERMINATE s |}
  /\ trace found = [EvFetchAccount (stellar_account t) (Ok json)].
Proof.
intros Hcall found. subst found.
change (wp get_or_create_destination_account
          (fun r l' s' evs =>
             r = Ok (load_account json, is_pending_trust t json)
             /\ l' = t
             /\ s' = {| db := db s; world := w; TERMINATE := TERMINATE s |}
             /\ evs = [EvFetchAccount (stellar_account t) (Ok json)]) t s).
unfold get_or_create_destination_account, get_account_obj.
wp_prim. wp_prim. wp_prim. wp_prim. wp_prim. wp_prim. wp_prim.
unfold HORIZON_SERVER_account.
eapply wp_call_answer; [exact Hcall|]. wp_red.
wp_go. repeat split.
Qed.

(** X9: when Horizon refuses the create-account transaction with a
    [BaseHorizonError], the resolver raises [RuntimeError] with Horizon's
    message; a connection failure is raised as it is; in both cases the
    refused submission is the last thing the resolver does. *)
Theorem resolver_creation_refused (t : Transaction) (s : State World)
    (envelope : TransactionEnvelope) (e : BaseRequestError) :
  let found := get_or_create_destination_account t s in
  In (envelope, Raise e) (submissions (trace found)) ->
  res found
  = Raise (if is_BaseHorizonError (RequestError e)
           then RuntimeError
                  ("Horizon error when submitting create account to horizon: "
                   +:+ message_of (RequestError e))
           else RequestError e)
  /\ last (trace found) = Some (EvSubmit envelope (Raise e)).
Proof.
intros found. subst found.
change (wp get_or_create_destination_account
          (fun r _ _ evs =>
             In (envelope, Raise e) (submissions evs) ->
             r = Raise (if is_BaseHorizonError (RequestError e)
                        then RuntimeError
                               ("Horizon error when submitting create account to horizon: "
                                +:+ message_of (RequestError e))
                        else RequestError e)
             /\ last evs = Some (EvSubmit envelope (Raise e))) t s).
unfold get_or_create_destination_account.
wp_prim. wp_prim. wp_prim. wp_prim.
wp_step; [wp_run; norm_log; intros []|].
destruct e0; cbn [is_BaseHorizonError]; wp_red; try (norm_log; intros []);
  [|destruct e0; wp_red; wp_run; norm_log; intros []].
wp_prim. wp_prim. wp_prim.
assert (Hkp : wp (if requires_multisig t
                  then get_channel_keypair
                  else ret (Keypair_from_secret (distribution_seed (asset t))))
                (fun _ _ _ evs => submissions evs = []) t
                {| db := db s; world := w; TERMINATE := TERMINATE s |}).
{ destruct (requires_multisig t).
  - unfold get_channel_keypair, create_channel_account. wp_go; reflexivity.
  - wp_prim. reflexivity. }
wp_use Hkp; [|norm_log; rewrite Hpost; intros []]. clear Hkp.
wp_run; norm_log; rewrite ?Hpost; cbn [app In]; intros Hin;
  first [ exact (False_ind _ Hin)
        | destruct Hin as [Hin|Hin]; [|exact (False_ind _ Hin)] ];
  first [ discriminate Hin | injection Hin as <- <- ].
all: split; [destruct e0; try discriminate; reflexivity|].
all: rewrite !app_assoc; apply last_snoc.
Qed.

End Executor.

Ltac last_event :=
  rewrite <- head_reverse;
  repeat first [rewrite reverse_app | rewrite reverse_cons];
  cbn [reverse rev_append app head]; reflexivity.

Section Channel.

Context {World : Type} `{C : Collaborators World}.

Lemma get_channel_keypair_single_fields (t : Transaction) (s : State World) :
  wp get_channel_keypair
    (fun r l' _ _ =>
       match r with
       | Ok kp =>
           exists seed,
             channel_seed l' = Some seed /\ kp = Keypair_from_secret seed
             /\ envelope_xdr l' = envelope_xdr t
             /\ pending_signatures l' = pending_signatures t
             /\ amount_fee l' = amount_fee t
       | Raise _ => True
       end) t s.
Proof.
unfold get_channel_keypair, create_channel_account.
wp_go; try exact I; eexists; (split; [eassumption|]); repeat split.
Qed.

(** X10: a deposit that has a channel account keeps it:
    [get_channel_keypair] calls no integration, saves nothing and returns
    the key of the stored seed; a deposit without one makes exactly one call
    to [create_channel_account]. *)
Theorem get_channel_keypair_reuses_channel (t : Transaction) (s : State World) :
  let run := get_channel_keypair t s in
  (truthy (channel_account t) = true ->
   trace run = [] /\ obj run = t /\ st run = s
   /\ res run = match channel_seed t with
                | Some seed => Ok (Keypair_from_secret seed)
                | None => Raise (TypeError "secret should be a str")
                end)
  /\ (truthy (channel_account t) = false ->
      channel_creations (trace run) = [t]).
Proof.
intros run. subst run.
change (wp get_channel_keypair
          (fun r l' s' evs =>
             (truthy (channel_account t) = true ->
              evs = [] /\ l' = t /\ s' = s
              /\ r = match channel_seed t with
                     | Some seed => Ok (Keypair_from_secret seed)
                     | None => Raise (TypeError "secret should be a str")
                     end)
             /\ (truthy (channel_account t) = false ->
                 channel_creations evs = [t])) t s).
unfold get_channel_keypair, create_channel_account.
wp_prim. wp_prim. wp_prim. wp_prim.
- wp_go; (split; [intros H; rewrite H in *; discriminate|]); intros _;
    reflexivity.
- wp_go; (split; [|intros H; rewrite H in *; discriminate]); intros _;
    repeat split; destruct s; reflexivity.
Qed.

(** X11: [save_as_pending_signatures] never submits anything; when it
    returns, the last row saved is the deposit, the callback is its last
    act, and the deposit either waits for its co-signers
    ([pending_anchor], [pending_signatures] set, the stored envelope being
    the deposit envelope built from the channel account and signed once with
    the channel key) or is in [error] with a message, its envelope and
    [pending_signatures] untouched. *)
Theorem save_as_pending_signatures_outcome (t : Transaction) (s : State World) :
  let run := save_as_pending_signatures t s in
  submissions (trace run) = []
  /\ (res run = Ok tt ->
      last (trace run) = Some (EvCallback (obj run))
      /\ last (saves (trace run)) = Some (obj run)
      /\ ((exists seed channel d fee json,
             channel_seed (obj run) = Some seed
             /\ In (EvFetchAccount (public_key_of_secret seed) (Ok channel))
                  (trace run)
             /\ net_amount t = Ok d
             /\ envelope_xdr (obj run)
                = Some (TransactionEnvelope_to_xdr
                          (sign (Keypair_from_secret seed)
                             (deposit_envelope (load_account channel) t d fee json)))
             /\ pending_signatures (obj run) = true
             /\ status (obj run) = pending_anchor)
          \/ (exists msg,
                status (obj run) = error
                /\ status_message (obj run) = Some msg
                /\ envelope_xdr (obj run) = envelope_xdr t
                /\ pending_signatures (obj run) = pending_signatures t))).
Proof.
intros run. subst run. split.
{ exact (save_as_pending_signatures_no_submission t s). }
change (wp save_as_pending_signatures
          (fun r l' _ evs =>
             r = Ok tt ->
             last evs = Some (EvCallback l')
             /\ last (saves evs) = Some l'
             /\ ((exists seed channel d fee json,
                    channel_seed l' = Some seed
                    /\ In (EvFetchAccount (public_key_of_secret seed) (Ok channel)) evs
                    /\ net_amount t = Ok d
                    /\ envelope_xdr l'
                       = Some (TransactionEnvelope_to_xdr
                                 (sign (Keypair_from_secret seed)
                                    (deposit_envelope (load_account channel) t d
                                       fee json)))
                    /\ pending_signatures l' = true
                    /\ status l' = pending_anchor)
                 \/ (exists msg,
                       status l' = error /\ status_message l' = Some msg
                       /\ envelope_xdr l' = envelope_xdr t
                       /\ pending_signatures l' = pending_signatures t))) t s).
unfold save_as_pending_signatures.
wp_prim.
eapply wp_mono;
  [ apply (wp_conj _ _ _ _ _
             (get_channel_keypair_single_fields t s)
             (get_channel_keypair_same t t s (same_deposit_refl t))) |].
cbv beta. intros r l s' evs [Hkp [Hsame _]].
destruct r as [kp|e]; wp_red; [|discriminate].
destruct Hkp as (seed & Hseed & -> & Henv & Hps & Hfee).
wp_prim. wp_prim. wp_prim. unfold get_account_obj.
wp_prim. wp_prim. wp_prim. wp_prim.
- wp_prim. wp_prim. wp_prim. wp_prim.
  wp_use create_deposit_envelope_built; [|discriminate].
  destruct Hpost as (-> & _ & _ & Hev & Hbuilt).
  destruct (Hbuilt _ eq_refl) as (d & fee & json & Hd & _ & _ & ->).
  clear Hbuilt.
  wp_go. intros _. rewrite ?app_nil_r.
  split; [last_event|].
  split; [norm_log; last_event|].
  left. exists seed, a, d, fee, json. tx_simpl.
  split; [exact Hseed|].
  split; [rewrite !in_app_iff; cbn [In]; auto|].
  split; [rewrite <- Hd; apply net_amount_ext;
          [symmetry; apply Hsame | symmetry; exact Hfee | symmetry; apply Hsame]|].
  split; [|split; reflexivity].
  do 3 f_equal. apply deposit_envelope_ext; apply Hsame.
- wp_go; try discriminate. intros _. rewrite ?app_nil_r.
  split; [last_event|].
  split; [norm_log; last_event|].
  right. eexists. tx_simpl. repeat split; assumption.
Qed.

(** X12: for an asset whose master key alone authorizes payments, no
    operation of the module other than [save_as_pending_signatures] itself
    asks for a channel account or changes [pending_signatures],
    [channel_seed] or [channel_account]. *)
Theorem single_signature_never_cosigned (op : CoreOperation) (t : Transaction)
    (s : State World) :
  requires_multisig t = false ->
  op <> op_save_as_pending_signatures ->
  let run := run_operation op t s in
  channel_creations (trace run) = []
  /\ single_signature t (obj run)
  /\ Forall (single_signature t) (saves (trace run)).
Proof.
intros Hm Hop run. subst run.
enough (Hwp : wp (run_operation op) (keeps_single t) t s)
  by (destruct Hwp as [[? ?] ?]; auto).
pose proof (single_signature_refl t) as H.
destruct op; cbn [run_operation]; try congruence.
- apply check_ready_transaction_single, H.
- wp_prim. wp_use get_or_create_destination_account_single;
    [wp_prim|]; destruct Hpost as [[? ?] ?]; single.
- apply execute_deposit_single; assumption.
- apply submit_then_after_deposit_single, H.
- apply check_balances_single; assumption.
- wp_prim. wp_use submit_single; [wp_prim|];
    destruct Hpost as [[[? ?] ?] _]; single.
- unfold _handle_error. wp_go. single.
Qed.

(** X13: for an asset that requires multisig, [execute_deposit] submits
    nothing but the creation of a missing account, and neither the trustline
    poller nor the fee step of [get_ready_deposits] submits anything: the
    payment is left to the rescan. *)
Theorem multisig_deposit_not_paid (t : Transaction) (s : State World)
    (account : AccountResponse) :
  requires_multisig t = true ->
  Forall (fun p => is_account_creation p.1 = true)
    (submissions (trace (execute_deposit t s)))
  /\ submissions (trace (check_balances account (balances account) t s)) = []
  /\ submissions (trace (check_ready_transaction t s)) = [].
Proof.
intros Hm. split; [|split].
- exact (execute_deposit_multisig_creates t s Hm).
- exact (check_balances_multisig_no_submission t account (balances account) t s
           Hm (same_deposit_refl t)).
- enough (Hwp : wp check_ready_transaction
                  (fun _ _ _ evs => submissions evs = []) t s) by exact Hwp.
  unfold check_ready_transaction. wp_go; reflexivity.
Qed.

End Channel.

Section Poller.

Context {World : Type} `{C : Collaborators World}.

(** X14: when no balance line of the account is for the asset of the
    deposit (every line is native or well formed for another asset), the
    trustline poller leaves the deposit as it is: nothing is saved, logged
    or submitted. *)
Theorem check_balances_without_trustline (account : AccountResponse)
    (bs : list Balance) (t : Transaction) (s : State World) :
  forallb (other_line t) bs = true ->
  check_balances account bs t s
  = {| res := Ok tt; obj := t; st := s; trace := [] |}.
Proof.
induction bs as [|balance bs IH]; intros H; [reflexivity|].
cbn [forallb] in H. apply andb_true_iff in H. destruct H as [Hb H].
specialize (IH H). cbn [check_balances].
unfold other_line in Hb.
destruct (is_native balance); [exact IH|].
cbn [orb] in Hb.
unfold bind at 1. cbn [get_local res obj st trace].
destruct (asset_code balance) as [c|]; [|discriminate Hb].
destruct (negb (c =? code (asset t))%string).
- rewrite IH. reflexivity.
- cbn [orb] in Hb. destruct (asset_issuer balance) as [i|]; [|discriminate Hb].
  rewrite Hb. rewrite IH. reflexivity.
Qed.

Lemma check_balances_malformed_line (account : AccountResponse)
    (balance : Balance) (bs : list Balance) (t : Transaction) (s : State World) :
  is_native balance = false ->
  asset_code balance = None ->
  check_balances account (balance :: bs) t s
  = {| res := Raise (KeyError "asset_code"); obj := t; st := s; trace := [] |}.
Proof.
intros Hn Hc. cbn [check_balances]. rewrite Hn.
unfold bind. cbn [get_local res obj st trace]. rewrite Hc. reflexivity.
Qed.

End Poller.

Section Driver.

Context {World : Type} `{C : Collaborators World}.

Lemma check_ready_transaction_with_fee t (s : State World) :
  violates_contract t = false ->
  wp check_ready_transaction
    (fun r l' s' evs =>
       r = Ok tt /\ l' = with_fee t
       /\ saves evs = (if lacks_fee t then [with_fee t] else [])
       /\ world s' = world s /\ TERMINATE s' = TERMINATE s) t s.
Proof.
unfold violates_contract, with_fee, lacks_fee, default_fee. intros H.
apply orb_false_iff in H. destruct H as [Hk Ha].
unfold check_ready_transaction. wp_prim. wp_prim. rewrite Hk.
destruct (amount_in t) as [amount|]; [|discriminate Ha].
destruct (amount_fee t) as [fee|].
- wp_go. repeat split.
- destruct registered_fee_func; wp_go; repeat split.
Qed.

Lemma check_ready_transactions_with_fee ready (s : State World) :
  existsb violates_contract ready = false ->
  wp (check_ready_transactions ready)
    (fun r _ s' evs =>
       r = Ok (map with_fee ready)
       /\ saves evs = map with_fee (filter (fun t => lacks_fee t = true) ready)
       /\ world s' = world s /\ TERMINATE s' = TERMINATE s) tt s.
Proof.
revert s. induction ready as [|t ready IH]; intros s H.
- cbn [check_ready_transactions]. wp_prim. repeat split.
- cbn [existsb] in H. apply orb_false_iff in H. destruct H as [Ht H].
  cbn [check_ready_transactions]. wp_prim. wp_prim.
  wp_use (check_ready_transaction_with_fee t s Ht);
    [|destruct Hpost as [[=] _]].
  destruct Hpost as (_ & -> & Hsaves & Hw & HT).
  destruct a. wp_prim.
  wp_use IH; [|destruct Hpost as [[=] _]].
  destruct Hpost as ([= ->] & Hsaves' & Hw' & HT').
  wp_prim. cbn [map]. split; [reflexivity|].
  split; [|split; congruence].
  norm_log. rewrite Hsaves, Hsaves', app_nil_r.
  rewrite filter_cons. destruct (lacks_fee t); cbn.
  + destruct (decide (true = true)); [reflexivity | congruence].
  + destruct (decide (false = true)); [discriminate | reflexivity].
Qed.

(** X15: when every record the polling adapter returned is a deposit
    with [amount_in], [get_ready_deposits] returns the records in the same
    order, each with the default fee if it had none, and saves exactly those
    that had none. *)
Theorem get_ready_deposits_fills_fees (s : State World)
    (ready : list Transaction) (rows : gmap string Transaction) (w : World) :
  rri_poll_pending_deposits
    (filter (fun t => is_candidate t = true) (objects s)) (db s) (world s)
  = (Ok (PyList ready), rows, w) ->
  existsb violates_contract ready = false ->
  let run := get_ready_deposits tt s in
  res run = Ok (PyList (map with_fee ready))
  /\ saves (trace run)
     = map with_fee (filter (fun t => lacks_fee t = true) ready)
  /\ world (st run) = w
  /\ TERMINATE (st run) = TERMINATE s.
Proof.
intros Hpoll Hok run. subst run.
change (wp get_ready_deposits
          (fun r _ s' evs =>
             r = Ok (PyList (map with_fee ready))
             /\ saves evs
                = map with_fee (filter (fun t => lacks_fee t = true) ready)
             /\ world s' = w /\ TERMINATE s' = TERMINATE s) tt s).
unfold get_ready_deposits. wp_prim. wp_prim. wp_prim.
unfold wp at 1, poll_pending_deposits. rewrite Hpoll.
cbn [fst snd res obj st trace].
wp_prim.
wp_use (check_ready_transactions_with_fee ready); [|destruct Hpost as [[=] _]].
destruct Hpost as ([= ->] & Hsaves & Hw & HT).
wp_prim. cbn [db world TERMINATE] in *.
repeat split; try assumption. norm_log. rewrite app_nil_r. exact Hsaves.
Qed.

End Driver.

Section Passes.

Context {World : Type} `{C : Collaborators World}.

(** X16: when the polling adapter returns a tuple instead of a list,
    the pass ends with [CommandError] right after [get_ready_deposits]: no
    deposit is executed and the co-signed deposits are not rescanned. *)
Theorem execute_deposits_requires_a_list (s : State World)
    (records : list Transaction) :
  res (get_ready_deposits tt s) = Ok (PyTuple records) ->
  res (execute_deposits tt s)
  = Raise (CommandError
             "poll_pending_deposits() did not return a list of transaction objects.")
  /\ st (execute_deposits tt s) = st (get_ready_deposits tt s)
  /\ trace (execute_deposits tt s) = trace (get_ready_deposits tt s).
Proof.
intros H.
change (wp execute_deposits
          (fun r _ s' evs =>
             r = Raise (CommandError
                          "poll_pending_deposits() did not return a list of transaction objects.")
             /\ s' = st (get_ready_deposits tt s)
             /\ evs = trace (get_ready_deposits tt s)) tt s).
unfold execute_deposits. wp_prim. wp_prim. wp_prim.
unfold wp at 1. rewrite H. wp_red.
wp_go. rewrite !app_nil_r. repeat split.
Qed.

(** X17: with the termination flag set, a pass executes none of the
    ready deposits, and still rescans and submits the co-signed ones. *)
Theorem terminate_skips_ready_deposits (s : State World)
    (ready : list Transaction) (s1 : State World) (tr1 : list Event) :
  TERMINATE s = true ->
  get_ready_deposits tt s
  = {| res := Ok (PyList ready); obj := tt; st := s1; trace := tr1 |} ->
  execute_ready ready tt s1 = {| res := Ok tt; obj := tt; st := s1; trace := [] |}
  /\ (let rescan :=
        execute_multisig (filter (fun t => is_cosigned t = true) (objects s1))
          tt s1 in
      res (execute_deposits tt s) = res rescan
      /\ st (execute_deposits tt s) = st rescan
      /\ trace (execute_deposits tt s) = tr1 ++ trace rescan).
Proof.
intros HT Hready.
assert (HT1 : TERMINATE s1 = true).
{ assert (Hwp : wp get_ready_deposits
                  (fun _ _ s' _ => TERMINATE s' = TERMINATE s) tt s).
  { unfold get_ready_deposits. wp_prim. wp_prim. wp_prim.
    unfold wp at 1, poll_pending_deposits. cbn [res obj st trace].
    assert (Hloop : forall l (s0 : State World),
              wp (check_ready_transactions l)
                (fun _ _ s' _ => TERMINATE s' = TERMINATE s0) tt s0).
    { induction l as [|t l IH]; intros s0; cbn [check_ready_transactions].
      - wp_prim. reflexivity.
      - wp_prim. wp_prim.
        assert (Hone : wp check_ready_transaction
                         (fun _ _ s' _ => TERMINATE s' = TERMINATE s0) t s0)
          by (unfold check_ready_transaction; wp_go; reflexivity).
        wp_use Hone; [|exact Hpost].
        wp_prim. wp_use IH; [wp_prim|]; congruence. }
    destruct (rri_poll_pending_deposits _ _ _) as [[[v|e] rows] w];
      cbn [fst snd]; [|reflexivity].
    destruct v; [wp_prim; wp_use Hloop; [wp_prim|]; exact Hpost ..|].
    wp_prim. reflexivity. }
  unfold wp in Hwp. rewrite Hready in Hwp. cbn [st] in Hwp. congruence. }
assert (Hskip : execute_ready ready tt s1
                = {| res := Ok tt; obj := tt; st := s1; trace := [] |}).
{ destruct ready as [|t ready]; [reflexivity|].
  cbn [execute_ready]. unfold bind at 1. cbn [get_state res obj st trace].
  rewrite HT1. reflexivity. }
split; [exact Hskip|]. intros rescan. subst rescan.
change (wp execute_deposits
          (fun r _ s' evs =>
             let rescan :=
               execute_multisig
                 (filter (fun t => is_cosigned t = true) (objects s1)) tt s1 in
             r = res rescan /\ s' = st rescan /\ evs = tr1 ++ trace rescan) tt s).
unfold execute_deposits. wp_prim. wp_prim. wp_prim.
unfold wp at 1. rewrite Hready. wp_red.
wp_prim. wp_prim. unfold wp at 1. rewrite Hskip. wp_red.
wp_prim. wp_prim. unfold wp. cbn [app]. rewrite app_nil_r. repeat split.
Qed.

(** X18: with the termination flag set, a pass of the trustline
    poller does nothing, whatever deposits are pending trust. *)
Theorem terminate_stops_check_trustlines (s : State World) :
  TERMINATE s = true ->
  check_trustlines tt s = {| res := Ok tt; obj := tt; st := s; trace := [] |}.
Proof.
intros HT. unfold check_trustlines.
unfold bind. cbn [get_state res obj st trace].
destruct (filter _ (objects s)) as [|t rest]; [reflexivity|].
cbn [check_trustlines_loop]. unfold bind. cbn [get_state res obj st trace].
rewrite HT. reflexivity.
Qed.

End Passes.

Section PollerPass.

Context {World : Type} `{C : Collaborators World}.

Lemma check_trustlines_loop_saves transactions accounts (s : State World) :
  wp (check_trustlines_loop transactions accounts)
    (fun _ _ _ evs =>
       Forall (fun row => exists t, In t transactions /\ same_deposit t row)
         (saves evs)) tt s.
Proof.
revert accounts s.
induction transactions as [|t rest IH]; intros accounts s;
  cbn [check_trustlines_loop].
- wp_prim. constructor.
- assert (Hmono : forall evs,
      Forall (fun row => exists t0, In t0 rest /\ same_deposit t0 row) evs ->
      Forall (fun row => exists t0, In t0 (t :: rest) /\ same_deposit t0 row) evs).
  { intros evs. apply List.Forall_impl. intros row (t0 & Hin & Hs).
    exists t0. split; [right; exact Hin | exact Hs]. }
  assert (Hhere : forall evs,
      Forall (same_deposit t) evs ->
      Forall (fun row => exists t0, In t0 (t :: rest) /\ same_deposit t0 row) evs).
  { intros evs. apply List.Forall_impl. intros row Hs.
    exists t. split; [left; reflexivity | exact Hs]. }
  assert (Hbody : forall account accounts' (s0 : State World),
      wp (with_local t (check_balances account (balances account)) ;;
          check_trustlines_loop rest accounts')
        (fun _ _ _ evs =>
           Forall (fun row => exists t0, In t0 (t :: rest) /\ same_deposit t0 row)
             (saves evs)) tt s0).
  { intros account accounts' s0. wp_prim. wp_prim.
    wp_use (check_balances_same t account (balances account) t s0
              (same_deposit_refl t));
      [|apply Hhere, Hpost].
    destruct Hpost as [_ Hsaves].
    wp_use IH; norm_log; apply Forall_app; split;
      first [apply Hhere, Hsaves | apply Hmono, Hpost]. }
  wp_prim. wp_prim. wp_prim; [wp_prim; constructor|].
  wp_prim; [apply Hbody|].
  wp_prim. wp_prim. wp_prim. wp_prim. wp_prim.
  + wp_prim. apply Hbody.
  + wp_prim; [|constructor].
    wp_go. wp_use IH; norm_log; apply Hmono, Hpost.
Qed.

(** X19: every row a pass of the trustline poller saves is a row of a
    deposit that was [pending_trust] when the pass began, with its
    identifying fields unchanged. *)
Theorem check_trustlines_writes_pending_trust (s : State World) :
  Forall (fun row =>
            exists t,
              In t (objects s) /\ is_pending_trust_deposit t = true
              /\ same_deposit t row)
    (saves (trace (check_trustlines tt s))).
Proof.
enough (Hwp : wp check_trustlines
          (fun _ _ _ evs =>
             Forall (fun row =>
                       exists t,
                         In t (objects s) /\ is_pending_trust_deposit t = true
                         /\ same_deposit t row) (saves evs)) tt s) by exact Hwp.
unfold check_trustlines. wp_prim. wp_prim.
wp_use check_trustlines_loop_saves;
  (eapply List.Forall_impl; [|exact Hpost]);
  intros row (t & Hin & Hsame); exists t;
  apply list_elem_of_In, list_elem_of_filter in Hin;
  destruct Hin as [Hp Hin]; apply list_elem_of_In in Hin; auto.
Qed.

(** X20: a balance line that is not native and has no [asset_code]
    (met before any line of the deposit's asset) raises [KeyError]; the
    poller does not catch it, so the pass ends there: the deposits that
    follow are not polled and nothing is saved. *)
Theorem check_trustlines_malformed_line (t : Transaction)
    (rest : list Transaction) (accounts : gmap string AccountResponse)
    (s : State World) (account : AccountResponse) (w : World)
    (pre post : list Balance) (balance : Balance) :
  TERMINATE s = false ->
  accounts !! stellar_account t = None ->
  horizon_account_call (stellar_account t) (world s) = (Ok account, w) ->
  balances account = pre ++ balance :: post ->
  forallb (other_line t) pre = true ->
  is_native balance = false ->
  asset_code balance = None ->
  let pass := check_trustlines_loop (t :: rest) accounts tt s in
  res pass = Raise (KeyError "asset_code")
  /\ trace pass = [EvFetchAccount (stellar_account t) (Ok account)]
  /\ db (st pass) = db s.
Proof.
intros HT Hacc Hcall Hbal Hpre Hn Hc pass. subst pass.
assert (Hcb : forall (s0 : State World),
          check_balances account (pre ++ balance :: post) t s0
          = {| res := Raise (KeyError "asset_code"); obj := t; st := s0;
               trace := [] |}).
{ intros s0. clear Hbal. induction pre as [|b pre IH].
  - apply check_balances_malformed_line; assumption.
  - cbn [forallb] in Hpre. apply andb_true_iff in Hpre.
    destruct Hpre as [Hb Hpre]. specialize (IH Hpre).
    cbn [app check_balances]. unfold other_line in Hb.
    destruct (is_native b); [exact IH|]. cbn [orb] in Hb.
    unfold bind at 1. cbn [get_local res obj st trace].
    destruct (asset_code b) as [c|]; [|discriminate Hb].
    destruct (negb (c =? code (asset t))%string).
    + rewrite IH. reflexivity.
    + cbn [orb] in Hb. destruct (asset_issuer b) as [i|]; [|discriminate Hb].
      rewrite Hb, IH. reflexivity. }
change (wp (check_trustlines_loop (t :: rest) accounts)
          (fun r _ s' evs =>
             r = Raise (KeyError "asset_code")
             /\ evs = [EvFetchAccount (stellar_account t) (Ok account)]
             /\ db s' = db s) tt s).
cbn [check_trustlines_loop]. wp_prim. wp_prim. rewrite HT, Hacc.
wp_prim. wp_prim. wp_prim. unfold HORIZON_SERVER_account.
eapply wp_call_answer; [exact Hcall|]. wp_red.
wp_prim. wp_prim. wp_prim.
unfold wp at 1. rewrite Hbal, Hcb. wp_red. repeat split.
Qed.

End PollerPass.

Section SubmitEdges.

Context {World : Type} `{C : Collaborators World}.

(** X21: a connection failure on submission is not a
    [BaseHorizonError]: [submit] does not catch it, the exception leaves
    [submit] and the deposit stays [pending_stellar], in the object and in
    its row. *)
Theorem submit_connection_failure (t : Transaction) (s : State World)
    (envelope : TransactionEnvelope) (msg : string) :
  let run := submit t s in
  In (envelope, Raise (ConnectionError msg)) (submissions (trace run)) ->
  res run = Raise (RequestError (ConnectionError msg))
  /\ status (obj run) = pending_stellar
  /\ db (st run) !! id t = Some (obj run)
  /\ marks (trace run) = [Saved pending_anchor; Saved pending_stellar; Submitted].
Proof.
intros run. subst run.
change (wp submit
          (fun r l' s' evs =>
             In (envelope, Raise (ConnectionError msg)) (submissions evs) ->
             r = Raise (RequestError (ConnectionError msg))
             /\ status l' = pending_stellar
             /\ db s' !! id t = Some l'
             /\ marks evs = [Saved pending_anchor; Saved pending_stellar; Submitted])
          t s).
unfold submit. wp_prim. wp_prim. wp_prim; [wp_prim; intros []|].
do 11 wp_prim.
wp_block (fun _ : result TransactionEnvelope => True).
{ wp_prim.
  - wp_prim; repeat split; read_events.
  - wp_prim. wp_read (get_account_obj_reads (L:=Transaction));
      [|repeat split; read_events].
    wp_prim. wp_read create_deposit_envelope_reads;
      [|repeat split; read_events].
    wp_prim. repeat split; read_events. }
2: { norm_log. intros []. }
unfold _handle_error.
wp_go; norm_log; intros [Hin|[]]; try discriminate Hin;
  injection Hin as <- ->;
  try match goal with
      | E : is_BaseHorizonError _ = true |- _ => discriminate E
      end.
norm_marks. repeat split. apply lookup_insert_eq.
Qed.

(** X22: when the stored envelope of a deposit does not decode,
    [submit] raises after it has saved the deposit as [pending_anchor] with
    an ETA of 5: nothing is submitted and the status is not set to
    [error]. *)
Theorem submit_undecodable_envelope (t : Transaction) (s : State World)
    (xdr : string) :
  existsb (Status_eqb (status t)) valid_statuses = true ->
  envelope_xdr t = Some xdr -> xdr <> "" ->
  TransactionEnvelope_from_xdr xdr (STELLAR_NETWORK_PASSPHRASE settings) = None ->
  let run := submit t s in
  (exists e, res run = Raise e)
  /\ obj run = set_status_eta (Some 5) (set_status pending_anchor t)
  /\ saves (trace run) = [obj run]
  /\ submissions (trace run) = [].
Proof.
intros Hst Hxdr Hne Hdec run. subst run.
change (wp submit
          (fun r l' _ evs =>
             (exists e, r = Raise e)
             /\ l' = set_status_eta (Some 5) (set_status pending_anchor t)
             /\ saves evs = [l'] /\ submissions evs = []) t s).
unfold submit. wp_prim. wp_prim. rewrite Hst. cbn [negb].
do 11 wp_prim.
rewrite Hxdr. cbn [truthy default from_option].
destruct (xdr =? "")%string eqn:E; [apply String.eqb_eq in E; contradiction|].
cbn [negb]. change (Datatypes.id xdr) with xdr. rewrite Hdec.
wp_go; (split; [eexists; reflexivity|]); repeat split.
Qed.

(** X23: whatever the integration [after_deposit] raises is caught and
    logged: the hook is called once, the call returns normally, and the
    deposit and the rows are as before. *)
Theorem after_deposit_failure_is_contained (log_msg : string)
    (t : Transaction) (s : State World) :
  let run := after_deposit log_msg t s in
  res run = Ok tt /\ obj run = t /\ db (st run) = db s
  /\ exists answer,
       trace run
       = EvAfterDeposit t answer
         :: match answer with
            | Ok _ => []
            | Raise _ => [EvLog EXCEPTION log_msg]
            end.
Proof.
intros run. subst run.
change (wp (after_deposit log_msg)
          (fun r l' s' evs =>
             r = Ok tt /\ l' = t /\ db s' = db s
             /\ exists answer,
                  evs = EvAfterDeposit t answer
                        :: match answer with
                           | Ok _ => []
                           | Raise _ => [EvLog EXCEPTION log_msg]
                           end) t s).
unfold after_deposit.
wp_go; repeat match goal with u : unit |- _ => destruct u end;
  do 3 (split; [reflexivity|]);
  match goal with
  | |- context [EvAfterDeposit _ ?answer :: _] => exists answer
  end; reflexivity.
Qed.

End SubmitEdges.

Section SchedulerFacts.

Context {World : Type} `{C : Collaborators World}.
Variable time_sleep : World -> World * bool.

Lemma seconds_slept_app steps1 steps2 :
  seconds_slept (steps1 ++ steps2) = (seconds_slept steps1 + seconds_slept steps2)%nat.
Proof.
induction steps1 as [|st steps1 IH]; [reflexivity|].
destruct st; cbn [app seconds_slept]; rewrite IH; reflexivity.
Qed.

Lemma sleep_loop_spec m n (s : State World) :
  let r := sleep_loop time_sleep m n s in
  (seconds_slept (snd r) <= n)%nat
  /\ db (fst r) = db s
  /\ (TERMINATE s = true -> r = (s, []))
  /\ ((seconds_slept (snd r) < n)%nat -> TERMINATE (fst r) = true).
Proof.
revert s. induction n as [|n IH]; intros s; cbn [sleep_loop].
- cbn [fst snd seconds_slept]. split; [lia|]. split; [reflexivity|].
  split; [reflexivity|]. lia.
- destruct (TERMINATE s) eqn:HT.
  + cbn [fst snd seconds_slept]. split; [lia|]. split; [reflexivity|].
    split; [reflexivity|]. intros _. exact HT.
  + destruct (time_sleep (world s)) as [w signalled]. cbn [fst snd].
    destruct signalled; cbn [exit_gracefully fst snd].
    * match goal with
      | |- context [sleep_loop _ _ _ ?s1] =>
          destruct (IH s1) as (_ & _ & Hterm & _)
      end.
      rewrite (Hterm eq_refl). cbn [fst snd app seconds_slept db TERMINATE].
      split; [lia|]. split; [reflexivity|].
      split; [discriminate|]. reflexivity.
    * match goal with
      | |- context [sleep_loop _ _ _ ?s1] =>
          destruct (IH s1) as (Hle & Hdb & _ & Hlt)
      end.
      cbn [app seconds_slept]. cbn [db] in Hdb.
      split; [lia|]. split; [exact Hdb|].
      split; [discriminate|]. intros H. apply Hlt. lia.
Qed.

(** X24: [sleep(seconds)] sleeps at most [seconds] one-second steps
    (none for a negative argument), none at all when the termination flag is
    already set, and when it sleeps fewer than [seconds] the flag is set;
    it never touches the rows. *)
Theorem sleep_is_bounded_and_interruptible (m : CommandModule) (seconds : Z)
    (s : State World) :
  let r := sleep time_sleep m seconds s in
  (Z.of_nat (seconds_slept (snd r)) <= Z.max 0 seconds)
  /\ db (fst r) = db s
  /\ (TERMINATE s = true -> r = (s, []))
  /\ (Z.of_nat (seconds_slept (snd r)) < seconds -> TERMINATE (fst r) = true).
Proof.
intros r. subst r. unfold sleep.
destruct (sleep_loop_spec m (Z.to_nat seconds) s) as (Hle & Hdb & Hterm & Hlt).
split; [lia|]. split; [exact Hdb|]. split; [exact Hterm|].
intros H. apply Hlt. lia.
Qed.

(** X25: in loop mode, when a signal arrives during the first second
    of sleep after a pass, the command logs its exit, finishes that second,
    runs no further pass and ends normally with the flag set. *)
Theorem handle_shuts_down_gracefully (m : CommandModule)
    (interval : option Z) (s : State World) (w : World) (passes : nat) :
  let r := run_pass m tt s in
  TERMINATE s = false ->
  res r = Ok tt ->
  TERMINATE (st r) = false ->
  0 < interval_of m interval ->
  time_sleep (world (st r)) = (w, true) ->
  handle time_sleep (S (S passes)) m true interval s
  = Some (Ok tt,
          {| db := db (st r); world := w; TERMINATE := true |},
          map Ran (trace r)
          ++ [Ran (EvLog INFO ("Exiting " +:+ module_name m +:+ "...")); Slept]).
Proof.
intros r HT Hres HT' Hpos Htick.
unfold handle. cbn [handle_loop]. rewrite HT. fold r. rewrite Hres.
unfold sleep.
destruct (Z.to_nat (interval_of m interval)) as [|n] eqn:En; [lia|].
cbn [sleep_loop]. rewrite HT', Htick.
cbn [fst snd exit_gracefully db world TERMINATE].
destruct (sleep_loop_spec m n
            {| db := db (st r); world := w; TERMINATE := true |})
  as (_ & _ & Hterm & _).
rewrite (Hterm eq_refl). cbn [fst snd TERMINATE app]. reflexivity.
Qed.

End SchedulerFacts.

Lemma create_deposit_envelope_fields_witness :
  let source := {| account_id := "GDIST"; sequence := 7 |} in
  exists envelope,
    let run := create_deposit_envelope source sim_deposit (sim_state sim_deposit) in
    (exists fee, chosen_fee fee (trace run) /\ tx_fee envelope = fee)
    /\ tx_memo envelope = deposit_memo sim_deposit
    /\ tx_sequence envelope = sequence source + 1
    /\ tx_network_passphrase envelope = STELLAR_NETWORK_PASSPHRASE settings
    /\ signatures envelope = []
    /\ obj run = sim_deposit /\ db (st run) = db (sim_state sim_deposit)
    /\ saves (trace run) = [].
Proof.
intros source. eexists.
refine (@create_deposit_envelope_fields Sim.World Sim.collaborators
          source sim_deposit (sim_state sim_deposit) _ _).
vm_compute. reflexivity.
Defined.

Lemma submit_fresh_envelope_witness :
  exists envelope distribution d fee json,
    In (EvFetchAccount (distribution_account (asset sim_deposit)) (Ok distribution))
      (trace (submit sim_deposit (sim_state sim_deposit)))
    /\ net_amount sim_deposit = Ok d
    /\ envelope
       = sign (Keypair_from_secret (distribution_seed (asset sim_deposit)))
           (deposit_envelope (load_account distribution) sim_deposit d fee json)
    /\ (res (submit sim_deposit (sim_state sim_deposit)) = Ok true ->
        amount_out (obj (submit sim_deposit (sim_state sim_deposit))) = Some d).
Proof.
eexists.
refine (@submit_fresh_envelope Sim.World Sim.collaborators
          sim_deposit (sim_state sim_deposit) _ _ _ _).
- vm_compute. reflexivity.
- vm_compute. left. reflexivity.
Defined.

Lemma submit_records_response_witness :
  let run := submit sim_deposit (sim_state sim_deposit) in
  exists envelope response,
    submissions (trace run) = [(envelope, Ok response)]
    /\ Response.successful response = true
    /\ envelope_xdr (obj run) = Some (Response.envelope_xdr response)
    /\ paging_token (obj run) = Some (Response.paging_token response)
    /\ stellar_transaction_id (obj run) = Some (Response.id response)
    /\ status_eta (obj run) = Some 0
    /\ completed_at (obj run) = Some (utc_now (world (st run)))
    /\ (if claimable_balance_supported sim_deposit
        then get_balance_id response = Ok (claimable_balance_id (obj run))
        else claimable_balance_id (obj run) = claimable_balance_id sim_deposit)
    /\ last (saves (trace run)) = Some (obj run).
Proof.
refine (@submit_records_response Sim.World Sim.collaborators
          sim_deposit (sim_state sim_deposit) _).
vm_compute. reflexivity.
Defined.

Lemma single_signature_never_cosigned_witness :
  let run := run_operation op_execute_deposit sim_deposit (sim_state sim_deposit) in
  channel_creations (trace run) = []
  /\ single_signature sim_deposit (obj run)
  /\ Forall (single_signature sim_deposit) (saves (trace run)).
Proof.
refine (@single_signature_never_cosigned Sim.World Sim.collaborators
          op_execute_deposit sim_deposit (sim_state sim_deposit) _ _).
- vm_compute. reflexivity.
- discriminate.
Defined.

Lemma multisig_deposit_not_paid_witness :
  let account := Sim.account_of "GDEST" [Sim.line "USD" "GISSUER"] in
  Forall (fun p => is_account_creation p.1 = true)
    (submissions (trace (execute_deposit sim_multisig_deposit
                           (sim_state sim_multisig_deposit))))
  /\ submissions (trace (check_balances account (balances account)
                           sim_multisig_deposit (sim_state sim_multisig_deposit)))
     = []
  /\ submissions (trace (check_ready_transaction sim_multisig_deposit
                           (sim_state sim_multisig_deposit))) = [].
Proof.
intros account.
refine (@multisig_deposit_not_paid Sim.World Sim.collaborators
          sim_multisig_deposit (sim_state sim_multisig_deposit) account _).
vm_compute. reflexivity.
Defined.

Lemma check_balances_without_trustline_witness :
  let account := Sim.account_of "GDEST" [Sim.line "EUR" "GISSUER"] in
  check_balances account (balances account) sim_pending_trust
    (sim_state sim_pending_trust)
  = {| res := Ok tt; obj := sim_pending_trust;
       st := sim_state sim_pending_trust; trace := [] |}.
Proof.
intros account.
refine (@check_balances_without_trustline Sim.World Sim.collaborators
          account (balances account) sim_pending_trust
          (sim_state sim_pending_trust) _).
vm_compute. reflexivity.
Defined.

Lemma get_ready_deposits_fills_fees_witness :
  let s := sim_with [sim_without_fee] false
             (sim_world Sim.funded Sim.Accept
                (Ok (PyList [sim_without_fee; sim_deposit]))) in
  let ready := [sim_without_fee; sim_deposit] in
  let run := get_ready_deposits tt s in
  res run = Ok (PyList (map with_fee ready))
  /\ saves (trace run)
     = map with_fee (filter (fun t => lacks_fee t = true) ready)
  /\ world (st run) = world s
  /\ TERMINATE (st run) = TERMINATE s.
Proof.
intros s ready.
refine (@get_ready_deposits_fills_fees Sim.World Sim.collaborators
          s ready (db s) (world s) _ _).
- vm_compute. reflexivity.
- vm_compute. reflexivity.
Defined.

Lemma execute_deposits_requires_a_list_witness :
  let s := sim_with [sim_deposit] false
             (sim_world Sim.funded Sim.Accept (Ok (PyTuple [sim_deposit]))) in
  res (execute_deposits tt s)
  = Raise (CommandError
             "poll_pending_deposits() did not return a list of transaction objects.")
  /\ st (execute_deposits tt s) = st (get_ready_deposits tt s)
  /\ trace (execute_deposits tt s) = trace (get_ready_deposits tt s).
Proof.
intros s.
refine (@execute_deposits_requires_a_list Sim.World Sim.collaborators
          s [sim_deposit] _).
vm_compute. reflexivity.
Defined.

Lemma terminate_skips_ready_deposits_witness :
  let s := sim_with [sim_deposit] true
             (sim_world Sim.funded Sim.Accept (Ok (PyList [sim_deposit]))) in
  let s1 := st (get_ready_deposits tt s) in
  let tr1 := trace (get_ready_deposits tt s) in
  execute_ready [sim_deposit] tt s1
  = {| res := Ok tt; obj := tt; st := s1; trace := [] |}
  /\ (let rescan :=
        execute_multisig (filter (fun t => is_cosigned t = true) (objects s1))
          tt s1 in
      res (execute_deposits tt s) = res rescan
      /\ st (execute_deposits tt s) = st rescan
      /\ trace (execute_deposits tt s) = tr1 ++ trace rescan).
Proof.
intros s s1 tr1.
refine (@terminate_skips_ready_deposits Sim.World Sim.collaborators
          s [sim_deposit] s1 tr1 _ _).
- reflexivity.
- vm_compute. reflexivity.
Defined.

Lemma terminate_stops_check_trustlines_witness :
  let s := sim_with [sim_pending_trust] true
             (sim_world Sim.funded Sim.Accept (Ok (PyList []))) in
  check_trustlines tt s = {| res := Ok tt; obj := tt; st := s; trace := [] |}.
Proof.
intros s.
refine (@terminate_stops_check_trustlines Sim.World Sim.collaborators s _).
reflexivity.
Defined.

Lemma check_trustlines_malformed_line_witness :
  let s := sim_with [sim_pending_trust] false
             (sim_world sim_pool_share Sim.Accept (Ok (PyList []))) in
  let account :=
    Sim.account_of "GDEST"
      [{| asset_type := Some "liquidity_pool_shares"; asset_code := None;
          asset_issuer := None |};
       Sim.line "USD" "GISSUER"] in
  let pass := check_trustlines_loop [sim_pending_trust] ∅ tt s in
  res pass = Raise (KeyError "asset_code")
  /\ trace pass = [EvFetchAccount (stellar_account sim_pending_trust) (Ok account)]
  /\ db (st pass) = db s.
Proof.
intros s account.
refine (@check_trustlines_malformed_line Sim.World Sim.collaborators
          sim_pending_trust [] ∅ s account (world s)
          [{| asset_type := Some "native"; asset_code := None;
              asset_issuer := None |}]
          [Sim.line "USD" "GISSUER"]
          {| asset_type := Some "liquidity_pool_shares"; asset_code := None;
             asset_issuer := None |}
          _ _ _ _ _ _ _).
all: vm_compute; reflexivity.
Defined.

Lemma submit_connection_failure_witness :
  let s := sim_with [sim_deposit] false
             (sim_world Sim.funded (Sim.Fail (ConnectionError "timed out"))
                (Ok (PyList []))) in
  let run := submit sim_deposit s in
  res run = Raise (RequestError (ConnectionError "timed out"))
  /\ status (obj run) = pending_stellar
  /\ db (st run) !! id sim_deposit = Some (obj run)
  /\ marks (trace run) = [Saved pending_anchor; Saved pending_stellar; Submitted].
Proof.
intros s.
refine (@submit_connection_failure Sim.World Sim.collaborators
          sim_deposit s _ "timed out" _).
vm_compute. left. reflexivity.
Defined.

Lemma submit_undecodable_envelope_witness :
  let run := submit sim_garbled (sim_state sim_garbled) in
  (exists e, res run = Raise e)
  /\ obj run = set_status_eta (Some 5) (set_status pending_anchor sim_garbled)
  /\ saves (trace run) = [obj run]
  /\ submissions (trace run) = [].
Proof.
refine (@submit_undecodable_envelope Sim.World Sim.collaborators
          sim_garbled (sim_state sim_garbled) "garbled" _ _ _ _).
- vm_compute. reflexivity.
- reflexivity.
- discriminate.
- vm_compute. reflexivity.
Defined.

Lemma execute_deposit_waits_for_trustline_witness :
  let s := sim_with [sim_deposit] false
             (sim_world sim_no_trustline Sim.Accept (Ok (PyList []))) in
  let found := get_or_create_destination_account sim_deposit s in
  let t' := set_status pending_trust (obj found) in
  res (execute_deposit sim_deposit s) = Ok tt
  /\ obj (execute_deposit sim_deposit s) = t'
  /\ db (st (execute_deposit sim_deposit s)) = <[id sim_deposit := t']> (db (st found))
  /\ trace (execute_deposit sim_deposit s)
     = trace found
       ++ [EvLog INFO ("destination account is pending_trust for transaction "
                       +:+ id sim_deposit);
           EvSave t'; EvCallback t'].
Proof.
intros s.
refine (@execute_deposit_waits_for_trustline Sim.World Sim.collaborators
          sim_deposit s {| account_id := "GDEST"; sequence := 7 |} _ _).
- vm_compute. reflexivity.
- reflexivity.
Defined.

Lemma execute_deposit_resolver_error_witness :
  let s := sim_with [sim_deposit] false
             (sim_world [] Sim.Accept (Ok (PyList []))) in
  let found := get_or_create_destination_account sim_deposit s in
  let msg := "account GDIST does not exist" in
  let t' := set_status_message (Some msg) (set_status error (obj found)) in
  res (execute_deposit sim_deposit s) = Ok tt
  /\ obj (execute_deposit sim_deposit s) = t'
  /\ db (st (execute_deposit sim_deposit s)) = <[id sim_deposit := t']> (db (st found))
  /\ trace (execute_deposit sim_deposit s)
     = trace found ++ [EvSave t'; EvLog ERROR msg; EvCallback t'].
Proof.
intros s found msg.
refine (@execute_deposit_resolver_error Sim.World Sim.collaborators
          sim_deposit s (RuntimeError msg) _).
vm_compute. reflexivity.
Defined.

Lemma resolver_finds_destination_witness :
  let s := sim_state sim_deposit in
  let json := Sim.account_of "GDEST" [Sim.line "USD" "GISSUER"] in
  let found := get_or_create_destination_account sim_deposit s in
  res found = Ok (load_account json, is_pending_trust sim_deposit json)
  /\ obj found = sim_deposit
  /\ st found = {| db := db s; world := world s; TERMINATE := TERMINATE s |}
  /\ trace found = [EvFetchAccount (stellar_account sim_deposit) (Ok json)].
Proof.
intros s json.
refine (@resolver_finds_destination Sim.World Sim.collaborators
          sim_deposit s json (world s) _).
vm_compute. reflexivity.
Defined.

Lemma resolver_creation_refused_witness :
  let s := sim_with [sim_deposit] false
             (sim_world [Sim.account_of "GDIST" []]
                (Sim.Fail (BadRequestError "op_low_reserve")) (Ok (PyList []))) in
  let found := get_or_create_destination_account sim_deposit s in
  exists envelope,
    res found
    = Raise (if is_BaseHorizonError (RequestError (BadRequestError "op_low_reserve"))
             then RuntimeError
                    ("Horizon error when submitting create account to horizon: "
                     +:+ message_of (RequestError (BadRequestError "op_low_reserve")))
             else RequestError (BadRequestError "op_low_reserve"))
    /\ last (trace found)
       = Some (EvSubmit envelope (Raise (BadRequestError "op_low_reserve"))).
Proof.
intros s found. eexists.
refine (@resolver_creation_refused Sim.World Sim.collaborators
          sim_deposit s _ (BadRequestError "op_low_reserve") _).
vm_compute. left. reflexivity.
Defined.

Lemma handle_shuts_down_gracefully_witness :
  let time_sleep := fun w : Sim.World => (w, true) in
  let m := check_trustlines_command in
  let s := sim_with [] false (sim_world Sim.funded Sim.Accept (Ok (PyList []))) in
  let r := run_pass m tt s in
  handle time_sleep 2 m true None s
  = Some (Ok tt,
          {| db := db (st r); world := world s; TERMINATE := true |},
          map Ran (trace r)
          ++ [Ran (EvLog INFO ("Exiting " +:+ module_name m +:+ "...")); Slept]).
Proof.
intros time_sleep m s.
refine (@handle_shuts_down_gracefully Sim.World time_sleep
          m None s (world s) 0 _ _ _ _ _).
all: vm_compute; reflexivity.
Defined.
